(** * nslslSearch.js: the query builder, the default filters, the selection
      array and the export checks of the NSLSL search page

    The script is jQuery glue around a page.  Its functions read and write
    the values of named page elements, so the embedding passes the page
    state explicitly: every handler is a function from the state of the
    elements it touches to their new state, and a handler that may send a
    request returns what it decided together with the state.

    Texts are [string]; JavaScript numbers are [Z], on the fragment where
    the coercions used by the script are exact (see [JS.Number]). *)

From Stdlib Require Import ZArith NArith Lia.
From Stdlib Require Import Strings.String Strings.Ascii DecimalString.
From stdpp Require Import base option list sets strings.
From stdpp Require Import gmap.

Local Open Scope string_scope.

(** ** The JavaScript coercions the script relies on *)

Module JS.

(** [n.toString()], and a number inside a string concatenation: the
    decimal numeral of an integer, with a minus sign when negative.  This
    is what JavaScript prints for an integer it holds exactly, that is of
    magnitude below 2^53 ([safeInteger]); from 10^21 on JavaScript prints
    an exponent, which is not modelled. *)
Definition toString (z : Z) : string :=
  NilZero.string_of_int (Z.to_int z).

Definition safeInteger (z : Z) : bool :=
  (- 2 ^ 53 <? z)%Z && (z <? 2 ^ 53)%Z.

(** [Number(s)] and the implicit coercion of a text in a numeric
    comparison or subtraction.  The embedding covers the texts a year box
    or a count field is meant to hold: the empty text, which JavaScript
    coerces to 0, and plain decimal numerals of at most 15 digits, which
    are exact as doubles.  [None] marks a text outside this fragment
    (signs, fractions, exponents, blanks, other characters): the script's
    behaviour on it is not modelled. *)
Definition Number (s : string) : option Z :=
  if s =? "" then Some 0%Z
  else if (15 <? String.length s)%nat then None
  else (fun d => Z.of_N (N.of_uint d)) <$> NilEmpty.uint_of_string s.

(** A text used as a condition ([!s]): only the empty text is falsy. *)
Definition falsy (s : string) : bool := s =? "".

(** The texts [Number] turns into [NaN].  JavaScript reads a text as a
    number when, blanks at both ends apart, it is empty or a numeric
    literal: an optionally signed [Infinity] or decimal literal (digits,
    a point, an exponent), or an unsigned [0x], [0o] or [0b] literal.
    Every other text is [NaN].  Only the ASCII blanks are recognised, so
    a text with a character outside ASCII is never reported. *)
Definition isWhite (c : ascii) : bool :=
  let n := nat_of_ascii c in
  ((9 <=? n) && (n <=? 13) || (n =? 32))%nat.

Definition isAscii (c : ascii) : bool := (nat_of_ascii c <? 128)%nat.

Definition between (lo hi c : ascii) : bool :=
  ((nat_of_ascii lo <=? nat_of_ascii c)
   && (nat_of_ascii c <=? nat_of_ascii hi))%nat.

Definition isDigit (c : ascii) : bool := between "0" "9" c.
Definition isBinDigit (c : ascii) : bool := between "0" "1" c.
Definition isOctDigit (c : ascii) : bool := between "0" "7" c.
Definition isHexDigit (c : ascii) : bool :=
  between "0" "9" c || between "a" "f" c || between "A" "F" c.
Definition isSign (c : ascii) : bool :=
  Ascii.eqb c "+" || Ascii.eqb c "-".

Fixpoint dropWhile (p : ascii -> bool) (s : string) : string :=
  match s with
  | EmptyString => EmptyString
  | String c rest => if p c then dropWhile p rest else s
  end.

Fixpoint forallChars (p : ascii -> bool) (s : string) : bool :=
  match s with
  | EmptyString => true
  | String c rest => p c && forallChars p rest
  end.

(** At least one character of [s] satisfies [p], and only blanks follow
    the run of them. *)
Definition runToEnd (p : ascii -> bool) (s : string) : bool :=
  let rest := dropWhile p s in
  negb (String.length rest =? String.length s)%nat
  && forallChars isWhite rest.

(** What may follow the mantissa: an exponent, then blanks. *)
Definition exponentOrEnd (s : string) : bool :=
  match s with
  | String c rest =>
      if Ascii.eqb c "e" || Ascii.eqb c "E" then
        match rest with
        | String sign rest' =>
            if isSign sign then runToEnd isDigit rest'
            else runToEnd isDigit rest
        | EmptyString => false
        end
      else forallChars isWhite s
  | EmptyString => true
  end.

Definition unsignedDecimal (s : string) : bool :=
  if String.prefix "Infinity" s
  then forallChars isWhite (String.substring 8 (String.length s - 8) s)
  else
    let rest := dropWhile isDigit s in
    let integerPart := negb (String.length rest =? String.length s)%nat in
    match rest with
    | String "." rest1 =>
        let rest2 := dropWhile isDigit rest1 in
        let fraction :=
          negb (String.length rest2 =? String.length rest1)%nat in
        (integerPart || fraction) && exponentOrEnd rest2
    | _ => integerPart && exponentOrEnd rest
    end.

Definition nonDecimal (s : string) : bool :=
  match s with
  | String "0" (String c rest) =>
      if Ascii.eqb c "x" || Ascii.eqb c "X" then runToEnd isHexDigit rest
      else if Ascii.eqb c "o" || Ascii.eqb c "O"
           then runToEnd isOctDigit rest
      else if Ascii.eqb c "b" || Ascii.eqb c "B"
           then runToEnd isBinDigit rest
      else false
  | _ => false
  end.

Definition numericLiteral (s : string) : bool :=
  nonDecimal s
  || match s with
     | String c rest =>
         if isSign c then unsignedDecimal rest else unsignedDecimal s
     | EmptyString => false
     end.

Definition notANumber (s : string) : bool :=
  forallChars isAscii s
  && let t := dropWhile isWhite s in
     negb (t =? "") && negb (numericLiteral t).

End JS.

(** A value read with jQuery's [.data(key)].  jQuery hands an attribute
    back as a number when the number prints as the attribute's own text,
    and as a boolean, [null], an array or an object when the attribute
    spells one; any other attribute comes back as its text.  Two kinds
    of value are modelled: [DNum z], a number that is an integer
    JavaScript holds exactly ([covered]: magnitude below 2^53, printed in
    plain digits), and [DStr s], a text.  Fractions, larger numbers,
    booleans, [null], arrays and objects are left out: a page whose
    attributes hold them is outside the embedding. *)
Inductive jqdata : Type :=
| DNum (z : Z)
| DStr (s : string).

Definition covered (d : jqdata) : bool :=
  match d with
  | DNum z => JS.safeInteger z
  | DStr _ => true
  end.

Global Instance jqdata_eq_dec : EqDecision jqdata.
Proof. solve_decision. Defined.

(** [d] inside a string concatenation. *)
Definition data_text (d : jqdata) : string :=
  match d with
  | DNum z => JS.toString z
  | DStr s => s
  end.

(** [d] as an operand of a subtraction. *)
Definition data_number (d : jqdata) : option Z :=
  match d with
  | DNum z => Some z
  | DStr s => JS.Number s
  end.

(** ** The advanced-search query builder: [addToQueryBox] *)

Module QueryBuilder.

(** The three buttons that call [addToQueryBox]. *)
Inductive button : Type := btnAdd | btnNot | btnOr.

Global Instance button_eq_dec : EqDecision button.
Proof. solve_decision. Defined.

(** The elements [addToQueryBox] reads or writes. *)
Record dom : Type := Dom {
  searchValue : string;            (* #searchValue *)
  searchFromValue : string;        (* #searchFromValue *)
  searchToValue : string;          (* #searchToValue *)
  queryBox : string;               (* #queryBox *)
  searchCriteria : string;         (* #searchCriteria *)
  field : string;                  (* text of the selected #searchOptions entry *)
  columntype : string;             (* its data-columntype *)
  emptySearchTerm : string;        (* html of #emptySearchTerm *)
  emptySearchTerm_hidden : bool;   (* #emptySearchTerm has class d-none *)
  text : button -> string;         (* caption of each button *)
  operator : button -> string;     (* data-operator of each button *)
  btnNot_hidden : bool;            (* #btnNot has class d-none *)
  btnOr_hidden : bool;             (* #btnOr has class d-none *)
  btnSearch_disabled : bool        (* .btnSearch has class disabled *)
}.

Definition set_searchValue (v : string) (d : dom) : dom :=
  Dom v (searchFromValue d) (searchToValue d) (queryBox d)
      (searchCriteria d) (field d) (columntype d) (emptySearchTerm d)
      (emptySearchTerm_hidden d) (text d) (operator d) (btnNot_hidden d)
      (btnOr_hidden d) (btnSearch_disabled d).

Definition set_queryBox (v : string) (d : dom) : dom :=
  Dom (searchValue d) (searchFromValue d) (searchToValue d) v
      (searchCriteria d) (field d) (columntype d) (emptySearchTerm d)
      (emptySearchTerm_hidden d) (text d) (operator d) (btnNot_hidden d)
      (btnOr_hidden d) (btnSearch_disabled d).

Definition set_searchCriteria (v : string) (d : dom) : dom :=
  Dom (searchValue d) (searchFromValue d) (searchToValue d) (queryBox d)
      v (field d) (columntype d) (emptySearchTerm d)
      (emptySearchTerm_hidden d) (text d) (operator d) (btnNot_hidden d)
      (btnOr_hidden d) (btnSearch_disabled d).

Definition set_emptySearchTerm (v : string) (d : dom) : dom :=
  Dom (searchValue d) (searchFromValue d) (searchToValue d) (queryBox d)
      (searchCriteria d) (field d) (columntype d) v
      (emptySearchTerm_hidden d) (text d) (operator d) (btnNot_hidden d)
      (btnOr_hidden d) (btnSearch_disabled d).

Definition set_emptySearchTerm_hidden (v : bool) (d : dom) : dom :=
  Dom (searchValue d) (searchFromValue d) (searchToValue d) (queryBox d)
      (searchCriteria d) (field d) (columntype d) (emptySearchTerm d)
      v (text d) (operator d) (btnNot_hidden d)
      (btnOr_hidden d) (btnSearch_disabled d).

Definition set_text (b : button) (v : string) (d : dom) : dom :=
  Dom (searchValue d) (searchFromValue d) (searchToValue d) (queryBox d)
      (searchCriteria d) (field d) (columntype d) (emptySearchTerm d)
      (emptySearchTerm_hidden d)
      (fun b' => if decide (b' = b) then v else text d b')
      (operator d) (btnNot_hidden d)
      (btnOr_hidden d) (btnSearch_disabled d).

Definition set_btnNot_hidden (v : bool) (d : dom) : dom :=
  Dom (searchValue d) (searchFromValue d) (searchToValue d) (queryBox d)
      (searchCriteria d) (field d) (columntype d) (emptySearchTerm d)
      (emptySearchTerm_hidden d) (text d) (operator d) v
      (btnOr_hidden d) (btnSearch_disabled d).

Definition set_btnOr_hidden (v : bool) (d : dom) : dom :=
  Dom (searchValue d) (searchFromValue d) (searchToValue d) (queryBox d)
      (searchCriteria d) (field d) (columntype d) (emptySearchTerm d)
      (emptySearchTerm_hidden d) (text d) (operator d) (btnNot_hidden d)
      v (btnSearch_disabled d).

Definition set_btnSearch_disabled (v : bool) (d : dom) : dom :=
  Dom (searchValue d) (searchFromValue d) (searchToValue d) (queryBox d)
      (searchCriteria d) (field d) (columntype d) (emptySearchTerm d)
      (emptySearchTerm_hidden d) (text d) (operator d) (btnNot_hidden d)
      (btnOr_hidden d) v.

(** The guard that opens [addToQueryBox]: nothing was typed in the text
    box and both range boxes are empty. *)
Definition nothingEntered (d : dom) : bool :=
  (searchValue d =? "")
  && JS.falsy (searchFromValue d) && JS.falsy (searchToValue d).

(** The reveal of the operator buttons on the first add. *)
Definition revealOperators (btnClicked : button) (d : dom) : dom :=
  if negb (text d btnClicked =? "AND") && (operator d btnClicked =? "AND")
  then set_btnOr_hidden false
         (set_btnNot_hidden false (set_text btnClicked "AND" d))
  else d.

(** [newSearchTerm]: the text of the clause being added. *)
Definition newSearchTerm (d : dom) : string :=
  if columntype d =? "string"
  then searchValue d +:+ "[" +:+ field d +:+ "]"
  else
    let from := if JS.falsy (searchFromValue d)
                then JS.toString 0 else searchFromValue d in
    let to := if JS.falsy (searchToValue d)
              then JS.toString 3000 else searchToValue d in
    from +:+ ":" +:+ to +:+ "[" +:+ field d +:+ "]".

(** The new content of the query box. *)
Definition enclose (current operator newSearchTerm : string) : string :=
  if current =? "" then newSearchTerm
  else "(" +:+ current +:+ ") " +:+ operator
       +:+ " (" +:+ newSearchTerm +:+ ")".

Definition addToQueryBox (btnClicked : button) (d : dom) : dom :=
  if nothingEntered d then
    set_emptySearchTerm_hidden false
      (set_emptySearchTerm "Please enter a value before adding to query." d)
  else
    let d1 := set_emptySearchTerm_hidden true d in
    let operator := operator d1 btnClicked in
    let d2 := revealOperators btnClicked d1 in
    let newSearchTerm := newSearchTerm d2 in
    let d3 := set_queryBox (enclose (queryBox d2) operator newSearchTerm) d2 in
    let d4 := set_searchCriteria (queryBox d3) d3 in
    let d5 := set_searchValue "" d4 in
    set_btnSearch_disabled false d5.

(** One use of the builder: the user picks a field, fills the boxes and
    presses one of the buttons. *)
Record entry : Type := Entry {
  entry_field : string;
  entry_columntype : string;
  entry_value : string;
  entry_from : string;
  entry_to : string;
  entry_button : button
}.

Definition fill (a : entry) (d : dom) : dom :=
  Dom (entry_value a) (entry_from a) (entry_to a) (queryBox d)
      (searchCriteria d) (entry_field a) (entry_columntype a)
      (emptySearchTerm d) (emptySearchTerm_hidden d) (text d) (operator d)
      (btnNot_hidden d) (btnOr_hidden d) (btnSearch_disabled d).

Definition append (a : entry) (d : dom) : dom :=
  addToQueryBox (entry_button a) (fill a d).

Definition appends (l : list entry) (d : dom) : dom :=
  foldl (fun d a => append a d) d l.

End QueryBuilder.

(** ** Parentheses in a text *)

Module Parens.

(** Reading [s] with [depth] parentheses open: the number left open at
    the end, or [None] when one closes that was never opened. *)
Fixpoint scan (depth : nat) (s : string) : option nat :=
  match s with
  | EmptyString => Some depth
  | String x rest =>
      if Ascii.eqb x "(" then scan (S depth) rest
      else if Ascii.eqb x ")" then
        match depth with
        | O => None
        | S depth' => scan depth' rest
        end
      else scan depth rest
  end.

Definition balanced (s : string) : bool :=
  match scan 0 s with
  | Some O => true
  | _ => false
  end.

End Parens.

(** ** The default filters: [buildDefaultFilterCriteria] *)

Module DefaultFilter.

(** One [.defaultFilter] checkbox with its data attributes.  The field
    name is only compared with texts and concatenated, so its text is
    kept; the filter value is also subtracted from the year. *)
Record filterBox : Type := FilterBox {
  checked : bool;
  filterfield : string;    (* data-filterfield *)
  filtertype : string;     (* data-filtertype, read but never used *)
  filtervalue : jqdata     (* data-filtervalue *)
}.

Record dom : Type := Dom {
  defaultFilters : list filterBox;   (* the .defaultFilter boxes, in document order *)
  fromPubYear : string;              (* #fromPubYear *)
  toPubYear : string;                (* #toPubYear *)
  customRange : bool;                (* #customRange is checked *)
  DefaultFilterCriteria : string     (* #DefaultFilterCriteria *)
}.

Definition set_DefaultFilterCriteria (v : string) (d : dom) : dom :=
  Dom (defaultFilters d) (fromPubYear d) (toPubYear d) (customRange d) v.

(** The [switch (fldName)] of the loop body: what one checked box adds.
    [getFullYear] is the year of the clock, a parameter here. *)
Definition fragment (getFullYear : Z) (f : filterBox) : option string :=
  let fldName := filterfield f in
  if fldName =? "year" then
    n ← data_number (filtervalue f);
    Some (" BETWEEN (" +:+ JS.toString (getFullYear - n) +:+ ":3001"
          +:+ "[Pub Year])")
  else if fldName =? "notempty" then
    Some (" NOTEMPTY ([" +:+ data_text (filtervalue f) +:+ "])")
  else
    Some (" CONTAINS (" +:+ data_text (filtervalue f)
          +:+ "[" +:+ fldName +:+ "])").

(** [$(".defaultFilter").each(...)]: the boxes in document order, each
    checked one appending its fragment to the criteria built so far. *)
Fixpoint eachDefaultFilter (getFullYear : Z) (boxes : list filterBox)
         (defaultFilterCriteria : string) : option string :=
  match boxes with
  | [] => Some defaultFilterCriteria
  | f :: rest =>
      if checked f then
        s ← fragment getFullYear f;
        eachDefaultFilter getFullYear rest (defaultFilterCriteria +:+ s)
      else eachDefaultFilter getFullYear rest defaultFilterCriteria
  end.

(** The custom range, added after the loop. *)
Definition customRangeCriteria (d : dom) : string :=
  let fromYear := fromPubYear d in
  let toYear := toPubYear d in
  if (negb (fromYear =? "") || negb (toYear =? "")) && customRange d then
    let fromYear' := if fromYear =? "" then JS.toString 1001 else fromYear in
    let toYear' := if fromYear =? "" then toYear
                   else if toYear =? "" then JS.toString 3000 else toYear in
    " BETWEEN (" +:+ fromYear' +:+ ":" +:+ toYear' +:+ "[Pub Year])"
  else "".

Definition buildDefaultFilterCriteria (getFullYear : Z) (d : dom)
  : option dom :=
  defaultFilterCriteria ← eachDefaultFilter getFullYear (defaultFilters d) "";
  Some (set_DefaultFilterCriteria
          (defaultFilterCriteria +:+ customRangeCriteria d) d).

(** The two checks that open the click handler of a default filter, on
    [Number(fromPubYear)] and [Number(toPubYear)]. *)
Definition yearsInverted (fromYear toYear : Z) : bool :=
  (toYear <? fromYear)%Z.

Definition notFourDigits (fromYear toYear : Z) : bool :=
  ((0 <? fromYear)%Z
     && negb (String.length (JS.toString fromYear) =? 4)%nat)
  || ((0 <? toYear)%Z
        && negb (String.length (JS.toString toYear) =? 4)%nat).

End DefaultFilter.

(** ** The criteria of the default filters, read as a list of fragments

    The second reading of the criteria, to compare the loop with: every
    ticked filter has a kind and gives one fragment, without a blank of
    its own, and the fragments are joined by single blanks.  A fragment
    is given only for a filter value the embedding covers, and for a year
    that prints in plain digits. *)

Module Composer.
Import DefaultFilter.

Inductive matchKind : Type := yearWithinLastN | notEmpty | contains.

Definition matchKindOf (f : filterBox) : matchKind :=
  if filterfield f =? "year" then yearWithinLastN
  else if filterfield f =? "notempty" then notEmpty
  else contains.

(** A filter value as it is printed: a number by its decimal numeral, a
    text as it is. *)
Definition valueText (v : jqdata) : string :=
  match v with
  | DNum n => JS.toString n
  | DStr s => s
  end.

(** The N of a filter of the last N years. *)
Definition valueNumber (v : jqdata) : option Z :=
  match v with
  | DNum n => Some n
  | DStr s => JS.Number s
  end.

Definition render (currentYear : Z) (f : filterBox) : option string :=
  if covered (filtervalue f) then
    match matchKindOf f with
    | yearWithinLastN =>
        n ← valueNumber (filtervalue f);
        if JS.safeInteger (currentYear - n)
        then Some ("BETWEEN (" +:+ JS.toString (currentYear - n)
                   +:+ ":3001[Pub Year])")
        else None
    | notEmpty =>
        Some ("NOTEMPTY ([" +:+ valueText (filtervalue f) +:+ "])")
    | contains =>
        Some ("CONTAINS (" +:+ valueText (filtervalue f)
              +:+ "[" +:+ filterfield f +:+ "])")
    end
  else None.

(** The fragments of the selected filters, joined by blanks. *)
Definition compose (currentYear : Z) (selected : list filterBox)
  : option string :=
  String.concat " " <$> mapM (render currentYear) selected.

End Composer.

(** ** The selected publications: the [selectedPubIds] array *)

Module Selection.

(** [a.indexOf(x)]: the position of the first element equal to [x];
    [None] stands for -1. *)
Definition indexOf (a : list jqdata) (x : jqdata) : option nat :=
  fst <$> list_find (fun y => y = x) a.

Record dom : Type := Dom {
  pubSelected : list (jqdata * bool);  (* the .pubSelected boxes: data-pubid, checked *)
  selectedPubIds : list jqdata;        (* the global array *)
  selectedOption : string              (* caption of the 'selected' choice *)
}.

Definition selectedCaption (a : list jqdata) : string :=
  "Selected Results (" +:+ JS.toString (Z.of_nat (length a)) +:+ ")".

(** The change handler of a [.pubSelected] box, run with the box's id and
    its state after the change. *)
Definition pubSelected_change (pubid : jqdata) (this_checked : bool)
           (d : dom) : dom :=
  let ids :=
    if this_checked then (selectedPubIds d ++ [pubid])%list
    else match indexOf (selectedPubIds d) pubid with
         | Some index => delete index (selectedPubIds d)
         | None => selectedPubIds d
         end in
  Dom (pubSelected d) ids (selectedCaption ids).

(** The user clicks the [k]-th box: the browser flips it, then the change
    handler runs on it. *)
Definition toggle (k : nat) (d : dom) : dom :=
  match pubSelected d !! k with
  | Some (pubid, was_checked) =>
      let now := negb was_checked in
      pubSelected_change pubid now
        (Dom (<[k := (pubid, now)]> (pubSelected d))
             (selectedPubIds d) (selectedOption d))
  | None => d
  end.

(** [setSelectedPubCheckboxes]: every box whose id is in the array is
    checked; the others keep their state. *)
Definition setSelectedPubCheckboxes (d : dom) : dom :=
  Dom ((fun box : jqdata * bool =>
          let pubid := box.1 in
          match indexOf (selectedPubIds d) pubid with
          | Some _ => (pubid, true)
          | None => box
          end)
         <$> pubSelected d)
      (selectedPubIds d) (selectedOption d).

(** The ids of the boxes that are checked. *)
Definition checkedIds (d : dom) : list jqdata :=
  fst <$> filter (fun box : jqdata * bool => box.2 = true) (pubSelected d).

(** What [setSelectedPubCheckboxes] checks on a freshly loaded result
    list showing [visibleIds], all boxes clear. *)
Definition reapply (visibleIds selected : list jqdata) : list jqdata :=
  checkedIds
    (setSelectedPubCheckboxes
       (Dom ((fun id => (id, false)) <$> visibleIds) selected "")).

End Selection.

(** ** The request model: [createModel] and [createModelForExport] *)

Module Model.

Record exportOptions : Type := ExportOptions {
  Type_ : string;
  Selection : string;
  Format : string;
  SelectedItems : list jqdata;
  EmailAddress : option string     (* undefined for a save *)
}.

Record t : Type := Build {
  PageFormat : string;
  CurrentPage : jqdata;
  SortBy : string;
  SearchCriteria : string;
  NumberPerPage : string;
  DefaultFilterCriteria : string;
  SortAscending : bool;
  SelectAllChecked : bool;
  ExportOptions_ : option exportOptions   (* None is the empty object *)
}.

Definition set_SearchCriteria (v : string) (m : t) : t :=
  Build (PageFormat m) (CurrentPage m) (SortBy m) v (NumberPerPage m)
        (DefaultFilterCriteria m) (SortAscending m) (SelectAllChecked m)
        (ExportOptions_ m).

Definition set_ExportOptions (v : exportOptions) (m : t) : t :=
  Build (PageFormat m) (CurrentPage m) (SortBy m) (SearchCriteria m)
        (NumberPerPage m) (DefaultFilterCriteria m) (SortAscending m)
        (SelectAllChecked m) (Some v).

End Model.

Module Page.

(** The display settings [createModel] reads; no modelled handler
    writes them. *)
Record display : Type := Display {
  advancedSearchDisplay_visible : bool;  (* #advancedSearchDisplay is visible *)
  PageFormat : string;                   (* #PageFormat *)
  SortBy : string;                       (* #SortBy *)
  NumberPerPage : string;                (* #NumberPerPage *)
  OptionSortAscending : bool;            (* #OptionSortAscending shows the ascending icon *)
  selectAll : bool;                      (* #selectAll is checked *)
  SearchCriteria : string;               (* the hidden #SearchCriteria *)
  CurrentPage : string                   (* #CurrentPage *)
}.

(** The two export dialogs. *)
Record exportDom : Type := ExportDom {
  FormatOptionForEmail : string;
  SelectionOptionForEmail : string;
  emailTo : string;
  FormatOptionForSave : string;
  SelectionOptionForSave : string;
  searchResultCount : string;       (* #searchResultCount *)
  emailToError_hidden : bool;
  emailSelectError_hidden : bool;
  emailMaxMsg_danger : bool;        (* #emailMaxMsg has class text-danger *)
  saveMaxMsg_danger : bool;
  saveSelectError_hidden : bool;
  emailModal_open : bool;
  saveModal_open : bool
}.

Definition set_emailToError_hidden (v : bool) (e : exportDom) : exportDom :=
  ExportDom (FormatOptionForEmail e) (SelectionOptionForEmail e) (emailTo e)
    (FormatOptionForSave e) (SelectionOptionForSave e) (searchResultCount e)
    v (emailSelectError_hidden e) (emailMaxMsg_danger e)
    (saveMaxMsg_danger e) (saveSelectError_hidden e) (emailModal_open e)
    (saveModal_open e).

Definition set_emailSelectError_hidden (v : bool) (e : exportDom)
  : exportDom :=
  ExportDom (FormatOptionForEmail e) (SelectionOptionForEmail e) (emailTo e)
    (FormatOptionForSave e) (SelectionOptionForSave e) (searchResultCount e)
    (emailToError_hidden e) v (emailMaxMsg_danger e)
    (saveMaxMsg_danger e) (saveSelectError_hidden e) (emailModal_open e)
    (saveModal_open e).

Definition set_emailMaxMsg_danger (v : bool) (e : exportDom) : exportDom :=
  ExportDom (FormatOptionForEmail e) (SelectionOptionForEmail e) (emailTo e)
    (FormatOptionForSave e) (SelectionOptionForSave e) (searchResultCount e)
    (emailToError_hidden e) (emailSelectError_hidden e) v
    (saveMaxMsg_danger e) (saveSelectError_hidden e) (emailModal_open e)
    (saveModal_open e).

Definition set_saveMaxMsg_danger (v : bool) (e : exportDom) : exportDom :=
  ExportDom (FormatOptionForEmail e) (SelectionOptionForEmail e) (emailTo e)
    (FormatOptionForSave e) (SelectionOptionForSave e) (searchResultCount e)
    (emailToError_hidden e) (emailSelectError_hidden e)
    (emailMaxMsg_danger e) v (saveSelectError_hidden e) (emailModal_open e)
    (saveModal_open e).

Definition set_saveSelectError_hidden (v : bool) (e : exportDom)
  : exportDom :=
  ExportDom (FormatOptionForEmail e) (SelectionOptionForEmail e) (emailTo e)
    (FormatOptionForSave e) (SelectionOptionForSave e) (searchResultCount e)
    (emailToError_hidden e) (emailSelectError_hidden e)
    (emailMaxMsg_danger e) (saveMaxMsg_danger e) v (emailModal_open e)
    (saveModal_open e).

Definition set_emailModal_open (v : bool) (e : exportDom) : exportDom :=
  ExportDom (FormatOptionForEmail e) (SelectionOptionForEmail e) (emailTo e)
    (FormatOptionForSave e) (SelectionOptionForSave e) (searchResultCount e)
    (emailToError_hidden e) (emailSelectError_hidden e)
    (emailMaxMsg_danger e) (saveMaxMsg_danger e) (saveSelectError_hidden e)
    v (saveModal_open e).

Definition set_saveModal_open (v : bool) (e : exportDom) : exportDom :=
  ExportDom (FormatOptionForEmail e) (SelectionOptionForEmail e) (emailTo e)
    (FormatOptionForSave e) (SelectionOptionForSave e) (searchResultCount e)
    (emailToError_hidden e) (emailSelectError_hidden e)
    (emailMaxMsg_danger e) (saveMaxMsg_danger e) (saveSelectError_hidden e)
    (emailModal_open e) v.

(** The whole page, with the error toasts shown so far. *)
Record page : Type := Page_ {
  builder : QueryBuilder.dom;
  settings : display;
  filters : DefaultFilter.dom;
  results : Selection.dom;
  export : exportDom;
  toastr_error : list string
}.

Definition set_filters (v : DefaultFilter.dom) (p : page) : page :=
  Page_ (builder p) (settings p) v (results p) (export p) (toastr_error p).

Definition set_export (v : exportDom) (p : page) : page :=
  Page_ (builder p) (settings p) (filters p) (results p) v (toastr_error p).

Definition toastr_error_ (msg : string) (p : page) : page :=
  Page_ (builder p) (settings p) (filters p) (results p) (export p)
        (toastr_error p ++ [msg])%list.

(** What a click handler ends with: it returned without sending
    anything, or it posted a model to a url. *)
Inductive reaction : Type :=
| Returned (p : page)
| Sent (url : string) (model : Model.t) (p : page).

Definition createModel (fetchPageNumber : jqdata) (p : page) : Model.t :=
  let searchCriteria :=
    if advancedSearchDisplay_visible (settings p)
    then QueryBuilder.queryBox (builder p)
    else QueryBuilder.searchCriteria (builder p) in
  Model.Build (PageFormat (settings p)) fetchPageNumber (SortBy (settings p))
    searchCriteria (NumberPerPage (settings p))
    (DefaultFilter.DefaultFilterCriteria (filters p))
    (OptionSortAscending (settings p)) (selectAll (settings p)) None.

(** [text > bound], the text coerced to a number.  A text that is not a
    number coerces to [NaN], and every comparison with [NaN] is false.
    [None] is left for the texts that are numbers outside [JS.Number]
    (signs, fractions, exponents, blanks around the digits). *)
Definition exceeds (text : string) (bound : Z) : option bool :=
  match JS.Number text with
  | Some n => Some (bound <? n)%Z
  | None => if JS.notANumber text then Some false else None
  end.

(** The size test of [createModelForExport]; the count field is only
    coerced when the left operand of [||] is false and the choice is
    "all". *)
Definition tooMany (selectedIds : list jqdata) (selectionOpt : string)
           (count : string) (bound : Z) : option bool :=
  if (bound <? Z.of_nat (length selectedIds))%Z then Some true
  else if selectionOpt =? "all" then exceeds count bound
  else Some false.

(** [createModelForExport]: [None] inside is the [null] it returns when
    the export is too large. *)
Definition createModelForExport (fetchPageNumber : jqdata)
           (exportType : string) (p : page)
  : option (option Model.t * page) :=
  let e := export p in
  let format := if exportType =? "email" then FormatOptionForEmail e
                else FormatOptionForSave e in
  let selectionOpt := if exportType =? "email" then SelectionOptionForEmail e
                      else SelectionOptionForSave e in
  let email := if exportType =? "email" then Some (emailTo e) else None in
  let selectedIds :=
    if selectionOpt =? "allOnPage"
    then fst <$> Selection.pubSelected (results p)
    else if selectionOpt =? "selected"
    then Selection.selectedPubIds (results p)
    else [] in
  let finish :=
    let model := createModel fetchPageNumber p in
    let model := if Model.SearchCriteria model =? ""
                 then Model.set_SearchCriteria (SearchCriteria (settings p)) model
                 else model in
    Model.set_ExportOptions
      (Model.ExportOptions exportType selectionOpt format selectedIds email)
      model in
  if exportType =? "email" then
    big ← tooMany selectedIds selectionOpt (searchResultCount e) 1000;
    if big : bool
    then Some (None, set_export (set_emailMaxMsg_danger true e) p)
    else Some (Some finish, p)
  else
    big ← tooMany selectedIds selectionOpt (searchResultCount e) 10000;
    if big : bool
    then Some (None, set_export (set_saveMaxMsg_danger true e) p)
    else Some (Some finish, p).

(** "selected" was chosen but nothing is selected. *)
Definition nothingSelected (model : Model.t) : bool :=
  match Model.ExportOptions_ model with
  | Some o => (Model.Selection o =? "selected")
              && (length (Model.SelectedItems o) =? 0)%nat
  | None => false
  end.

Section Handlers.

(** [regexForEmail.test]: the handler only branches on its answer, so
    the pattern itself stays a parameter. *)
Variable regexForEmail_test : string -> bool.

(** The click handler of [#submitEmail], up to the request it sends. *)
Definition submitEmail_click (p : page) : option reaction :=
  let p := set_export
             (set_emailMaxMsg_danger false
                (set_emailSelectError_hidden true
                   (set_emailToError_hidden true (export p)))) p in
  r ← createModelForExport (DStr (CurrentPage (settings p))) "email" p;
  match r with
  | (None, p) => Some (Returned p)
  | (Some model, p) =>
      if negb (regexForEmail_test (emailTo (export p))) then
        Some (Returned
                (set_export (set_emailToError_hidden false (export p)) p))
      else if nothingSelected model then
        Some (Returned
                (set_export (set_emailSelectError_hidden false (export p)) p))
      else
        Some (Sent "/NSLSL/Search/EmailSearchResults" model
                (set_export (set_emailModal_open false (export p)) p))
  end.

(** The click handler of [#submitSave], up to the request it sends. *)
Definition submitSave_click (p : page) : option reaction :=
  let p := set_export
             (set_saveSelectError_hidden true
                (set_saveMaxMsg_danger false (export p))) p in
  r ← createModelForExport (DStr (CurrentPage (settings p))) "save" p;
  match r with
  | (None, p) => Some (Returned p)
  | (Some model, p) =>
      if nothingSelected model then
        Some (Returned
                (set_export (set_saveSelectError_hidden false (export p)) p))
      else
        Some (Sent "/NSLSL/Search/DownloadSearchResults" model
                (set_export (set_saveModal_open false (export p)) p))
  end.

End Handlers.

(** The click handler of a [.defaultFilter] box, up to the request it
    sends.  The spinner it shows next to the clicked box is not part of
    the state. *)
Definition defaultFilter_click (getFullYear : Z) (p : page)
  : option reaction :=
  fromYear ← JS.Number (DefaultFilter.fromPubYear (filters p));
  toYear ← JS.Number (DefaultFilter.toPubYear (filters p));
  if DefaultFilter.yearsInverted fromYear toYear then
    Some (Returned (toastr_error_ "From year must be less than to year" p))
  else if DefaultFilter.notFourDigits fromYear toYear then
    Some (Returned
            (toastr_error_ "Custom year range values must be 4 digits" p))
  else
    f ← DefaultFilter.buildDefaultFilterCriteria getFullYear (filters p);
    let p := set_filters f p in
    Some (Sent "/NSLSL/Search/SearchAjax" (createModel (DNum 1) p) p).

End Page.

(** ** The built query as an expression

    The second reading of the query box, to compare the builder with:
    an expression is one clause, or two expressions joined by an
    operator, and a composite is written with each of its two parts in
    parentheses. *)

Module Built.
Import QueryBuilder Parens.

Inductive expression : Type :=
| Clause (text : string)
| Composite (lhs : expression) (op : string) (rhs : expression).

Fixpoint render (e : expression) : string :=
  match e with
  | Clause text => text
  | Composite lhs op rhs =>
      "(" +:+ render lhs +:+ ") " +:+ op
      +:+ " (" +:+ render rhs +:+ ")"
  end.

Definition isComposite (e : expression) : bool :=
  match e with
  | Clause _ => false
  | Composite _ _ _ => true
  end.

(** The parenthesized groups of clauses: the parts in parentheses that
    are composites themselves.  A part that is a single clause is in
    parentheses too, but groups nothing. *)
Fixpoint groups (e : expression) : nat :=
  match e with
  | Clause _ => 0
  | Composite lhs _ rhs =>
      (if isComposite lhs then 1 else 0) + groups lhs
      + ((if isComposite rhs then 1 else 0) + groups rhs)
  end.

(** What one more entry makes of the expression built so far. *)
Definition join (d0 : dom) (e : expression) (a : entry) : expression :=
  Composite e (operator d0 (entry_button a))
            (Clause (newSearchTerm (fill a d0))).

(** The expression a run of entries builds from an empty query box. *)
Definition built (d0 : dom) (first : entry) (rest : list entry)
  : expression :=
  foldl (join d0) (Clause (newSearchTerm (fill first d0))) rest.



End Built.

(** ** Sample pages, used to run the definitions *)

Module Samples.
Import QueryBuilder.

(** The builder with a text field chosen, [query] in the query box and
    [value] typed in the text box. *)
Definition sampleBuilder (query value : string) : dom :=
  Dom value "" "" query query "fieldB" "string" "" true
      (fun b => match b with
                | btnAdd => "ADD" | btnNot => "NOT" | btnOr => "OR"
                end)
      (fun b => match b with
                | btnAdd => "AND" | btnNot => "AND NOT" | btnOr => "OR"
                end)
      true true true.

(** The builder with a range field chosen, both range boxes empty and a
    text left over in the hidden text box. *)
Definition sampleRange : dom :=
  Dom "stale" "" "" "" "" "Pub Year" "int" "" true
      (fun _ => "ADD") (fun _ => "AND") true true true.

(** The same range field with nothing in any of the three boxes. *)
Definition emptyRange : dom :=
  Dom "" "" "" "" "" "Pub Year" "int" "" true
      (fun _ => "ADD") (fun _ => "AND") true true true.


Definition entryX : entry := Entry "fieldA" "string" "x" "" "" btnAdd.
Definition entryY : entry := Entry "fieldB" "string" "y" "" "" btnOr.
Definition entryZ : entry := Entry "fieldC" "string" "z" "" "" btnNot.


(** A result list of two publications, the second one selected. *)
Definition sampleResults : Selection.dom :=
  Selection.Dom [(DNum 7, false); (DNum 9, true)] [DNum 9]
                "Selected Results (1)".

(** Three default filters ticked and one not, with the two year boxes
    and the custom-range box as given. *)
Definition sampleFilters (fromYear toYear : string) (custom : bool)
  : DefaultFilter.dom :=
  DefaultFilter.Dom
    [DefaultFilter.FilterBox true "year" "int" (DNum 5);
     DefaultFilter.FilterBox false "Topic" "string" (DStr "Safety");
     DefaultFilter.FilterBox true "notempty" "string" (DStr "Abstract");
     DefaultFilter.FilterBox true "Doc Type" "string" (DStr "Report")]
    fromYear toYear custom "".

(** Default filters whose values jQuery hands back as numbers, next to
    one that is a text and one that is a numeral with a zero in front,
    which stays a text. *)
Definition numericFilters : DefaultFilter.dom :=
  DefaultFilter.Dom
    [DefaultFilter.FilterBox true "year" "int" (DNum 5);
     DefaultFilter.FilterBox true "Volume" "int" (DNum 12);
     DefaultFilter.FilterBox false "Issue" "int" (DNum 3);
     DefaultFilter.FilterBox true "notempty" "string" (DStr "Abstract");
     DefaultFilter.FilterBox true "notempty" "int" (DNum (-40));
     DefaultFilter.FilterBox true "year" "int" (DStr "010")]
    "" "" false "".

(** One default filter, ticked. *)
Definition oneFilter : DefaultFilter.dom :=
  DefaultFilter.Dom
    [DefaultFilter.FilterBox true "Topic" "string" (DStr "Safety")]
    "" "" false "".

Definition sampleSettings : Page.display :=
  Page.Display false "Summary" "Title" "25" true false "" "1".

(** The export dialogs with the given choices of what to export and the
    given result count. *)
Definition sampleExport (forEmail forSave count : string)
  : Page.exportDom :=
  Page.ExportDom "CSV" forEmail "reader@example.org" "CSV" forSave count
                 true true false false true true true.

Definition samplePage (f : DefaultFilter.dom) (r : Selection.dom)
           (e : Page.exportDom) : Page.page :=
  Page.Page_ (sampleBuilder "" "") sampleSettings f r e [].

Definition noResults : Selection.dom := Selection.Dom [] [] "".

(** A result list whose only box is unchecked although its id is in the
    array. *)
Definition unshownResults : Selection.dom :=
  Selection.Dom [(DNum 7, false)] [DNum 7] "Selected Results (1)".

(** A result list whose only box is checked although nothing is in the
    array. *)
Definition staleResults : Selection.dom :=
  Selection.Dom [(DNum 7, true)] [] "".

End Samples.

(** ** Clearing, typing and searching *)

Module Searching.

(** The click handler of [.btnClear], on the builder and on whether
    #searchErrors is hidden. *)
Definition btnClear_click (d : QueryBuilder.dom) (searchErrors_hidden : bool)
  : QueryBuilder.dom * bool :=
  let d := QueryBuilder.set_searchCriteria "" d in
  let d := QueryBuilder.set_queryBox "" d in
  let d := QueryBuilder.set_searchValue "" d in
  let d := QueryBuilder.set_text QueryBuilder.btnAdd "ADD" d in
  let d := QueryBuilder.set_btnNot_hidden true d in
  let d := QueryBuilder.set_btnOr_hidden true d in
  let d := QueryBuilder.set_btnSearch_disabled true d in
  let d := QueryBuilder.set_emptySearchTerm "" d in
  (d, true).

(** The two boxes a query can be typed in. *)
Inductive box : Type := searchCriteriaBox | queryBoxBox.

(** The keydown handler of #queryBox: the clicks it triggers, by id. *)
Definition queryBox_keydown (keyCode : Z) (d : QueryBuilder.dom)
  : list string :=
  if (keyCode =? 13)%Z then
    if negb (QueryBuilder.queryBox d =? "") then ["btnAdvancedSearch"]
    else []
  else [].

(** The keyup handler of #searchCriteria and #queryBox, run on the box
    [this]: the clicks it triggers and the new state. *)
Definition searchBox_keyup (this : box) (keyCode : Z) (d : QueryBuilder.dom)
  : list string * QueryBuilder.dom :=
  let clicks :=
    if (keyCode =? 13)%Z then
      match this with
      | queryBoxBox =>
          if negb (QueryBuilder.queryBox d =? "") then ["btnAdvancedSearch"]
          else []
      | searchCriteriaBox =>
          if negb (QueryBuilder.searchCriteria d =? "")
          then ["btnSearchSimple"] else []
      end
    else [] in
  let val := match this with
             | queryBoxBox => QueryBuilder.queryBox d
             | searchCriteriaBox => QueryBuilder.searchCriteria d
             end in
  (clicks, QueryBuilder.set_btnSearch_disabled (val =? "") d).

(** What the click handler of [.btnSearch] touches beside the page. *)
Record chrome : Type := Chrome {
  errorMessages : string;          (* html of #errorMessages *)
  errorMessages_hidden : bool;
  search_spinner_hidden : bool;    (* .search-spinner has class d-none *)
  searchicon_hidden : bool;        (* .searchicon has class d-none *)
  href : string;                   (* address of the page *)
  queryBox_present : bool          (* #queryBox is on the page *)
}.

(** What the click ends with: it returned after showing the message, it
    left for another address, or it posted the model, keeping the array
    of selected ids for its success callback. *)
Inductive outcome : Type :=
| Refused (c : chrome)
| Redirected (url : string)
| Posted (url : string) (model : Model.t) (c : chrome)
         (tmpSelectedPubCheckboxes : list jqdata).

(** [s.indexOf(t) > 0]. *)
Definition foundPastStart (t s : string) : bool :=
  match String.index 0 t s with
  | Some (S _) => true
  | _ => false
  end.

(** The click handler of [.btnSearch].  Without #queryBox on the page its
    value is undefined, which is not the empty text; [None] when the
    model would then have to read it. *)
Definition btnSearch_click (c : chrome) (p : Page.page) : option outcome :=
  let advanced := Page.advancedSearchDisplay_visible (Page.settings p) in
  if (QueryBuilder.searchCriteria (Page.builder p) =? "")
     && (queryBox_present c && (QueryBuilder.queryBox (Page.builder p) =? ""))
  then
    Some (Refused
            (Chrome "Please enter a query before attempting to search."
                    false (search_spinner_hidden c) (searchicon_hidden c)
                    (href c) (queryBox_present c)))
  else if advanced && negb (queryBox_present c) then None
  else
    let model := Page.createModel (DNum 1) p in
    if foundPastStart "Details" (href c) then
      Some (Redirected
              ("/NSLSL/Search/Index?searchType="
               +:+ (if advanced then "advanced" else "simple")
               +:+ "&searchCriteria=" +:+ Model.SearchCriteria model))
    else
      Some (Posted "/NSLSL/Search/SearchAjax" model
              (Chrome (errorMessages c) (errorMessages_hidden c) false true
                      (href c) (queryBox_present c))
              (Selection.selectedPubIds (Page.results p))).

(** The parts of the page the click handler of #searchAdvance shows and
    hides, each [true] when shown. *)
Record sections : Type := Sections {
  searchFilterSection : bool;
  searchResultList : bool;
  searchResultsSection : bool;
  searchResultDetail : bool;
  optionsSection : bool;
  navigationRefresh : bool;
  returnToResults : bool
}.

Record switch : Type := Switch {
  builder : QueryBuilder.dom;
  advancedSearchDisplay : bool;        (* shown *)
  simpleSearchDisplay : bool;          (* shown *)
  searchAdvance : string;              (* caption of the link *)
  advancedSearchContainer : bool;      (* the advanced form was loaded *)
  shown : sections
}.

(** The click handler of #searchAdvance, up to the request it sends when
    the advanced form was never loaded: the new state and whether
    /NSLSL/Search/AdvancedSearchAjax is requested. *)
Definition searchAdvance_click (w : switch) : switch * bool :=
  let hidden := Sections false false false false false false false in
  let d := builder w in
  if advancedSearchDisplay w then
    let d := QueryBuilder.set_searchCriteria (QueryBuilder.queryBox d) d in
    let d := QueryBuilder.set_btnSearch_disabled
               (QueryBuilder.searchCriteria d =? "") d in
    (Switch d false true "Advanced Search" (advancedSearchContainer w) hidden,
     false)
  else if negb (advancedSearchContainer w) then
    (Switch d true false "Simple Search" (advancedSearchContainer w) hidden,
     true)
  else
    let d := QueryBuilder.set_queryBox (QueryBuilder.searchCriteria d) d in
    let d := QueryBuilder.set_btnSearch_disabled
               (QueryBuilder.queryBox d =? "") d in
    (Switch d true false "Simple Search" (advancedSearchContainer w) hidden,
     false).

(** The change handler of #searchOptions, on whether #fromToValues and
    #searchValue are hidden: the new pair. *)
Definition searchOptions_change (fieldType : string)
           (fromToValues_hidden searchValue_hidden : bool) : bool * bool :=
  if (fieldType =? "int") && fromToValues_hidden then (false, true)
  else if (fieldType =? "string") && searchValue_hidden then (true, false)
  else (fromToValues_hidden, searchValue_hidden).

End Searching.

(** ** The sort direction: [changeSortIcon] *)

Module Sorting.

(** A sort icon, by the two classes the script tests and swaps. *)
Record icon : Type := Icon {
  fa_sort_amount_down_alt : bool;
  fa_sort_amount_down : bool
}.

(** [changeSortIcon]: the new classes of the span and the title it gives
    to the sort buttons. *)
Definition changeSortIcon (span : icon) : icon * string :=
  if fa_sort_amount_down_alt span
  then (Icon false true, "Sorted Descending")
  else (Icon true false, "Sorted Ascending").

Record dom : Type := Dom {
  OptionSortAscending : icon;
  OptionSortAscendingInline : icon;
  title : string                    (* title of the .btn-sortdirection buttons *)
}.

(** The click handler of a [.btn-sortdirection] button, [inline] telling
    whether it has class btn-sortdirection-inline: the new state and
    whether #changeOptions is clicked.  The spinner shown next to the
    inline button is not part of the state. *)
Definition btn_sortdirection_click (inline : bool) (d : dom) : dom * bool :=
  let first := changeSortIcon (OptionSortAscending d) in
  let second := changeSortIcon (OptionSortAscendingInline d) in
  (Dom first.1 second.1 second.2, inline).

End Sorting.

(** ** Paging *)

Module Paging.

(** The result of [parseInt]: not a number, or an integer. *)
Inductive number : Type := NaN | Num (z : Z).

Definition isDigit (c : ascii) : bool :=
  (48 <=? nat_of_ascii c)%nat && (nat_of_ascii c <=? 57)%nat.

(** The leading digits of a text and what follows them. *)
Fixpoint leadingDigits (s : string) : string * string :=
  match s with
  | EmptyString => ("", "")
  | String c rest =>
      if isDigit c
      then let r := leadingDigits rest in (String c r.1, r.2)
      else ("", s)
  end.

(** A character [parseInt] skips or reads as a sign, or a byte of a
    character outside ASCII, which may be a blank. *)
Definition blankOrSign (c : ascii) : bool :=
  let n := nat_of_ascii c in
  ((9 <=? n) && (n <=? 13) || (n =? 32) || (n =? 43) || (n =? 45)
   || (128 <=? n))%nat.

Definition startsHex (rest : string) : bool :=
  match rest with
  | String c _ => Ascii.eqb c "x" || Ascii.eqb c "X"
  | EmptyString => false
  end.

(** [parseInt(s)]: the integer written by the leading digits, [NaN] when
    the text is empty or starts with another character.  [None] marks
    what is left out: leading blanks, signs, hexadecimal numerals and
    numerals of more than 15 digits. *)
Definition parseInt (s : string) : option number :=
  match s with
  | EmptyString => Some NaN
  | String c _ =>
      if isDigit c then
        let r := leadingDigits s in
        if (r.1 =? "0") && startsHex r.2 then None
        else if (15 <? String.length r.1)%nat then None
        else (fun d => Num (Z.of_N (N.of_uint d)))
               <$> NilEmpty.uint_of_string r.1
      else if blankOrSign c then None
      else Some NaN
  end.

(** [a > b] and [a < b] on numbers: false as soon as one is [NaN]. *)
Definition gt (a b : number) : bool :=
  match a, b with
  | Num x, Num y => (y <? x)%Z
  | _, _ => false
  end.

Definition lt (a b : number) : bool := gt b a.

(** The page number that is asked for: what [parseInt] gave, or the
    data-val of a link. *)
Inductive pagenum : Type :=
| Parsed (n : number)
| Data (d : jqdata).

(** The element the event is on: the [k]-th page-number box, or a
    [.fetchpage] link with its href and data-val. *)
Inductive target : Type :=
| pageNumberBox (k : nat)
| fetchpage (href : string) (val : jqdata).

Record dom : Type := Dom {
  pageNumber : list string;   (* the .pageNumber boxes *)
  NumPages : string;          (* #NumPages *)
  CurrentPage : string        (* #CurrentPage *)
}.

(** What the handler ends with: nothing done and the event stopped; the
    event left to the browser; the box put back to the current page; or
    [createModel(fetchPageNumber)] posted to
    /NSLSL/Search/FetchPageAjax. *)
Inductive outcome : Type :=
| Ignored
| LeftToBrowser
| PutBack (d : dom)
| Fetch (fetchPageNumber : pagenum) (d : dom).

(** The keyup and click handler of the page-number boxes and the
    [.fetchpage] links; [keyCode] is [None] for a click.  [None] is
    returned when [parseInt] is left out on the text met, or when the
    box of the event is not on the page.  The spinner swapped in for the
    element before the request is not part of the state. *)
Definition page_event (this : target) (keyCode : option Z) (d : dom)
  : option outcome :=
  match this with
  | fetchpage href val =>
      if negb (href =? "#") then Some LeftToBrowser
      else Some (Fetch (Data val)
                   (Dom ((fun _ => data_text val) <$> pageNumber d)
                        (NumPages d) (CurrentPage d)))
  | pageNumberBox k =>
      if negb (bool_decide (keyCode = Some 13%Z)) then Some Ignored
      else
        text ← pageNumber d !! k;
        fetchPageNumber ← parseInt text;
        pages ← parseInt (NumPages d);
        if gt fetchPageNumber pages || lt fetchPageNumber (Num 1)
        then Some (PutBack
                     (Dom (<[k := CurrentPage d]> (pageNumber d))
                          (NumPages d) (CurrentPage d)))
        else Some (Fetch (Parsed fetchPageNumber) d)
  end.

End Paging.

(** ** What comes back from the server *)

Module Callbacks.

(** The success callback of the select-all request, with the state of
    #selectAll at the time of the click and the ids the server sent. *)
Definition selectAll_success (selectAll : bool) (data : list jqdata)
           (d : Selection.dom) : Selection.dom :=
  let boxes := (fun box : jqdata * bool => (box.1, selectAll))
                 <$> Selection.pubSelected d in
  let ids := if selectAll then foldl (fun a id => a ++ [id])%list [] data
             else [] in
  Selection.Dom boxes ids (Selection.selectedCaption ids).

(** The callbacks of the change-options request, on the result list and
    the array: [Some fresh] when the server answered with a new result
    list, [None] when the request failed; the complete callback runs in
    both cases. *)
Definition changeOptions_done (response : option (list (jqdata * bool)))
           (d : Selection.dom) : Selection.dom :=
  let boxes := match response with
               | Some fresh => fresh
               | None => Selection.pubSelected d
               end in
  Selection.Dom boxes [] "Selected Results (0)".

End Callbacks.

(** ** The selection as an array that is shared

    [selectedPubIds] is a variable holding an array: [push] and [splice]
    change the array in place, [selectedPubIds = []] makes the variable
    refer to a new array, and the search click keeps the array of the
    time of the click in [tmpSelectedPubCheckboxes] for its success
    callback.  Here the arrays live in a store and the variables hold
    their places in it. *)

Module Store.

Record state : Type := State {
  arrays : gmap nat (list jqdata);     (* the arrays made so far *)
  selectedPubIds : nat;                (* the array the variable refers to *)
  pubSelected : list (jqdata * bool);  (* the .pubSelected boxes *)
  selectedOption : string              (* caption of the 'selected' choice *)
}.

(** The elements of the array at place [a]. *)
Definition contents (a : nat) (s : state) : list jqdata :=
  default [] (arrays s !! a).

(** [selectedPubIds = []]. *)
Definition assignEmpty (s : state) : state :=
  let a := fresh (dom (arrays s)) in
  State (<[a := []]> (arrays s)) a (pubSelected s) (selectedOption s).

(** The change handler of a [.pubSelected] box. *)
Definition pubSelected_change (pubid : jqdata) (this_checked : bool)
           (s : state) : state :=
  let a := selectedPubIds s in
  let ids :=
    if this_checked then (contents a s ++ [pubid])%list
    else match Selection.indexOf (contents a s) pubid with
         | Some index => delete index (contents a s)
         | None => contents a s
         end in
  State (<[a := ids]> (arrays s)) a (pubSelected s)
        (Selection.selectedCaption ids).

(** [setSelectedPubCheckboxes]. *)
Definition setSelectedPubCheckboxes (s : state) : state :=
  State (arrays s) (selectedPubIds s)
        ((fun box : jqdata * bool =>
            match Selection.indexOf (contents (selectedPubIds s) s) box.1 with
            | Some _ => (box.1, true)
            | None => box
            end) <$> pubSelected s)
        (selectedOption s).

(** The success callback of the select-all request. *)
Definition selectAll_success (selectAll : bool) (data : list jqdata)
           (s : state) : state :=
  let s := assignEmpty s in
  let a := selectedPubIds s in
  let boxes := (fun box : jqdata * bool => (box.1, selectAll))
                 <$> pubSelected s in
  let store :=
    if selectAll
    then foldl (fun m id => <[a := (default [] (m !! a) ++ [id])%list]> m)
               (arrays s) data
    else arrays s in
  State store a boxes
        (Selection.selectedCaption (default [] (store !! a))).

(** The callbacks of the change-options request. *)
Definition changeOptions_done (response : option (list (jqdata * bool)))
           (s : state) : state :=
  let boxes := match response with
               | Some fresh => fresh
               | None => pubSelected s
               end in
  assignEmpty (State (arrays s) (selectedPubIds s) boxes
                     "Selected Results (0)").

(** The success callback of the search request when the server sent a
    result list [fresh]: [tmpSelectedPubCheckboxes] is the place kept by
    the click, [reset_icon_hidden] tells whether .reset-icon has class
    d-none. *)
Definition search_success (reset_icon_hidden : bool)
           (tmpSelectedPubCheckboxes : nat) (fresh : list (jqdata * bool))
           (s : state) : state :=
  let s := State (arrays s) (selectedPubIds s) fresh (selectedOption s) in
  if reset_icon_hidden then
    setSelectedPubCheckboxes
      (State (arrays s) tmpSelectedPubCheckboxes (pubSelected s)
             (selectedOption s))
  else
    assignEmpty (State (arrays s) (selectedPubIds s) (pubSelected s)
                       "Selected Results (0)").

(** The page as the handlers on values see it. *)
Definition view (s : state) : Selection.dom :=
  Selection.Dom (pubSelected s) (contents (selectedPubIds s) s)
                (selectedOption s).

End Store.

(** ** The additional filters: the click on #setAdditionalFilters *)

Module AdditionalFilters.

(** One [.additionalFilter] checkbox. *)
Record filterBox : Type := FilterBox {
  checked : bool;
  addfiltertype : jqdata;    (* data-addfiltertype *)
  addfilterid : jqdata       (* data-addfilterid *)
}.

(** An element found by its id: whether it has class d-none, and the
    checkboxes among its children. *)
Record element : Type := Element {
  hidden : bool;
  inputs : list bool
}.

Definition wordChar (c : ascii) : bool :=
  let n := nat_of_ascii c in
  ((48 <=? n) && (n <=? 57) || (65 <=? n) && (n <=? 90)
   || (97 <=? n) && (n <=? 122) || (n =? 95) || (n =? 45))%nat.

Fixpoint allWord (s : string) : bool :=
  match s with
  | EmptyString => true
  | String c rest => wordChar c && allWord rest
  end.

(** [$("#" + id)]: jQuery looks the element up by id when the id is made
    of letters, digits, [_] and [-]; [None] for any other text, on which
    the selector means something else. *)
Definition byId (id : string) : option string :=
  if negb (id =? "") && allWord id then Some id else None.

(** [addClass('d-none')] and [removeClass('d-none')] on the element with
    that id, if there is one. *)
Definition setHidden (h : bool) (key : string) (pg : gmap string element)
  : gmap string element :=
  alter (fun el => Element h (inputs el)) key pg.

(** [d == '']. *)
Definition looseEmpty (d : jqdata) : bool :=
  match d with
  | DStr s => s =? ""
  | DNum z => (z =? 0)%Z
  end.

(** [a == b]; a number and a text are compared as numbers. *)
Definition looseEq (a b : jqdata) : option bool :=
  match a, b with
  | DNum x, DNum y => Some (x =? y)%Z
  | DStr s, DStr t => Some (s =? t)
  | DNum x, DStr s | DStr s, DNum x => n ← JS.Number s; Some (x =? n)%Z
  end.

(** The variables of the handler, the elements by id, and the ids of the
    elements whose checkboxes were clicked from the loop. *)
Record loop : Type := Loop {
  lastaddFilterGroup : jqdata;
  showaddFilterGroup : bool;
  page : gmap string element;
  clicked : list string
}.

(** Show or hide the div of the group in [lastaddFilterGroup]. *)
Definition showGroup (st : loop) : option (gmap string element) :=
  key ← byId (data_text (lastaddFilterGroup st) +:+ "div");
  Some (setHidden (negb (showaddFilterGroup st)) key (page st)).

(** The body of the loop, run on one checkbox. *)
Definition body (st : loop) (f : filterBox) : option loop :=
  let currentaddFilterGroup := addfiltertype f in
  isNew ← (if looseEmpty (lastaddFilterGroup st) then Some true
           else negb <$> looseEq (lastaddFilterGroup st)
                                 currentaddFilterGroup);
  st ← (if isNew : bool then
          pg ← (if negb (looseEmpty (lastaddFilterGroup st))
                then showGroup st else Some (page st));
          Some (Loop currentaddFilterGroup false pg (clicked st))
        else Some st);
  filterToShowHide ← byId (data_text (addfilterid f));
  if checked f then
    Some (Loop (lastaddFilterGroup st) true
               (setHidden false filterToShowHide (page st)) (clicked st))
  else
    let pg := setHidden true filterToShowHide (page st) in
    match pg !! filterToShowHide with
    | Some (Element h (true :: rest)) =>
        Some (Loop (lastaddFilterGroup st) (showaddFilterGroup st)
                   (<[filterToShowHide := Element h (negb <$> true :: rest)]>
                      pg)
                   (clicked st ++ [filterToShowHide])%list)
    | _ => Some (Loop (lastaddFilterGroup st) (showaddFilterGroup st) pg
                      (clicked st))
    end.

Fixpoint each (fs : list filterBox) (st : loop) : option loop :=
  match fs with
  | [] => Some st
  | f :: rest => st' ← body st f; each rest st'
  end.

(** The click handler of #setAdditionalFilters: the elements afterwards
    and the ids of those whose checkboxes the loop clicked. *)
Definition setAdditionalFilters (fs : list filterBox)
           (pg : gmap string element)
  : option (gmap string element * list string) :=
  st ← each fs (Loop (DStr "") false pg []);
  pg' ← showGroup st;
  Some (pg', clicked st).

(** Whether the first checkbox inside the element with that id is
    ticked. *)
Definition sideTicked (pg : gmap string element) (key : string) : bool :=
  match pg !! key with
  | Some (Element _ (true :: _)) => true
  | _ => false
  end.

End AdditionalFilters.

(** ** Further sample pages *)

Module MoreSamples.
Import Samples.

(** A result list of three publications with the first two selected and
    ticked. *)
Definition twoSelected : Selection.dom :=
  Selection.Dom [(DNum 3, true); (DNum 5, true); (DNum 8, false)]
                [DNum 3; DNum 5] "Selected Results (2)".

(** A page ready to export the selected results, by email and to a
    file. *)
Definition exportPage : Page.page :=
  samplePage (sampleFilters "" "" false) twoSelected
             (sampleExport "selected" "selected" "40").

(** A page on which all results are asked for, with the given text in
    the result count field. *)
Definition countedPage (count : string) : Page.page :=
  samplePage (sampleFilters "" "" false) noResults
             (sampleExport "all" "all" count).

(** Where a handler sent its request, if it did. *)
Definition sentTo (r : option Page.reaction) : option string :=
  match r with
  | Some (Page.Sent url _ _) => Some url
  | _ => None
  end.

(** The builder on a string field with nothing typed, while the from
    box still holds a year. *)
Definition leftoverRange : QueryBuilder.dom :=
  QueryBuilder.Dom "" "1990" "" "a[fieldA]" "a[fieldA]" "Title" "string"
                   "" true (fun _ => "AND") (fun _ => "AND")
                   false false false.


(** An entry with nothing in any box. *)
Definition blankEntry : QueryBuilder.entry :=
  QueryBuilder.Entry "fieldA" "string" "" "" "" QueryBuilder.btnAdd.

(** The chrome of the main search page, with #queryBox present or
    not. *)
Definition mainChrome (present : bool) : Searching.chrome :=
  Searching.Chrome "" true true false "https://host/NSLSL/Search" present.

(** The page with the advanced form shown, an empty query box and a text
    left in #searchCriteria. *)
Definition emptyVisibleBox : Page.page :=
  Page.Page_
    (QueryBuilder.Dom "" "" "" "" "old[Title]" "Title" "string" "" true
                      (fun _ => "AND") (fun _ => "AND") false false false)
    (Page.Display true "Summary" "Title" "25" true false "" "1")
    (sampleFilters "" "" false) twoSelected
    (sampleExport "all" "all" "40") [].

(** A simple-search page on which nothing was typed. *)
Definition nothingTyped : Page.page :=
  samplePage (sampleFilters "" "" false) noResults
             (sampleExport "all" "all" "0").

(** The advanced form shown and loaded, with a query built. *)
Definition advancedShown : Searching.switch :=
  Searching.Switch (sampleBuilder "x[fieldA]" "") true false "Simple Search"
                   true
                   (Searching.Sections true true true false true true false).

(** Both sort icons showing ascending. *)
Definition ascendingIcons : Sorting.dom :=
  Sorting.Dom (Sorting.Icon true false) (Sorting.Icon true false)
              "Sorted Ascending".

(** Two page-number boxes on a result list of 12 pages, page 3 on
    show. *)
Definition pagesOfTwelve (typed : string) : Paging.dom :=
  Paging.Dom [typed; "3"] "12" "3".

(** The store with one array, holding id 9, that the variable refers
    to, and the result list of [sampleResults]. *)
Definition sampleStore : Store.state :=
  Store.State {[ 0 := [DNum 9] ]} 0 [(DNum 7, false); (DNum 9, true)]
              "Selected Results (1)".

(** Four additional filters in two groups, with the elements they
    name and the two group divs. *)
Definition sampleAdditional : list AdditionalFilters.filterBox :=
  [AdditionalFilters.FilterBox false (DStr "Topic") (DStr "topicA");
   AdditionalFilters.FilterBox true (DStr "Topic") (DStr "topicB");
   AdditionalFilters.FilterBox false (DStr "Year") (DStr "year5");
   AdditionalFilters.FilterBox false (DStr "Year") (DStr "year10")].

Definition sampleElements : gmap string AdditionalFilters.element :=
  list_to_map
    [("topicA", AdditionalFilters.Element false [true]);
     ("topicB", AdditionalFilters.Element true [false]);
     ("year5", AdditionalFilters.Element false [false]);
     ("year10", AdditionalFilters.Element true [false]);
     ("Topicdiv", AdditionalFilters.Element true []);
     ("Yeardiv", AdditionalFilters.Element false [])].

End MoreSamples.

(** * Properties *)

(** ** The coercions at work *)

Example Number_runs :
  JS.Number "" = Some 0%Z /\ JS.Number "1999" = Some 1999%Z
  /\ JS.Number "0999" = Some 999%Z /\ JS.Number "19x9" = None.
Proof. by split_and!. Qed.

Example toString_runs :
  JS.toString 0 = "0" /\ JS.toString 3000 = "3000"
  /\ JS.toString (-12) = "-12".
Proof. by split_and!. Qed.

(** ** The query builder *)

Section QueryBuilderFacts.
Import QueryBuilder Samples.

Lemma revealOperators_queryBox b d :
  queryBox (revealOperators b d) = queryBox d.
Proof. unfold revealOperators. by destruct (_ && _). Qed.

Lemma revealOperators_newSearchTerm b d :
  newSearchTerm (revealOperators b d) = newSearchTerm d.
Proof. unfold revealOperators. by destruct (_ && _). Qed.

Lemma revealOperators_operator b d :
  operator (revealOperators b d) = operator d.
Proof. unfold revealOperators. by destruct (_ && _). Qed.

Lemma addToQueryBox_accepted btn d :
  nothingEntered d = false ->
  queryBox (addToQueryBox btn d)
  = enclose (queryBox d) (operator d btn) (newSearchTerm d).
Proof.
  intros H. unfold addToQueryBox. rewrite H. cbn.
  by rewrite revealOperators_queryBox, revealOperators_newSearchTerm.
Qed.

Lemma addToQueryBox_operator btn d :
  operator (addToQueryBox btn d) = operator d.
Proof.
  unfold addToQueryBox. destruct (nothingEntered d); [done|]. cbn.
  by rewrite revealOperators_operator.
Qed.

(** C1. An add that passes the entry check leaves in the query box the
    new clause alone when the box was empty (no parentheses, the
    operator unused), and otherwise
    [(] current [) ] operator [ (] clause [)]. *)
Theorem addToQueryBox_rendering btn d :
  nothingEntered d = false ->
  queryBox (addToQueryBox btn d)
  = if queryBox d =? "" then newSearchTerm d
    else "(" +:+ queryBox d +:+ ") " +:+ operator d btn
         +:+ " (" +:+ newSearchTerm d +:+ ")".
Proof. intros H. by rewrite addToQueryBox_accepted. Qed.

Lemma addToQueryBox_rendering_witness :
  nothingEntered (sampleBuilder "x[fieldA]" "y") = false
  /\ queryBox (addToQueryBox btnOr (sampleBuilder "x[fieldA]" "y"))
     = "(x[fieldA]) OR (y[fieldB])".
Proof.
  exact (conj eq_refl
           (addToQueryBox_rendering btnOr (sampleBuilder "x[fieldA]" "y")
              eq_refl)).
Defined.

Example append_first :
  queryBox (append (Entry "fieldA" "string" "x" "" "" btnAdd)
              (sampleBuilder "" ""))
  = "x[fieldA]".
Proof. reflexivity. Qed.

Example append_second :
  queryBox (append (Entry "fieldB" "string" "y" "" "" btnOr)
              (sampleBuilder "x[fieldA]" ""))
  = "(x[fieldA]) OR (y[fieldB])".
Proof. reflexivity. Qed.

(** C6, amended.  For a field that is not of type string, an add that
    passes the entry check puts in the query the clause [from:to[field]],
    with 0 for an empty from box and 3000 for an empty to box.  With both
    range boxes empty the clause is [0:3000[field]] when the text box
    still holds something; when the text box is empty too the add is
    turned down: the message is shown and the query box keeps its
    content. *)
Theorem range_defaults btn d :
  (columntype d =? "string") = false ->
  (nothingEntered d = false ->
   newSearchTerm d
   = (if searchFromValue d =? "" then "0" else searchFromValue d)
     +:+ ":" +:+ (if searchToValue d =? "" then "3000" else searchToValue d)
     +:+ "[" +:+ field d +:+ "]"
   /\ queryBox (addToQueryBox btn d)
      = enclose (queryBox d) (operator d btn)
          ((if searchFromValue d =? "" then "0" else searchFromValue d)
           +:+ ":"
           +:+ (if searchToValue d =? "" then "3000" else searchToValue d)
           +:+ "[" +:+ field d +:+ "]"))
  /\ (searchFromValue d = "" -> searchToValue d = "" ->
      (searchValue d <> "" ->
       queryBox (addToQueryBox btn d)
       = enclose (queryBox d) (operator d btn)
           ("0:3000[" +:+ field d +:+ "]"))
      /\ (searchValue d = "" ->
          queryBox (addToQueryBox btn d) = queryBox d
          /\ emptySearchTerm (addToQueryBox btn d)
             = "Please enter a value before adding to query."
          /\ emptySearchTerm_hidden (addToQueryBox btn d) = false)).
Proof.
  intros Hty.
  assert (newSearchTerm d
          = (if searchFromValue d =? "" then "0" else searchFromValue d)
            +:+ ":"
            +:+ (if searchToValue d =? "" then "3000" else searchToValue d)
            +:+ "[" +:+ field d +:+ "]") as Hterm.
  { unfold newSearchTerm, JS.falsy. rewrite Hty.
    by destruct (searchFromValue d =? ""), (searchToValue d =? ""). }
  split.
  - intros Hok. split; [done|].
    rewrite addToQueryBox_accepted by done. by rewrite Hterm.
  - intros Hfrom Hto. split.
    + intros Hvalue.
      assert (nothingEntered d = false) as Hok.
      { unfold nothingEntered.
        by destruct (String.eqb_spec (searchValue d) ""). }
      rewrite addToQueryBox_accepted by done.
      by rewrite Hterm, Hfrom, Hto.
    + intros Hvalue. unfold addToQueryBox, nothingEntered, JS.falsy.
      by rewrite Hvalue, Hfrom, Hto.
Qed.

Lemma range_defaults_witness :
  (columntype sampleRange =? "string") = false
  /\ nothingEntered sampleRange = false
  /\ newSearchTerm sampleRange = "0:3000[Pub Year]"
  /\ queryBox (addToQueryBox btnAdd sampleRange) = "0:3000[Pub Year]".
Proof.
  exact (conj eq_refl (conj eq_refl
           (proj1 (range_defaults btnAdd sampleRange eq_refl) eq_refl))).
Defined.

(** C6 as stated fails: on a range field with the from box, the to box
    and the text box all empty, the add is turned down and no clause
    [0:3000[field]] reaches the query box. *)
Lemma range_defaults_counterexample :
  ~ (forall btn d,
        (columntype d =? "string") = false ->
        searchFromValue d = "" -> searchToValue d = "" ->
        queryBox (addToQueryBox btn d)
        = enclose (queryBox d) (operator d btn)
            ("0:3000[" +:+ field d +:+ "]")).
Proof.
  intros H. specialize (H btnAdd emptyRange eq_refl eq_refl eq_refl).
  vm_compute in H. discriminate H.
Qed.

Example range_all_empty_is_refused :
  queryBox (addToQueryBox btnAdd emptyRange) = ""
  /\ emptySearchTerm (addToQueryBox btnAdd emptyRange)
     = "Please enter a value before adding to query."
  /\ emptySearchTerm_hidden (addToQueryBox btnAdd emptyRange) = false.
Proof. repeat split; reflexivity. Qed.

(** C7. With an empty text box and both range boxes empty, in particular
    for a string field, the add only shows the message "Please enter a
    value before adding to query."; the query box and the search
    criteria keep their content, like every other element. *)
Theorem addToQueryBox_nothing_entered btn d :
  searchValue d = "" ->
  searchFromValue d = "" ->
  searchToValue d = "" ->
  addToQueryBox btn d
  = set_emptySearchTerm_hidden false
      (set_emptySearchTerm "Please enter a value before adding to query." d)
  /\ queryBox (addToQueryBox btn d) = queryBox d
  /\ searchCriteria (addToQueryBox btn d) = searchCriteria d
  /\ emptySearchTerm_hidden (addToQueryBox btn d) = false.
Proof.
  intros Hv Hf Ht.
  assert (nothingEntered d = true) as Hn
      by (unfold nothingEntered, JS.falsy; by rewrite Hv, Hf, Ht).
  unfold addToQueryBox. by rewrite Hn.
Qed.

Lemma addToQueryBox_nothing_entered_witness :
  searchValue (sampleBuilder "x[fieldA]" "") = ""
  /\ searchFromValue (sampleBuilder "x[fieldA]" "") = ""
  /\ searchToValue (sampleBuilder "x[fieldA]" "") = ""
  /\ queryBox (addToQueryBox btnAdd (sampleBuilder "x[fieldA]" ""))
     = "x[fieldA]".
Proof.
  exact (conj eq_refl (conj eq_refl (conj eq_refl
           (proj1 (proj2 (addToQueryBox_nothing_entered btnAdd
                            (sampleBuilder "x[fieldA]" "")
                            eq_refl eq_refl eq_refl)))))).
Defined.

End QueryBuilderFacts.

(** ** Parentheses of the built query *)

(** Appending to a text that starts with known characters: stdpp keeps
    [+:+] folded, so the characters are moved out by conversion. *)
Ltac push_app :=
  repeat first
    [ progress change (String ?x ?s +:+ ?t) with (String x (s +:+ t))
    | progress change (EmptyString +:+ ?t) with t ].

Section ParensFacts.
Import Parens.

Lemma scan_app s1 : forall depth s2,
  scan depth (s1 +:+ s2) = scan depth s1 ≫= fun depth' => scan depth' s2.
Proof.
  induction s1 as [|x s1 IH]; intros depth s2; push_app; cbn; [done|].
  destruct (Ascii.eqb x "("); [apply IH|].
  destruct (Ascii.eqb x ")"); [|apply IH].
  destruct depth; [done|apply IH].
Qed.

Lemma scan_lift s : forall depth depth' k,
  scan depth s = Some depth' -> scan (k + depth) s = Some (k + depth').
Proof.
  induction s as [|x s IH]; intros depth depth' k; cbn.
  - by intros [= ->].
  - destruct (Ascii.eqb x "(").
    { intros H. rewrite <- (IH _ _ k H). f_equal. lia. }
    destruct (Ascii.eqb x ")"); [|apply IH].
    destruct depth as [|depth]; [done|]. intros H.
    replace (k + S depth) with (S (k + depth)) by lia. by apply IH.
Qed.

Lemma balanced_scan s depth :
  balanced s = true -> scan depth s = Some depth.
Proof.
  unfold balanced. destruct (scan 0 s) as [[|n]|] eqn:H; try done.
  intros _. pose proof (scan_lift s 0 0 depth H) as H'.
  by rewrite !Nat.add_0_r in H'.
Qed.

End ParensFacts.

Section BuiltQuery.
Import QueryBuilder Parens Built Samples.



Lemma enclose_balanced current op term :
  balanced current = true -> balanced op = true ->
  balanced term = true ->
  balanced (enclose current op term) = true.
Proof.
  intros Hc Ho Ht. unfold enclose. destruct (current =? ""); [done|].
  unfold balanced. push_app. cbn.
  rewrite scan_app, (balanced_scan current 1 Hc). push_app. cbn.
  rewrite scan_app, (balanced_scan op 0 Ho). push_app. cbn.
  by rewrite scan_app, (balanced_scan term 1 Ht).
Qed.

Lemma enclose_nonempty current op term :
  term <> "" -> enclose current op term <> "".
Proof.
  intros H. unfold enclose. destruct (current =? ""); [done|].
  by push_app.
Qed.








End BuiltQuery.

Section BuiltQueryClaims.
Import QueryBuilder Parens Built Samples.




Example appends_groups_run :
  queryBox (appends [entryX] (sampleBuilder "" "")) = "x[fieldA]"
  /\ groups (built (sampleBuilder "" "") entryX []) = 0
  /\ queryBox (appends [entryX; entryY] (sampleBuilder "" ""))
     = "(x[fieldA]) OR (y[fieldB])"
  /\ groups (built (sampleBuilder "" "") entryX [entryY]) = 0
  /\ queryBox (appends [entryX; entryY; entryZ] (sampleBuilder "" ""))
     = "((x[fieldA]) OR (y[fieldB])) AND NOT (z[fieldC])"
  /\ groups (built (sampleBuilder "" "") entryX [entryY; entryZ]) = 1
  /\ queryBox (appends [entryX; entryY; entryZ; entryX]
                       (sampleBuilder "" ""))
     = "(((x[fieldA]) OR (y[fieldB])) AND NOT (z[fieldC])) AND (x[fieldA])"
  /\ groups (built (sampleBuilder "" "") entryX [entryY; entryZ; entryX])
     = 2.
Proof. repeat split; reflexivity. Qed.

End BuiltQueryClaims.

(** ** The selected publications *)

Section SelectionFacts.
Import Selection Samples.

Lemma indexOf_Some a x i :
  indexOf a x = Some i -> a !! i = Some x.
Proof.
  unfold indexOf. destruct (list_find _ a) as [[j y]|] eqn:H; [|done].
  cbn. intros [= ->]. apply list_find_Some in H as (H & -> & _). done.
Qed.

Lemma indexOf_None a x : indexOf a x = None <-> x ∉ a.
Proof.
  unfold indexOf. destruct (list_find _ a) as [[j y]|] eqn:H; cbn.
  - apply list_find_Some in H as (H & -> & _).
    split; [done|]. intros Hx. destruct Hx.
    by apply list_elem_of_lookup_2 in H.
  - split; [|done]. intros _ Hx.
    apply list_find_None in H. rewrite Forall_forall in H.
    by apply (H x).
Qed.

Lemma indexOf_fresh a x :
  x ∉ a -> indexOf (a ++ [x])%list x = Some (length a).
Proof.
  intros Hx. unfold indexOf.
  assert (list_find (fun y => y = x) (a ++ [x])%list
          = Some (length a, x)) as ->;
    [|done].
  apply list_find_Some. split_and!; [|done|].
  - by rewrite lookup_app_r, Nat.sub_diag.
  - intros j y Hj Hlt ->. apply Hx.
    rewrite lookup_app_l in Hj by done.
    by apply list_elem_of_lookup_2 in Hj.
Qed.

Lemma delete_last (a : list jqdata) x :
  delete (length a) (a ++ [x])%list = a.
Proof. induction a as [|y a IH]; [done|]. cbn. f_equal. exact IH. Qed.

End SelectionFacts.

Section SelectionClaims.
Import Selection Samples.

Local Arguments indexOf : simpl never.

Lemma toggle_at d k pubid c :
  pubSelected d !! k = Some (pubid, c) ->
  toggle k d
  = pubSelected_change pubid (negb c)
      (Dom (<[k := (pubid, negb c)]> (pubSelected d))
           (selectedPubIds d) (selectedOption d)).
Proof. intros H. unfold toggle. by rewrite H. Qed.

Lemma toggle_box d k pubid c :
  pubSelected d !! k = Some (pubid, c) ->
  pubSelected (toggle k d) !! k = Some (pubid, negb c).
Proof.
  intros H. rewrite (toggle_at d k pubid c H). cbn.
  apply list_lookup_insert_eq. by eapply lookup_lt_Some.
Qed.

Lemma toggle_boxes_back d k pubid c :
  pubSelected d !! k = Some (pubid, c) ->
  pubSelected (toggle k (toggle k d)) = pubSelected d.
Proof.
  intros H. pose proof (toggle_box d k pubid c H) as H1.
  rewrite (toggle_at _ k pubid (negb c) H1). cbn.
  rewrite (toggle_at d k pubid c H). cbn.
  rewrite list_insert_insert_eq, negb_involutive.
  by apply list_insert_id.
Qed.

(** C8, amended.  Take a box that, when ticked, has its id in the
    array.  Two clicks on it bring the array back to the same ids, each
    as often as before, and the boxes to their states.  When the box
    shows exactly whether its id is in the array, one click puts the id
    in (at the end) if it was absent and takes one occurrence of it out
    if it was present, which removes the id when the array holds no id
    twice. *)
Theorem toggle_twice d k pubid c :
  pubSelected d !! k = Some (pubid, c) ->
  (c = true -> pubid ∈ selectedPubIds d) ->
  selectedPubIds (toggle k (toggle k d)) ≡ₚ selectedPubIds d
  /\ pubSelected (toggle k (toggle k d)) = pubSelected d
  /\ (c = bool_decide (pubid ∈ selectedPubIds d) ->
      (pubid ∉ selectedPubIds d ->
       selectedPubIds (toggle k d) = (selectedPubIds d ++ [pubid])%list)
      /\ (pubid ∈ selectedPubIds d ->
          exists i, selectedPubIds d !! i = Some pubid
                    /\ selectedPubIds (toggle k d)
                       = delete i (selectedPubIds d)
                    /\ (NoDup (selectedPubIds d) ->
                        pubid ∉ selectedPubIds (toggle k d)))).
Proof.
  intros Hk Hc.
  pose proof (toggle_box d k pubid c Hk) as Hk1.
  split_and!; [|by eapply toggle_boxes_back|].
  - rewrite (toggle_at _ k pubid (negb c) Hk1). cbn.
    rewrite (toggle_at d k pubid c Hk). destruct c; cbn.
    + destruct (indexOf (selectedPubIds d) pubid) as [i|] eqn:Hi.
      * apply indexOf_Some in Hi.
        rewrite (delete_Permutation _ _ _ Hi) at 2.
        by rewrite Permutation_app_comm.
      * apply indexOf_None in Hi. by destruct Hi; apply Hc.
    + destruct (indexOf (selectedPubIds d ++ [pubid])%list pubid)
        as [i|] eqn:Hi.
      * apply indexOf_Some in Hi.
        apply (Permutation_cons_inv (a := pubid)).
        rewrite <- (delete_Permutation _ _ _ Hi).
        by rewrite Permutation_app_comm.
      * apply indexOf_None in Hi. destruct Hi.
        apply elem_of_app. right. by apply list_elem_of_singleton.
  - intros Hshows. split.
    + intros Hout. rewrite (toggle_at d k pubid c Hk).
      rewrite bool_decide_eq_false_2 in Hshows by done. by rewrite Hshows.
    + intros Hin. rewrite (toggle_at d k pubid c Hk).
      rewrite bool_decide_eq_true_2 in Hshows by done. rewrite Hshows. cbn.
      destruct (indexOf (selectedPubIds d) pubid) as [i|] eqn:Hi;
        [|by apply indexOf_None in Hi].
      apply indexOf_Some in Hi. exists i. split_and!; [done|done|].
      intros Hnd. rewrite (delete_Permutation _ _ _ Hi) in Hnd.
      by apply NoDup_cons in Hnd as [Hnot _].
Qed.

Lemma toggle_twice_witness :
  pubSelected sampleResults !! 0 = Some (DNum 7, false)
  /\ selectedPubIds (toggle 0 (toggle 0 sampleResults))
     ≡ₚ selectedPubIds sampleResults.
Proof.
  refine (conj eq_refl
            (proj1 (toggle_twice sampleResults 0 (DNum 7) false
                      eq_refl _))).
  intros H. discriminate H.
Defined.

(** C8 as stated fails.  The handler goes by the state of the box, not
    by the array: on a ticked box whose id is not in the array the first
    click finds nothing to take out and the second puts the id in, so
    two clicks do not give the array back; and on an unticked box whose
    id is in the array a click puts the id in once more instead of
    taking it out. *)
Lemma toggle_twice_counterexample :
  ~ (forall d k x,
        x ∈ selectedPubIds (toggle k (toggle k d)) <-> x ∈ selectedPubIds d)
  /\ ~ (forall d k pubid c,
           pubSelected d !! k = Some (pubid, c) ->
           pubid ∈ selectedPubIds d ->
           pubid ∉ selectedPubIds (toggle k d)).
Proof.
  split.
  - intros H. destruct (H staleResults 0 (DNum 7)) as [H1 _].
    assert (DNum 7 ∈ selectedPubIds staleResults) as Hin.
    { apply H1. vm_compute. apply list_elem_of_singleton. reflexivity. }
    vm_compute in Hin. by apply elem_of_nil in Hin.
  - intros H.
    apply (H unshownResults 0 (DNum 7) false eq_refl).
    + vm_compute. apply list_elem_of_singleton. reflexivity.
    + vm_compute. apply elem_of_cons. by left.
Qed.

Example toggle_adds_then_removes :
  selectedPubIds (toggle 0 sampleResults) = [DNum 9; DNum 7]
  /\ selectedPubIds (toggle 0 (toggle 0 sampleResults)) = [DNum 9]
  /\ selectedPubIds (toggle 1 sampleResults) = []
  /\ selectedPubIds (toggle 1 (toggle 1 sampleResults)) = [DNum 9].
Proof. by split_and!. Qed.

(** A checked box whose id is not in the array: two clicks leave the id
    in the array. *)
Example toggle_checked_but_absent :
  selectedPubIds (toggle 0 staleResults) = []
  /\ selectedPubIds (toggle 0 (toggle 0 staleResults)) = [DNum 7].
Proof. by split. Qed.

(** An unchecked box whose id is in the array: a click adds the id a
    second time, the next one takes the first occurrence out. *)
Example toggle_unchecked_but_present :
  selectedPubIds (toggle 0 unshownResults) = [DNum 7; DNum 7]
  /\ selectedPubIds (toggle 0 (toggle 0 unshownResults)) = [DNum 7].
Proof. by split. Qed.

Lemma setSelectedPubCheckboxes_box selected (box : jqdata * bool) :
  match indexOf selected box.1 with
  | Some _ => (box.1, true)
  | None => box
  end = (box.1, box.2 || bool_decide (box.1 ∈ selected)).
Proof.
  destruct box as [pubid c]. cbn.
  destruct (indexOf selected pubid) as [i|] eqn:Hi.
  - apply indexOf_Some, list_elem_of_lookup_2 in Hi.
    rewrite bool_decide_eq_true_2 by done. by rewrite orb_true_r.
  - apply indexOf_None in Hi.
    rewrite bool_decide_eq_false_2 by done. by rewrite orb_false_r.
Qed.

(** C9. On a freshly loaded result list, [setSelectedPubCheckboxes]
    checks exactly the visible ids that are in the array, in the order
    shown, and so never an id that is not visible; in general it checks
    the boxes whose id is in the array and leaves the other boxes as
    they are; and it leaves the array itself as it was. *)
Theorem reapply_exact visibleIds d :
  reapply visibleIds (selectedPubIds d)
  = filter (fun id => id ∈ selectedPubIds d) visibleIds
  /\ (forall x, x ∈ reapply visibleIds (selectedPubIds d) ->
                x ∈ visibleIds /\ x ∈ selectedPubIds d)
  /\ pubSelected (setSelectedPubCheckboxes d)
     = (fun box : jqdata * bool =>
          (box.1, box.2 || bool_decide (box.1 ∈ selectedPubIds d)))
         <$> pubSelected d
  /\ selectedPubIds (setSelectedPubCheckboxes d) = selectedPubIds d.
Proof.
  assert (reapply visibleIds (selectedPubIds d)
          = filter (fun id => id ∈ selectedPubIds d) visibleIds) as Heq.
  { unfold reapply, checkedIds, setSelectedPubCheckboxes. cbn.
    induction visibleIds as [|id rest IH]; [done|].
    rewrite !fmap_cons, setSelectedPubCheckboxes_box. cbn.
    destruct (decide (id ∈ selectedPubIds d)) as [Hin|Hout].
    - rewrite bool_decide_eq_true_2 by done.
      rewrite decide_True by done. cbn. f_equal. exact IH.
    - rewrite bool_decide_eq_false_2 by done.
      rewrite decide_False by done. exact IH. }
  split_and!; [done| | |done].
  - intros x. rewrite Heq. intros [? ?]%list_elem_of_filter. done.
  - unfold setSelectedPubCheckboxes. cbn.
    apply list_fmap_ext. intros i box _.
    apply setSelectedPubCheckboxes_box.
Qed.

End SelectionClaims.

(** ** The default filters *)

Section DefaultFilterFacts.
Import DefaultFilter Samples.

Lemma string_app_assoc (s1 s2 s3 : string) :
  (s1 +:+ s2) +:+ s3 = s1 +:+ s2 +:+ s3.
Proof. induction s1 as [|x s1 IH]; push_app; [done|]. by rewrite IH. Qed.

Lemma string_app_nil_r (s : string) : s +:+ "" = s.
Proof. induction s as [|x s IH]; push_app; [done|]. by rewrite IH. Qed.

Lemma concat_cons (s : string) (l : list string) :
  String.concat "" (s :: l) = s +:+ String.concat "" l.
Proof. destruct l; cbn; [by rewrite string_app_nil_r|done]. Qed.

Lemma eachDefaultFilter_concat Y boxes : forall acc frs,
  Forall2 (fun f s => fragment Y f = Some s)
          (filter (fun f => checked f = true) boxes) frs ->
  eachDefaultFilter Y boxes acc = Some (acc +:+ String.concat "" frs).
Proof.
  induction boxes as [|f boxes IH]; intros acc frs H; cbn.
  - apply Forall2_nil_inv_l in H as ->. cbn.
    by rewrite string_app_nil_r.
  - destruct (checked f) eqn:Hf.
    + rewrite filter_cons_True in H by done.
      apply Forall2_cons_inv_l in H as (s & frs' & Hs & H & ->).
      rewrite concat_cons, Hs. cbn. rewrite (IH _ _ H).
      by rewrite string_app_assoc.
    + rewrite filter_cons_False in H by (by rewrite Hf). by apply IH.
Qed.

Lemma render_fragment Y f s :
  Composer.render Y f = Some s -> fragment Y f = Some (" " +:+ s).
Proof.
  unfold Composer.render, Composer.matchKindOf, fragment.
  destruct (covered (filtervalue f)); [|done].
  destruct (filterfield f =? "year").
  - destruct (filtervalue f) as [n|t]; cbn.
    + destruct (JS.safeInteger (Y - n)); [|done]. by intros [= <-].
    + destruct (JS.Number t) as [n|]; [|done]. cbn.
      destruct (JS.safeInteger (Y - n)); [|done]. by intros [= <-].
  - destruct (filterfield f =? "notempty");
      destruct (filtervalue f); cbn; by intros [= <-].
Qed.

Lemma renders_fragments Y boxes bare :
  mapM (Composer.render Y) boxes = Some bare ->
  Forall2 (fun f s => fragment Y f = Some s) boxes
          ((fun s => " " +:+ s) <$> bare).
Proof.
  intros H%mapM_Some. induction H as [|f s boxes bare Hs _ IH]; cbn.
  - constructor.
  - constructor; [by apply render_fragment|exact IH].
Qed.

Lemma blank_led_join (s : string) (l : list string) :
  String.concat "" ((fun s => " " +:+ s) <$> (s :: l))
  = " " +:+ String.concat " " (s :: l).
Proof.
  revert s. induction l as [|s' l IH]; intros s.
  - reflexivity.
  - rewrite fmap_cons, concat_cons, IH.
    change (String.concat " " (s :: s' :: l))
      with (s +:+ " " +:+ String.concat " " (s' :: l)).
    by push_app.
Qed.

(** C4, amended.  Each ticked default filter gives one fragment
    according to its kind: for the field name "year" the text
    [BETWEEN (y:3001[Pub Year])] with [y] the current year less the
    filter value and 3001 fixed, for "notempty" the text
    [NOTEMPTY ([value])], and for any other name
    [CONTAINS (value[name])], a number among the values printed by its
    decimal numeral.  The criteria of the loop are these fragments in the
    order of the boxes, each of them, the first one too, with one blank
    in front and nothing else between or around them: with a filter
    ticked they are a blank followed by the fragments joined by blanks,
    with none ticked they are empty.  The custom range, if any, follows
    in the value written to the page. *)
Theorem defaultFilter_criteria Y d bare :
  mapM (Composer.render Y)
       (filter (fun f => checked f = true) (defaultFilters d)) = Some bare ->
  eachDefaultFilter Y (defaultFilters d) ""
  = Some (String.concat "" ((fun s => " " +:+ s) <$> bare))
  /\ (bare <> [] ->
      eachDefaultFilter Y (defaultFilters d) ""
      = Some (" " +:+ String.concat " " bare))
  /\ (bare = [] -> eachDefaultFilter Y (defaultFilters d) "" = Some "")
  /\ DefaultFilterCriteria <$> buildDefaultFilterCriteria Y d
     = Some (String.concat "" ((fun s => " " +:+ s) <$> bare)
             +:+ customRangeCriteria d).
Proof.
  intros H%renders_fragments.
  pose proof (eachDefaultFilter_concat Y _ "" _ H) as Heach.
  change ("" +:+ ?x) with x in Heach.
  split_and!; [done| | |].
  - destruct bare as [|s l]; [done|]. intros _.
    by rewrite Heach, blank_led_join.
  - intros ->. by rewrite Heach.
  - unfold buildDefaultFilterCriteria. by rewrite Heach.
Qed.

Lemma defaultFilter_criteria_witness :
  mapM (Composer.render 2024)
       (filter (fun f => checked f = true) (defaultFilters numericFilters))
  = Some ["BETWEEN (2019:3001[Pub Year])"; "CONTAINS (12[Volume])";
          "NOTEMPTY ([Abstract])"; "NOTEMPTY ([-40])";
          "BETWEEN (2014:3001[Pub Year])"]
  /\ eachDefaultFilter 2024 (defaultFilters numericFilters) ""
     = Some (" BETWEEN (2019:3001[Pub Year]) CONTAINS (12[Volume])"
             +:+ " NOTEMPTY ([Abstract]) NOTEMPTY ([-40])"
             +:+ " BETWEEN (2014:3001[Pub Year])").
Proof.
  exact (conj eq_refl
           (proj1 (defaultFilter_criteria 2024 numericFilters _ eq_refl))).
Defined.

(** C4 as stated fails: the criteria are not the fragments joined by
    blanks, since the first fragment has a blank in front as well.  One
    ticked filter gives [ CONTAINS (Safety[Topic])], blank first. *)
Lemma defaultFilter_criteria_counterexample :
  ~ (forall Y d,
        eachDefaultFilter Y (defaultFilters d) ""
        = Composer.compose Y
            (filter (fun f => checked f = true) (defaultFilters d))).
Proof.
  intros H. specialize (H 2024%Z oneFilter).
  vm_compute in H. discriminate H.
Qed.

Example one_filter_blank_first :
  eachDefaultFilter 2024 (defaultFilters oneFilter) ""
  = Some " CONTAINS (Safety[Topic])"
  /\ Composer.compose 2024
       (filter (fun f => checked f = true) (defaultFilters oneFilter))
     = Some "CONTAINS (Safety[Topic])"
  /\ DefaultFilterCriteria <$> buildDefaultFilterCriteria 2024 oneFilter
     = Some " CONTAINS (Safety[Topic])".
Proof. repeat split; reflexivity. Qed.

(** The numbers among the filter values: the year filter subtracts its
    value whether jQuery handed it back as a number or as a text, and the
    other two kinds print a number by its numeral. *)
Example numeric_values_printed :
  fragment 2024 (FilterBox true "year" "int" (DNum 5))
  = Some " BETWEEN (2019:3001[Pub Year])"
  /\ fragment 2024 (FilterBox true "year" "int" (DStr "010"))
     = Some " BETWEEN (2014:3001[Pub Year])"
  /\ fragment 2024 (FilterBox true "Volume" "int" (DNum 12))
     = Some " CONTAINS (12[Volume])"
  /\ fragment 2024 (FilterBox true "Volume" "int" (DStr "012"))
     = Some " CONTAINS (012[Volume])"
  /\ fragment 2024 (FilterBox true "notempty" "int" (DNum (-40)))
     = Some " NOTEMPTY ([-40])".
Proof. repeat split; reflexivity. Qed.

End DefaultFilterFacts.

(** ** The click on a default filter *)

Section DefaultFilterClick.
Import DefaultFilter Page Samples.

Lemma yearsInverted_true fromYear toYear :
  yearsInverted fromYear toYear = true <-> (toYear < fromYear)%Z.
Proof. unfold yearsInverted. apply Z.ltb_lt. Qed.

Lemma notFourDigits_true fromYear toYear :
  notFourDigits fromYear toYear = true
  <-> ((0 < fromYear)%Z /\ String.length (JS.toString fromYear) <> 4)
      \/ ((0 < toYear)%Z /\ String.length (JS.toString toYear) <> 4).
Proof.
  unfold notFourDigits.
  rewrite orb_true_iff, !andb_true_iff, !negb_true_iff.
  by rewrite !Z.ltb_lt, !Nat.eqb_neq.
Qed.

Lemma customRangeCriteria_on d :
  fromPubYear d <> "" \/ toPubYear d <> "" ->
  customRange d = true ->
  customRangeCriteria d
  = " BETWEEN ("
    +:+ (if fromPubYear d =? "" then "1001" else fromPubYear d)
    +:+ ":" +:+ (if toPubYear d =? "" then "3000" else toPubYear d)
    +:+ "[Pub Year])".
Proof.
  intros Hsome Hon. unfold customRangeCriteria. rewrite Hon.
  destruct (String.eqb_spec (fromPubYear d) "") as [Hf|Hf],
           (String.eqb_spec (toPubYear d) "") as [Ht|Ht]; cbn; try done.
  by destruct Hsome.
Qed.

Lemma customRangeCriteria_off d :
  (fromPubYear d = "" /\ toPubYear d = "") \/ customRange d = false ->
  customRangeCriteria d = "".
Proof.
  unfold customRangeCriteria. intros [[-> ->]| ->]; [done|].
  by rewrite andb_false_r.
Qed.

(** C5, amended.  Take year boxes that are empty or hold a plain decimal
    numeral, and read both as numbers, an empty box counting as 0.  The
    click on a default filter shows "From year must be less than to
    year" when from is above to, and "Custom year range values must be 4
    digits" when a bound is above 0 and the numeral JavaScript prints for
    its number ([Number(bound).toString()], so without the zeros typed
    in front) is not four characters long; either way it stops there,
    the criteria untouched and nothing sent.  Otherwise it builds the
    criteria and posts the search; the custom range, when one of the
    boxes is filled and the range is ticked, adds
    [ BETWEEN (from:to[Pub Year])] with 1001 for an empty from and 3000
    for an empty to, and adds nothing when it is not ticked or both
    boxes are empty. *)
Theorem defaultFilter_click_checks Y p fromYear toYear :
  JS.Number (fromPubYear (filters p)) = Some fromYear ->
  JS.Number (toPubYear (filters p)) = Some toYear ->
  ((toYear < fromYear)%Z ->
     defaultFilter_click Y p
     = Some (Returned
               (toastr_error_ "From year must be less than to year" p)))
  /\ ((fromYear <= toYear)%Z ->
      ((0 < fromYear)%Z /\ String.length (JS.toString fromYear) <> 4)
      \/ ((0 < toYear)%Z /\ String.length (JS.toString toYear) <> 4) ->
      defaultFilter_click Y p
      = Some (Returned
                (toastr_error_
                   "Custom year range values must be 4 digits" p)))
  /\ ((fromYear <= toYear)%Z ->
      ~ (((0 < fromYear)%Z /\ String.length (JS.toString fromYear) <> 4)
         \/ ((0 < toYear)%Z /\ String.length (JS.toString toYear) <> 4)) ->
      forall frs,
        Forall2 (fun f s => fragment Y f = Some s)
                (filter (fun f => checked f = true)
                        (defaultFilters (filters p))) frs ->
        let p' :=
          set_filters
            (set_DefaultFilterCriteria
               (String.concat "" frs +:+ customRangeCriteria (filters p))
               (filters p)) p in
        defaultFilter_click Y p
        = Some (Sent "/NSLSL/Search/SearchAjax" (createModel (DNum 1) p')
                     p'))
  /\ (fromPubYear (filters p) <> "" \/ toPubYear (filters p) <> "" ->
      customRange (filters p) = true ->
      customRangeCriteria (filters p)
      = " BETWEEN ("
        +:+ (if fromPubYear (filters p) =? "" then "1001"
             else fromPubYear (filters p))
        +:+ ":"
        +:+ (if toPubYear (filters p) =? "" then "3000"
             else toPubYear (filters p))
        +:+ "[Pub Year])")
  /\ ((fromPubYear (filters p) = "" /\ toPubYear (filters p) = "")
      \/ customRange (filters p) = false ->
      customRangeCriteria (filters p) = "").
Proof.
  intros Hf Ht. unfold defaultFilter_click. rewrite Hf, Ht. cbn.
  split_and!.
  - intros Hlt%yearsInverted_true. by rewrite Hlt.
  - intros Hle Hd%notFourDigits_true.
    destruct (yearsInverted fromYear toYear) eqn:Hi.
    { apply yearsInverted_true in Hi. lia. }
    by rewrite Hd.
  - intros Hle Hd frs Hfrs.
    destruct (yearsInverted fromYear toYear) eqn:Hi.
    { apply yearsInverted_true in Hi. lia. }
    destruct (notFourDigits fromYear toYear) eqn:Hn.
    { by apply notFourDigits_true in Hn. }
    unfold buildDefaultFilterCriteria.
    by rewrite (eachDefaultFilter_concat Y _ "" frs Hfrs).
  - apply customRangeCriteria_on.
  - apply customRangeCriteria_off.
Qed.

Lemma defaultFilter_click_checks_witness :
  JS.Number (fromPubYear (sampleFilters "1999" "1998" true)) = Some 1999%Z
  /\ JS.Number (toPubYear (sampleFilters "1999" "1998" true)) = Some 1998%Z
  /\ (1998 < 1999)%Z
  /\ defaultFilter_click 2024
       (samplePage (sampleFilters "1999" "1998" true) noResults
          (sampleExport "all" "all" "0"))
     = Some (Returned
               (toastr_error_ "From year must be less than to year"
                  (samplePage (sampleFilters "1999" "1998" true) noResults
                     (sampleExport "all" "all" "0")))).
Proof.
  exact (conj eq_refl (conj eq_refl (conj eq_refl
           (proj1 (defaultFilter_click_checks 2024
                     (samplePage (sampleFilters "1999" "1998" true)
                        noResults (sampleExport "all" "all" "0"))
                     1999 1998 eq_refl eq_refl) eq_refl)))).
Defined.

(** C5 as stated fails: a from box holding "0" is filled in with a
    single digit, and the click still builds the criteria and posts the
    search. *)
Lemma defaultFilter_click_checks_counterexample :
  ~ (forall Y p n,
       fromPubYear (filters p) <> "" ->
       JS.Number (fromPubYear (filters p)) = Some n ->
       String.length (JS.toString n) <> 4 ->
       exists p', defaultFilter_click Y p = Some (Returned p')).
Proof.
  intros H.
  destruct (H 2024%Z
              (samplePage (sampleFilters "0" "1999" true) noResults
                 (sampleExport "all" "all" "0"))
              0%Z) as [p' Hp']; [done|done|by cbn|].
  vm_compute in Hp'. discriminate Hp'.
Qed.

Example zero_from_composes :
  (fun r => match r with
            | Some (Sent _ model _) => Model.DefaultFilterCriteria model
            | _ => ""
            end)
    (defaultFilter_click 2024
       (samplePage (sampleFilters "0" "1999" true) noResults
          (sampleExport "all" "all" "0")))
  = " BETWEEN (2019:3001[Pub Year]) NOTEMPTY ([Abstract])"
    +:+ " CONTAINS (Report[Doc Type]) BETWEEN (0:1999[Pub Year])".
Proof. reflexivity. Qed.

(** The four characters are counted on the printed number, not on the
    text typed: five digits that spell a four-digit number pass, and the
    text typed is what goes into the criteria; four digits that spell a
    three-digit number are turned down. *)
Example leading_zero_composes :
  (fun r => match r with
            | Some (Sent _ model _) => Model.DefaultFilterCriteria model
            | _ => ""
            end)
    (defaultFilter_click 2024
       (samplePage (sampleFilters "01999" "2005" true) noResults
          (sampleExport "all" "all" "0")))
  = " BETWEEN (2019:3001[Pub Year]) NOTEMPTY ([Abstract])"
    +:+ " CONTAINS (Report[Doc Type]) BETWEEN (01999:2005[Pub Year])"
  /\ defaultFilter_click 2024
       (samplePage (sampleFilters "0999" "2005" true) noResults
          (sampleExport "all" "all" "0"))
     = Some (Returned
               (toastr_error_ "Custom year range values must be 4 digits"
                  (samplePage (sampleFilters "0999" "2005" true) noResults
                     (sampleExport "all" "all" "0")))).
Proof. split; reflexivity. Qed.

(** C10. A from box holding a number above 0 next to an empty to box is
    always turned down with "From year must be less than to year", the
    empty box counting as 0: the criteria are not rebuilt and nothing is
    sent, so this click never puts 3000 in for the missing to. *)
Theorem missing_to_rejected Y p fromYear :
  JS.Number (fromPubYear (filters p)) = Some fromYear ->
  (0 < fromYear)%Z ->
  toPubYear (filters p) = "" ->
  defaultFilter_click Y p
  = Some (Returned (toastr_error_ "From year must be less than to year" p))
  /\ filters (toastr_error_ "From year must be less than to year" p)
     = filters p
  /\ forall url model p',
       defaultFilter_click Y p <> Some (Sent url model p').
Proof.
  intros Hf Hpos Ht.
  assert (defaultFilter_click Y p
          = Some (Returned
                    (toastr_error_ "From year must be less than to year" p)))
    as Hclick.
  { unfold defaultFilter_click. rewrite Hf, Ht. cbn.
    assert (yearsInverted fromYear 0 = true) as ->
        by by apply yearsInverted_true.
    done. }
  split_and!; [done|done|]. intros url model p'. by rewrite Hclick.
Qed.

Lemma missing_to_rejected_witness :
  JS.Number (fromPubYear (sampleFilters "1999" "" true)) = Some 1999%Z
  /\ (0 < 1999)%Z
  /\ toPubYear (sampleFilters "1999" "" true) = ""
  /\ defaultFilter_click 2024
       (samplePage (sampleFilters "1999" "" true) noResults
          (sampleExport "all" "all" "0"))
     = Some (Returned
               (toastr_error_ "From year must be less than to year"
                  (samplePage (sampleFilters "1999" "" true) noResults
                     (sampleExport "all" "all" "0")))).
Proof.
  exact (conj eq_refl (conj eq_refl (conj eq_refl
           (proj1 (missing_to_rejected 2024
                     (samplePage (sampleFilters "1999" "" true) noResults
                        (sampleExport "all" "all" "0"))
                     1999 eq_refl eq_refl eq_refl))))).
Defined.

End DefaultFilterClick.

(** ** The export checks *)

Section ExportFacts.
Import Page Samples.

Variable regexForEmail_test : string -> bool.

Lemma tooMany_all count bound n :
  JS.Number count = Some n -> (0 <= bound)%Z ->
  tooMany [] "all" count bound = Some (bound <? n)%Z.
Proof.
  intros Hn Hb. unfold tooMany, exceeds.
  change (Z.of_nat (length [])) with 0%Z.
  assert ((bound <? 0)%Z = false) as -> by by apply Z.ltb_ge.
  cbn. by rewrite Hn.
Qed.

Lemma createModelForExport_selected_empty fetchPageNumber exportType p :
  (if exportType =? "email" then SelectionOptionForEmail (export p)
   else SelectionOptionForSave (export p)) = "selected" ->
  Selection.selectedPubIds (results p) = [] ->
  exists model,
    createModelForExport fetchPageNumber exportType p = Some (Some model, p)
    /\ nothingSelected model = true.
Proof.
  intros Hsel Hnone. unfold createModelForExport.
  destruct (exportType =? "email"); rewrite Hsel, Hnone; cbn;
    eexists; (split; [reflexivity|]); by cbn.
Qed.

(** C3. Before anything is sent: an email of all results is turned down
    when the result count is above 1000, a save of all results when it
    is above 10000, both marking the size note; and an email or a save
    of the selected results is turned down when nothing is selected.  An
    email of all results with a count of 900 passes the size check. *)
Theorem export_checks p :
  (forall n,
      SelectionOptionForEmail (export p) = "all" ->
      JS.Number (searchResultCount (export p)) = Some n ->
      (1000 < n)%Z ->
      exists p', submitEmail_click regexForEmail_test p = Some (Returned p')
                 /\ emailMaxMsg_danger (export p') = true)
  /\ (forall n,
         SelectionOptionForSave (export p) = "all" ->
         JS.Number (searchResultCount (export p)) = Some n ->
         (10000 < n)%Z ->
         exists p', submitSave_click p = Some (Returned p')
                    /\ saveMaxMsg_danger (export p') = true)
  /\ (SelectionOptionForEmail (export p) = "selected" ->
      Selection.selectedPubIds (results p) = [] ->
      exists p', submitEmail_click regexForEmail_test p
                 = Some (Returned p'))
  /\ (SelectionOptionForSave (export p) = "selected" ->
      Selection.selectedPubIds (results p) = [] ->
      exists p', submitSave_click p = Some (Returned p')
                 /\ saveSelectError_hidden (export p') = false)
  /\ (SelectionOptionForEmail (export p) = "all" ->
      searchResultCount (export p) = "900" ->
      exists model,
        createModelForExport (DStr (CurrentPage (settings p))) "email" p
        = Some (Some model, p)).
Proof.
  split_and!.
  - intros n Hsel Hn Hbig.
    unfold submitEmail_click, createModelForExport. cbn.
    rewrite Hsel. cbn. rewrite (tooMany_all _ 1000 n Hn) by lia.
    assert ((1000 <? n)%Z = true) as -> by by apply Z.ltb_lt.
    cbn. by eexists.
  - intros n Hsel Hn Hbig.
    unfold submitSave_click, createModelForExport. cbn.
    rewrite Hsel. cbn. rewrite (tooMany_all _ 10000 n Hn) by lia.
    assert ((10000 <? n)%Z = true) as -> by by apply Z.ltb_lt.
    cbn. by eexists.
  - intros Hsel Hnone. unfold submitEmail_click.
    edestruct (createModelForExport_selected_empty
                 (DStr (CurrentPage (settings p))) "email") as (m & -> & Hm);
      [exact Hsel|exact Hnone|].
    cbn. rewrite Hm. destruct (regexForEmail_test _); cbn; by eexists.
  - intros Hsel Hnone. unfold submitSave_click.
    edestruct (createModelForExport_selected_empty
                 (DStr (CurrentPage (settings p))) "save") as (m & -> & Hm);
      [exact Hsel|exact Hnone|].
    cbn. rewrite Hm. by eexists.
  - intros Hsel Hcount. unfold createModelForExport. cbn.
    rewrite Hsel, Hcount. cbn. by eexists.
Qed.

End ExportFacts.

Section ExportRuns.
Import Page Samples.

Lemma export_checks_witness :
  SelectionOptionForEmail (sampleExport "all" "all" "1500") = "all"
  /\ JS.Number (searchResultCount (sampleExport "all" "all" "1500"))
     = Some 1500%Z
  /\ (1000 < 1500)%Z
  /\ exists p',
       submitEmail_click (fun _ => true)
         (samplePage (sampleFilters "" "" false) noResults
            (sampleExport "all" "all" "1500"))
       = Some (Returned p')
       /\ emailMaxMsg_danger (export p') = true.
Proof.
  exact (conj eq_refl (conj eq_refl (conj eq_refl
           (proj1 (export_checks (fun _ => true)
                     (samplePage (sampleFilters "" "" false) noResults
                        (sampleExport "all" "all" "1500")))
              1500%Z eq_refl eq_refl eq_refl)))).
Defined.

Example save_selected_empty :
  submitSave_click
    (samplePage (sampleFilters "" "" false) noResults
       (sampleExport "all" "selected" "5"))
  = Some (Returned
            (set_export
               (set_saveSelectError_hidden false
                  (sampleExport "all" "selected" "5"))
               (samplePage (sampleFilters "" "" false) noResults
                  (sampleExport "all" "selected" "5")))).
Proof. reflexivity. Qed.

End ExportRuns.


(** * Further properties of the script *)

(** ** What an export request that is sent always satisfies *)

Section ExportSent.
Import Page Samples MoreSamples.

Variable regexForEmail_test : string -> bool.

Lemma tooMany_false ids selectionOpt count bound :
  tooMany ids selectionOpt count bound = Some false ->
  (Z.of_nat (length ids) <= bound)%Z
  /\ (selectionOpt = "all" ->
      forall n, JS.Number count = Some n -> (n <= bound)%Z).
Proof.
  unfold tooMany, exceeds.
  destruct (bound <? Z.of_nat (length ids))%Z eqn:Hlen; [done|].
  apply Z.ltb_ge in Hlen. intros H. split; [done|]. intros -> n Hn.
  cbn in H. rewrite Hn in H. injection H as H. by apply Z.ltb_ge.
Qed.

Lemma createModelForExport_some fetchPageNumber exportType p model p' :
  createModelForExport fetchPageNumber exportType p = Some (Some model, p') ->
  p' = p
  /\ exists o,
       Model.ExportOptions_ model = Some o
       /\ Model.Type_ o = exportType
       /\ Model.Selection o
          = (if exportType =? "email" then SelectionOptionForEmail (export p)
             else SelectionOptionForSave (export p))
       /\ Model.EmailAddress o
          = (if exportType =? "email" then Some (emailTo (export p))
             else None)
       /\ tooMany (Model.SelectedItems o) (Model.Selection o)
            (searchResultCount (export p))
            (if exportType =? "email" then 1000 else 10000)
          = Some false.
Proof.
  unfold createModelForExport.
  destruct (exportType =? "email");
    (match goal with
     | |- context [tooMany ?i ?s ?c ?b] =>
         destruct (tooMany i s c b) as [[|]|] eqn:Hbig
     end; cbn; [done| |done]);
    intros [= <- <-]; (split; [done|]); eexists; cbn; by split_and!.
Qed.

(** Whenever the email handler sends a request, it goes to the email
    address of the page, which passed the pattern; it carries at most
    1000 items, at least one when the selected results were asked for;
    and when all results were asked for, the result count is not a
    number above 1000.  A count that is no number at all does not stop
    the request ([email_count_not_a_number]). *)
Theorem submitEmail_sent p url model p' :
  submitEmail_click regexForEmail_test p = Some (Sent url model p') ->
  url = "/NSLSL/Search/EmailSearchResults"
  /\ regexForEmail_test (emailTo (export p)) = true
  /\ emailModal_open (export p') = false
  /\ exists o,
       Model.ExportOptions_ model = Some o
       /\ Model.Type_ o = "email"
       /\ Model.Selection o = SelectionOptionForEmail (export p)
       /\ Model.EmailAddress o = Some (emailTo (export p))
       /\ (Z.of_nat (length (Model.SelectedItems o)) <= 1000)%Z
       /\ (Model.Selection o = "selected" -> Model.SelectedItems o <> [])
       /\ (Model.Selection o = "all" ->
           forall n, JS.Number (searchResultCount (export p)) = Some n ->
                     (n <= 1000)%Z).
Proof.
  unfold submitEmail_click.
  destruct (createModelForExport _ _ _) as [[[m|] q]|] eqn:Hc; cbn;
    [|done|done].
  apply createModelForExport_some in Hc
    as (-> & o & Ho & Hty & Hsel & Hmail & Hsize).
  cbn in Hsel, Hmail, Hsize.
  apply tooMany_false in Hsize as [Hlen Hall].
  cbn. destruct (regexForEmail_test _) eqn:Hre; cbn; [|done].
  destruct (nothingSelected m) eqn:Hnone; [done|].
  intros [= <- <- <-]. split_and!; [done|done|done|].
  exists o. split_and!; try done.
  intros Hs Hnil. unfold nothingSelected in Hnone.
  by rewrite Ho, Hs, Hnil in Hnone.
Qed.

(** Whenever the save handler sends a request, it carries at most 10000
    items, at least one when the selected results were asked for; and
    when all results were asked for, the result count is not a number
    above 10000.  A count that is no number at all does not stop the
    request ([save_count_not_a_number]). *)
Theorem submitSave_sent p url model p' :
  submitSave_click p = Some (Sent url model p') ->
  url = "/NSLSL/Search/DownloadSearchResults"
  /\ saveModal_open (export p') = false
  /\ exists o,
       Model.ExportOptions_ model = Some o
       /\ Model.Type_ o = "save"
       /\ Model.Selection o = SelectionOptionForSave (export p)
       /\ Model.EmailAddress o = None
       /\ (Z.of_nat (length (Model.SelectedItems o)) <= 10000)%Z
       /\ (Model.Selection o = "selected" -> Model.SelectedItems o <> [])
       /\ (Model.Selection o = "all" ->
           forall n, JS.Number (searchResultCount (export p)) = Some n ->
                     (n <= 10000)%Z).
Proof.
  unfold submitSave_click.
  destruct (createModelForExport _ _ _) as [[[m|] q]|] eqn:Hc; cbn;
    [|done|done].
  apply createModelForExport_some in Hc
    as (-> & o & Ho & Hty & Hsel & Hmail & Hsize).
  cbn in Hsel, Hmail, Hsize.
  apply tooMany_false in Hsize as [Hlen Hall].
  cbn. destruct (nothingSelected m) eqn:Hnone; [done|].
  intros [= <- <- <-]. split_and!; [done|done|].
  exists o. split_and!; try done.
  intros Hs Hnil. unfold nothingSelected in Hnone.
  by rewrite Ho, Hs, Hnil in Hnone.
Qed.

End ExportSent.

Section ExportSentRuns.
Import Page Samples MoreSamples.

Lemma submitEmail_sent_witness :
  exists url model p',
    submitEmail_click (fun _ => true) exportPage = Some (Sent url model p')
    /\ url = "/NSLSL/Search/EmailSearchResults".
Proof.
  refine (ex_intro _ _ (ex_intro _ _ (ex_intro _ _
            (conj eq_refl
               (proj1 (submitEmail_sent (fun _ => true) exportPage
                         _ _ _ eq_refl)))))).
Defined.

Lemma submitSave_sent_witness :
  exists url model p',
    submitSave_click exportPage = Some (Sent url model p')
    /\ url = "/NSLSL/Search/DownloadSearchResults".
Proof.
  refine (ex_intro _ _ (ex_intro _ _ (ex_intro _ _
            (conj eq_refl
               (proj1 (submitSave_sent exportPage _ _ _ eq_refl)))))).
Defined.

Example notANumber_runs :
  map JS.notANumber
      ["abc"; "1,500"; "12px"; "."; "1e"; "0x"; "-0x1F"; "1.2.3"; "12 34"]
  = [true; true; true; true; true; true; true; true; true]
  /\ map JS.notANumber
         [""; "  "; "40"; " 40 "; "12.5"; "-5"; "+.5e-3"; "5."; "1e3";
          "0x1F"; "0b101"; "0o17"; "Infinity"; "-Infinity"]
     = [false; false; false; false; false; false; false; false; false;
        false; false; false; false; false].
Proof. split; reflexivity. Qed.

(** A count that is not a number compares as not above the bound: the
    email request for all results is sent. *)
Example email_count_not_a_number :
  sentTo (submitEmail_click (fun _ => true) (countedPage "1,500"))
  = Some "/NSLSL/Search/EmailSearchResults"
  /\ sentTo (submitEmail_click (fun _ => true) (countedPage "abc"))
     = Some "/NSLSL/Search/EmailSearchResults"
  /\ sentTo (submitEmail_click (fun _ => true) (countedPage "1000"))
     = Some "/NSLSL/Search/EmailSearchResults"
  /\ (fun r => match r with
                | Some (Returned p') => emailMaxMsg_danger (export p')
                | _ => false
                end)
       (submitEmail_click (fun _ => true) (countedPage "1500"))
     = true.
Proof. repeat split; reflexivity. Qed.

Example save_count_not_a_number :
  sentTo (submitSave_click (countedPage "1,500"))
  = Some "/NSLSL/Search/DownloadSearchResults"
  /\ sentTo (submitSave_click (countedPage "abc"))
     = Some "/NSLSL/Search/DownloadSearchResults"
  /\ sentTo (submitSave_click (countedPage "10000"))
     = Some "/NSLSL/Search/DownloadSearchResults"
  /\ (fun r => match r with
                | Some (Returned p') => saveMaxMsg_danger (export p')
                | _ => false
                end)
       (submitSave_click (countedPage "10001"))
     = true.
Proof. repeat split; reflexivity. Qed.

End ExportSentRuns.

(** ** More on the query builder *)

Section BuilderMore.
Import QueryBuilder Samples MoreSamples.

Lemma nothingEntered_false d :
  nothingEntered d = false
  <-> searchValue d <> "" \/ searchFromValue d <> "" \/ searchToValue d <> "".
Proof.
  unfold nothingEntered, JS.falsy.
  destruct (String.eqb_spec (searchValue d) ""),
           (String.eqb_spec (searchFromValue d) ""),
           (String.eqb_spec (searchToValue d) ""); cbn; split;
    try done; try tauto; intros [?|[?|?]]; done.
Qed.

Lemma addToQueryBox_kept btn d :
  searchFromValue (addToQueryBox btn d) = searchFromValue d
  /\ searchToValue (addToQueryBox btn d) = searchToValue d
  /\ field (addToQueryBox btn d) = field d
  /\ columntype (addToQueryBox btn d) = columntype d.
Proof.
  unfold addToQueryBox, revealOperators.
  destruct (nothingEntered d); [done|]. cbn. by destruct (_ && _).
Qed.

Lemma addToQueryBox_after btn d :
  nothingEntered d = false ->
  searchValue (addToQueryBox btn d) = ""
  /\ searchCriteria (addToQueryBox btn d) = queryBox (addToQueryBox btn d)
  /\ btnSearch_disabled (addToQueryBox btn d) = false
  /\ emptySearchTerm_hidden (addToQueryBox btn d) = true.
Proof.
  intros H. unfold addToQueryBox, revealOperators. rewrite H. cbn.
  by destruct (_ && _).
Qed.

(** After an add that went through with both range boxes empty, the text
    box is empty again, the search criteria mirror the query box and the
    search buttons are enabled; pressing any of the three buttons again
    right away is turned down and leaves the query as it is. *)
Theorem add_then_press_again btn btn' d :
  nothingEntered d = false ->
  searchFromValue d = "" ->
  searchToValue d = "" ->
  searchValue (addToQueryBox btn d) = ""
  /\ searchCriteria (addToQueryBox btn d) = queryBox (addToQueryBox btn d)
  /\ btnSearch_disabled (addToQueryBox btn d) = false
  /\ queryBox (addToQueryBox btn' (addToQueryBox btn d))
     = queryBox (addToQueryBox btn d)
  /\ emptySearchTerm (addToQueryBox btn' (addToQueryBox btn d))
     = "Please enter a value before adding to query."
  /\ emptySearchTerm_hidden (addToQueryBox btn' (addToQueryBox btn d))
     = false.
Proof.
  intros Hok Hf Ht.
  destruct (addToQueryBox_after btn d Hok) as (Hv & Hc & Hs & _).
  destruct (addToQueryBox_kept btn d) as (Hf' & Ht' & _).
  assert (nothingEntered (addToQueryBox btn d) = true) as Hn.
  { unfold nothingEntered, JS.falsy. by rewrite Hv, Hf', Ht', Hf, Ht. }
  split_and!; try done; unfold addToQueryBox at 1; by rewrite Hn.
Qed.

Lemma add_then_press_again_witness :
  nothingEntered (sampleBuilder "" "x") = false
  /\ searchFromValue (sampleBuilder "" "x") = ""
  /\ searchToValue (sampleBuilder "" "x") = ""
  /\ queryBox (addToQueryBox btnOr (addToQueryBox btnAdd
                                      (sampleBuilder "" "x")))
     = queryBox (addToQueryBox btnAdd (sampleBuilder "" "x")).
Proof.
  exact (conj eq_refl (conj eq_refl (conj eq_refl
           (proj1 (proj2 (proj2 (proj2
              (add_then_press_again btnAdd btnOr (sampleBuilder "" "x")
                 eq_refl eq_refl eq_refl)))))))).
Defined.

(** The entry check looks at the range boxes whatever the field type: on
    a string field, an empty text box is let through as soon as a range
    box still holds something, and the clause added is [[field]] with
    nothing in front. *)
Theorem empty_text_let_through btn d :
  (columntype d =? "string") = true ->
  searchValue d = "" ->
  searchFromValue d <> "" \/ searchToValue d <> "" ->
  queryBox (addToQueryBox btn d)
  = enclose (queryBox d) (operator d btn) ("[" +:+ field d +:+ "]")
  /\ emptySearchTerm_hidden (addToQueryBox btn d) = true.
Proof.
  intros Hty Hv Hr.
  assert (nothingEntered d = false) as Hok
      by (apply nothingEntered_false; tauto).
  split; [|by apply addToQueryBox_after].
  rewrite addToQueryBox_accepted by done.
  unfold newSearchTerm. by rewrite Hty, Hv.
Qed.


Lemma empty_text_let_through_witness :
  (columntype leftoverRange =? "string") = true
  /\ searchValue leftoverRange = ""
  /\ (searchFromValue leftoverRange <> ""
      \/ searchToValue leftoverRange <> "")
  /\ queryBox (addToQueryBox btnAdd leftoverRange)
     = "(a[fieldA]) AND ([Title])".
Proof.
  assert (searchFromValue leftoverRange <> ""
          \/ searchToValue leftoverRange <> "") as H by (by left).
  exact (conj eq_refl (conj eq_refl (conj H
           (proj1 (empty_text_let_through btnAdd leftoverRange
                     eq_refl eq_refl H))))).
Defined.


Lemma append_frame a d d' :
  queryBox d = queryBox d' -> operator d = operator d' ->
  queryBox (append a d) = queryBox (append a d')
  /\ operator (append a d) = operator (append a d').
Proof.
  intros Hq Ho. split.
  - unfold append.
    destruct (nothingEntered (fill a d)) eqn:Hn.
    + assert (nothingEntered (fill a d') = true) as Hn' by exact Hn.
      unfold addToQueryBox. by rewrite Hn, Hn'.
    + assert (nothingEntered (fill a d') = false) as Hn' by exact Hn.
      rewrite !addToQueryBox_accepted by done. cbn. by rewrite Hq, Ho.
  - unfold append. by rewrite !addToQueryBox_operator.
Qed.

Lemma append_rejected a d :
  nothingEntered (fill a d) = true ->
  queryBox (append a d) = queryBox d /\ operator (append a d) = operator d.
Proof.
  intros Hn. unfold append, addToQueryBox. by rewrite Hn.
Qed.

Lemma appends_frame l : forall d d',
  queryBox d = queryBox d' -> operator d = operator d' ->
  queryBox (appends l d) = queryBox (appends l d').
Proof.
  induction l as [|a l IH]; intros d d' Hq Ho; [done|].
  cbn [appends foldl].
  destruct (append_frame a d d' Hq Ho) as [Hq' Ho']. by apply IH.
Qed.

(** Adds that are turned down leave no trace in the query: a run of adds
    gives the same query as the run of those that passed the entry
    check. *)
Theorem appends_skip_rejected l d :
  queryBox (appends l d)
  = queryBox
      (appends (filter (fun a => nothingEntered (fill a d) = false) l) d).
Proof.
  revert d. induction l as [|a l IH]; intros d; [done|].
  cbn [appends foldl].
  destruct (nothingEntered (fill a d)) eqn:Hn.
  - rewrite filter_cons_False by (by rewrite Hn).
    destruct (append_rejected a d Hn) as [Hq Ho].
    etrans; [exact (appends_frame l (append a d) d Hq Ho)|]. apply IH.
  - rewrite filter_cons_True by done.
    exact (IH (append a d)).
Qed.

End BuilderMore.

(** ** The operator buttons *)

Section OperatorButtons.
Import QueryBuilder Samples MoreSamples.

Lemma append_keeps_shown a d :
  (btnNot_hidden d = false -> btnNot_hidden (append a d) = false)
  /\ (btnOr_hidden d = false -> btnOr_hidden (append a d) = false)
  /\ (forall b, text d b = "AND" -> text (append a d) b = "AND").
Proof.
  unfold append, addToQueryBox, revealOperators.
  destruct (nothingEntered (fill a d)); [done|]. cbn.
  destruct (_ && _); cbn; split_and!; try done.
  intros b Hb. by case_decide.
Qed.

Lemma appends_keep_shown l : forall d,
  (btnNot_hidden d = false -> btnNot_hidden (appends l d) = false)
  /\ (btnOr_hidden d = false -> btnOr_hidden (appends l d) = false)
  /\ (forall b, text d b = "AND" -> text (appends l d) b = "AND").
Proof.
  induction l as [|a l IH]; intros d; [done|]. cbn [appends foldl].
  destruct (append_keeps_shown a d) as (Hn & Ho & Ht).
  destruct (IH (append a d)) as (Hn' & Ho' & Ht').
  split_and!; auto.
Qed.

(** The first add that goes through with a button whose operator is AND
    and whose caption is not AND yet turns the caption into AND and
    shows the NOT and OR buttons; whatever is added afterwards, the
    caption stays AND and the two buttons stay shown. *)
Theorem reveal_persists btn d l :
  nothingEntered d = false ->
  (operator d btn =? "AND") = true ->
  (text d btn =? "AND") = false ->
  text (addToQueryBox btn d) btn = "AND"
  /\ btnNot_hidden (addToQueryBox btn d) = false
  /\ btnOr_hidden (addToQueryBox btn d) = false
  /\ text (appends l (addToQueryBox btn d)) btn = "AND"
  /\ btnNot_hidden (appends l (addToQueryBox btn d)) = false
  /\ btnOr_hidden (appends l (addToQueryBox btn d)) = false.
Proof.
  intros Hok Hop Htext.
  assert (text (addToQueryBox btn d) btn = "AND"
          /\ btnNot_hidden (addToQueryBox btn d) = false
          /\ btnOr_hidden (addToQueryBox btn d) = false) as (Ht & Hn & Ho).
  { unfold addToQueryBox, revealOperators. rewrite Hok. cbn.
    rewrite Hop, Htext. cbn. by rewrite decide_True. }
  destruct (appends_keep_shown l (addToQueryBox btn d)) as (Hn' & Ho' & Ht').
  split_and!; auto.
Qed.

Lemma reveal_persists_witness :
  nothingEntered (sampleBuilder "" "x") = false
  /\ (operator (sampleBuilder "" "x") btnAdd =? "AND") = true
  /\ (text (sampleBuilder "" "x") btnAdd =? "AND") = false
  /\ text (addToQueryBox btnAdd (sampleBuilder "" "x")) btnAdd = "AND".
Proof.
  exact (conj eq_refl (conj eq_refl (conj eq_refl
           (proj1 (reveal_persists btnAdd (sampleBuilder "" "x") []
                     eq_refl eq_refl eq_refl))))).
Defined.

End OperatorButtons.

(** ** Boxes that show the selection *)

Section SelectionInvariant.
Import Selection Samples MoreSamples.

Local Arguments indexOf : simpl never.




End SelectionInvariant.

Section ToggleInvariant.
Import Selection Samples MoreSamples.

Local Arguments indexOf : simpl never.

Lemma insert_box_cases (boxes : list (jqdata * bool)) k pid c id c' :
  NoDup boxes.*1 ->
  boxes !! k = Some (pid, c) ->
  (id, c') ∈ <[k := (pid, negb c)]> boxes ->
  (id = pid /\ c' = negb c) \/ (id <> pid /\ (id, c') ∈ boxes).
Proof.
  intros Hnd Hk [j Hj]%list_elem_of_lookup_1.
  apply list_lookup_insert_Some in Hj as [(<- & [= <- <-] & _)|[Hne Hj]];
    [by left|].
  right. split; [|by eapply list_elem_of_lookup_2].
  intros ->. apply Hne.
  apply (NoDup_lookup _ k j pid Hnd); rewrite list_lookup_fmap.
  - by rewrite Hk.
  - by rewrite Hj.
Qed.

(** Clicking a box keeps the page in order.  If every box shows whether
    its id is in the array, no two boxes carry the same id and the array
    holds no id twice, then all three still hold after a click on any
    box, and the caption shows the number of ids in the array. *)
Theorem toggle_keeps_showing d k :
  (forall id c, (id, c) ∈ pubSelected d ->
                c = bool_decide (id ∈ selectedPubIds d)) ->
  NoDup (pubSelected d).*1 ->
  NoDup (selectedPubIds d) ->
  (forall id c, (id, c) ∈ pubSelected (toggle k d) ->
                c = bool_decide (id ∈ selectedPubIds (toggle k d)))
  /\ NoDup (pubSelected (toggle k d)).*1
  /\ NoDup (selectedPubIds (toggle k d))
  /\ (k < length (pubSelected d) ->
      selectedOption (toggle k d)
      = selectedCaption (selectedPubIds (toggle k d))).
Proof.
  intros Hshow Hboxes Hids.
  destruct (pubSelected d !! k) as [[pid c]|] eqn:Hk.
  2: { unfold toggle. rewrite Hk. split_and!; try done.
       intros Hlt. apply lookup_lt_is_Some_2 in Hlt as [? Hlt]. congruence. }
  rewrite (toggle_at d k pid c Hk).
  assert (c = bool_decide (pid ∈ selectedPubIds d)) as Hc
      by (by eapply Hshow, list_elem_of_lookup_2).
  assert ((<[k := (pid, negb c)]> (pubSelected d)).*1 = (pubSelected d).*1)
    as Hfst.
  { rewrite list_fmap_insert. apply list_insert_id.
    by rewrite list_lookup_fmap, Hk. }
  destruct c; cbn [negb] in Hfst; cbn.
  - symmetry in Hc. apply bool_decide_eq_true in Hc.
    destruct (indexOf (selectedPubIds d) pid) as [i|] eqn:Hi;
      [|by apply indexOf_None in Hi].
    apply indexOf_Some in Hi.
    pose proof (delete_Permutation _ _ _ Hi) as Hp.
    pose proof Hids as Hids'. rewrite Hp in Hids'.
    apply NoDup_cons in Hids' as [Hgone Hrest].
    split_and!; [|exact (eq_ind_r NoDup Hboxes Hfst)|done|done].
    intros id c' [[-> ->]|[Hne Hin]]%(insert_box_cases _ _ _ _ _ _ Hboxes Hk).
    + by rewrite bool_decide_eq_false_2.
    + rewrite (Hshow _ _ Hin). apply bool_decide_ext.
      rewrite Hp at 1. rewrite elem_of_cons. tauto.
  - symmetry in Hc. apply bool_decide_eq_false in Hc.
    split_and!; [|exact (eq_ind_r NoDup Hboxes Hfst)| |done].
    + intros id c' [[-> ->]|[Hne Hin]]%(insert_box_cases _ _ _ _ _ _ Hboxes Hk).
      * cbn. symmetry. apply bool_decide_eq_true_2.
        apply elem_of_app. right. by apply list_elem_of_singleton.
      * rewrite (Hshow _ _ Hin). apply bool_decide_ext.
        rewrite elem_of_app, list_elem_of_singleton. tauto.
    + apply NoDup_app. split_and!; [done| |apply NoDup_singleton].
      intros x Hx ->%list_elem_of_singleton. done.
Qed.

Lemma toggle_keeps_showing_witness :
  (forall id c, (id, c) ∈ pubSelected twoSelected ->
                c = bool_decide (id ∈ selectedPubIds twoSelected))
  /\ NoDup (pubSelected twoSelected).*1
  /\ NoDup (selectedPubIds twoSelected)
  /\ NoDup (selectedPubIds (toggle 2 twoSelected)).
Proof.
  assert (forall id c, (id, c) ∈ pubSelected twoSelected ->
                       c = bool_decide (id ∈ selectedPubIds twoSelected))
    as H1.
  { intros id c Hin. cbn in Hin.
    repeat (apply elem_of_cons in Hin as [[= -> ->]|Hin]; [done|]).
    by apply elem_of_nil in Hin. }
  assert (NoDup (pubSelected twoSelected).*1) as H2.
  { cbn. by apply (bool_decide_unpack _). }
  assert (NoDup (selectedPubIds twoSelected)) as H3.
  { cbn. by apply (bool_decide_unpack _). }
  exact (conj H1 (conj H2 (conj H3
           (proj1 (proj2 (proj2
              (toggle_keeps_showing twoSelected 2 H1 H2 H3))))))).
Defined.

End ToggleInvariant.

(** ** Empty default-filter criteria *)

Section CriteriaEmpty.
Import DefaultFilter Samples MoreSamples.

Lemma string_app_eq_nil (s1 s2 : string) :
  s1 +:+ s2 = "" <-> s1 = "" /\ s2 = "".
Proof.
  destruct s1; push_app; [|by split; [|intros []]].
  split; [by intros ->|by intros [_ ->]].
Qed.

Lemma fragment_nonempty Y f s : fragment Y f = Some s -> s <> "".
Proof.
  unfold fragment. destruct (filterfield f =? "year").
  - destruct (data_number (filtervalue f)); [|done]. cbn.
    intros [= <-]. by push_app.
  - destruct (filterfield f =? "notempty"); intros [= <-]; by push_app.
Qed.

Lemma eachDefaultFilter_tail Y boxes : forall acc r,
  eachDefaultFilter Y boxes acc = Some r ->
  exists tail,
    r = acc +:+ tail
    /\ (tail = "" <-> Forall (fun f => checked f = false) boxes).
Proof.
  induction boxes as [|f boxes IH]; intros acc r; cbn.
  - intros [= <-]. exists "". by rewrite string_app_nil_r.
  - destruct (checked f) eqn:Hf.
    + destruct (fragment Y f) as [s|] eqn:Hs; [|done]. cbn.
      intros (tail & -> & _)%IH. exists (s +:+ tail).
      split; [by rewrite string_app_assoc|].
      split.
      * intros [Hnil _]%string_app_eq_nil.
        by apply fragment_nonempty in Hs.
      * intros [Hfalse _]%Forall_cons. congruence.
    + intros (tail & -> & Htail)%IH. exists tail. split; [done|].
      rewrite Htail, Forall_cons. tauto.
Qed.

Lemma customRangeCriteria_empty d :
  customRangeCriteria d = ""
  <-> (fromPubYear d = "" /\ toPubYear d = "") \/ customRange d = false.
Proof.
  split; [|apply customRangeCriteria_off].
  intros Hnil.
  destruct (customRange d) eqn:Hon; [|by right]. left.
  destruct (String.eqb_spec (fromPubYear d) "") as [Hf|Hf],
           (String.eqb_spec (toPubYear d) "") as [Ht|Ht]; [done| | |];
    exfalso;
    (rewrite customRangeCriteria_on in Hnil by tauto);
    by apply string_app_eq_nil in Hnil as [? _].
Qed.

(** The criteria are built from scratch at each call, whatever
    #DefaultFilterCriteria held before, and they come out empty exactly
    when no default filter is ticked and the custom range adds nothing
    (it is not ticked, or both year boxes are empty). *)
Theorem criteria_empty Y d d' :
  buildDefaultFilterCriteria Y d = Some d' ->
  (DefaultFilterCriteria d' = ""
   <-> Forall (fun f => checked f = false) (defaultFilters d)
       /\ ((fromPubYear d = "" /\ toPubYear d = "")
           \/ customRange d = false))
  /\ (forall v,
         buildDefaultFilterCriteria Y (set_DefaultFilterCriteria v d)
         = Some d')
  /\ buildDefaultFilterCriteria Y d' = Some d'.
Proof.
  unfold buildDefaultFilterCriteria at 1.
  destruct (eachDefaultFilter Y (defaultFilters d) "") as [r|] eqn:Hr;
    [|done].
  cbn. intros [= <-].
  destruct (eachDefaultFilter_tail Y _ _ _ Hr) as (tail & -> & Htail).
  split_and!.
  - cbn. rewrite string_app_eq_nil, Htail, customRangeCriteria_empty.
    done.
  - intros v. unfold buildDefaultFilterCriteria. cbn. by rewrite Hr.
  - unfold buildDefaultFilterCriteria. cbn. by rewrite Hr.
Qed.

Lemma criteria_empty_witness :
  buildDefaultFilterCriteria 2024
    (Dom [FilterBox false "Topic" "string" (DStr "Safety")] "1990" "" false
         "old")
  = Some (Dom [FilterBox false "Topic" "string" (DStr "Safety")] "1990" ""
              false "")
  /\ buildDefaultFilterCriteria 2024
       (Dom [FilterBox false "Topic" "string" (DStr "Safety")] "1990" ""
            false "")
     = Some (Dom [FilterBox false "Topic" "string" (DStr "Safety")] "1990"
                 "" false "").
Proof.
  exact (conj eq_refl
           (proj2 (proj2
              (criteria_empty 2024
                 (Dom [FilterBox false "Topic" "string" (DStr "Safety")]
                      "1990" "" false "old")
                 _ eq_refl)))).
Defined.

End CriteriaEmpty.

(** ** Clearing, typing and searching *)

Section SearchingFacts.
Import QueryBuilder Searching Samples MoreSamples.

(** After Clear the next add that goes through starts a new query: the
    query box and the search criteria hold its clause alone, and when
    the ADD button carries the operator AND its caption turns into AND
    and the NOT and OR buttons are shown again.  Clear leaves the range
    boxes as they are. *)
Theorem clear_then_add d e a :
  nothingEntered (fill a d) = false ->
  queryBox (append a (btnClear_click d e).1) = newSearchTerm (fill a d)
  /\ searchCriteria (append a (btnClear_click d e).1)
     = newSearchTerm (fill a d)
  /\ searchFromValue (btnClear_click d e).1 = searchFromValue d
  /\ searchToValue (btnClear_click d e).1 = searchToValue d
  /\ (entry_button a = btnAdd -> (operator d btnAdd =? "AND") = true ->
      text (append a (btnClear_click d e).1) btnAdd = "AND"
      /\ btnNot_hidden (append a (btnClear_click d e).1) = false
      /\ btnOr_hidden (append a (btnClear_click d e).1) = false).
Proof.
  intros Hok.
  assert (nothingEntered (fill a (btnClear_click d e).1) = false) as Hok'
      by exact Hok.
  assert (queryBox (append a (btnClear_click d e).1)
          = newSearchTerm (fill a d)) as Hq.
  { unfold append. by rewrite addToQueryBox_accepted. }
  split_and!; [done| |done|done|].
  - unfold append.
    destruct (addToQueryBox_after (entry_button a)
                (fill a (btnClear_click d e).1) Hok') as (_ & -> & _).
    exact Hq.
  - intros Hb Hop. unfold append. rewrite Hb.
    unfold addToQueryBox, revealOperators.
    rewrite Hok'. cbn. rewrite Hop. cbn. by rewrite decide_True.
Qed.

Lemma clear_then_add_witness :
  nothingEntered (fill entryX (sampleBuilder "x[fieldA]" "")) = false
  /\ queryBox (append entryX
                 (btnClear_click (sampleBuilder "x[fieldA]" "") false).1)
     = "x[fieldA]".
Proof.
  exact (conj eq_refl
           (proj1 (clear_then_add (sampleBuilder "x[fieldA]" "") false
                     entryX eq_refl))).
Defined.

(** With #queryBox on the page, the search click is turned down exactly
    when both #searchCriteria and #queryBox are empty.  Otherwise it
    leaves for the index page or posts the search, and the criteria it
    carries are the text of the box on show, be it empty, while the
    other box holds the text that let the click through. *)
Theorem search_sends_box_on_show c p :
  queryBox_present c = true ->
  let advanced := Page.advancedSearchDisplay_visible (Page.settings p) in
  let onShow := if advanced then queryBox (Page.builder p)
                else searchCriteria (Page.builder p) in
  (searchCriteria (Page.builder p) = "" /\ queryBox (Page.builder p) = "" ->
   exists c', btnSearch_click c p = Some (Refused c')
              /\ errorMessages c'
                 = "Please enter a query before attempting to search."
              /\ errorMessages_hidden c' = false)
  /\ (~ (searchCriteria (Page.builder p) = ""
         /\ queryBox (Page.builder p) = "") ->
      (foundPastStart "Details" (href c) = true ->
       btnSearch_click c p
       = Some (Redirected
                 ("/NSLSL/Search/Index?searchType="
                  +:+ (if advanced then "advanced" else "simple")
                  +:+ "&searchCriteria=" +:+ onShow)))
      /\ (foundPastStart "Details" (href c) = false ->
          exists model c',
            btnSearch_click c p
            = Some (Posted "/NSLSL/Search/SearchAjax" model c'
                           (Selection.selectedPubIds (Page.results p)))
            /\ Model.SearchCriteria model = onShow
            /\ Model.CurrentPage model = DNum 1)).
Proof.
  intros Hpresent advanced onShow. unfold btnSearch_click.
  rewrite Hpresent. cbn [andb negb]. rewrite andb_false_r. split.
  - intros [-> ->]. cbn. by eexists.
  - intros Hsome.
    assert ((searchCriteria (Page.builder p) =? "")
            && (queryBox (Page.builder p) =? "") = false) as ->.
    { destruct (String.eqb_spec (searchCriteria (Page.builder p)) ""),
               (String.eqb_spec (queryBox (Page.builder p)) ""); try done.
      tauto. }
    split; intros ->; [done|]. by eexists _, _.
Qed.

Lemma search_sends_box_on_show_witness :
  queryBox_present (mainChrome true) = true
  /\ ~ (searchCriteria (Page.builder emptyVisibleBox) = ""
        /\ queryBox (Page.builder emptyVisibleBox) = "")
  /\ foundPastStart "Details" (href (mainChrome true)) = false
  /\ exists model c',
       btnSearch_click (mainChrome true) emptyVisibleBox
       = Some (Posted "/NSLSL/Search/SearchAjax" model c'
                      (Selection.selectedPubIds
                         (Page.results emptyVisibleBox)))
       /\ Model.SearchCriteria model = ""
       /\ Model.CurrentPage model = DNum 1.
Proof.
  assert (~ (searchCriteria (Page.builder emptyVisibleBox) = ""
             /\ queryBox (Page.builder emptyVisibleBox) = "")) as H
      by (by intros [? _]).
  exact (conj eq_refl (conj H (conj eq_refl
           (proj2 (proj2 (search_sends_box_on_show (mainChrome true)
                            emptyVisibleBox eq_refl) H) eq_refl)))).
Defined.

(** Without #queryBox on the page (the advanced form never loaded, the
    simple form on show) the search click is never turned down: even
    with nothing typed it leaves for the index page or posts the
    search, with the text of #searchCriteria as criteria. *)
Theorem search_without_queryBox c p :
  queryBox_present c = false ->
  Page.advancedSearchDisplay_visible (Page.settings p) = false ->
  (foundPastStart "Details" (href c) = true ->
   btnSearch_click c p
   = Some (Redirected
             ("/NSLSL/Search/Index?searchType=simple&searchCriteria="
              +:+ searchCriteria (Page.builder p))))
  /\ (foundPastStart "Details" (href c) = false ->
      exists model c',
        btnSearch_click c p
        = Some (Posted "/NSLSL/Search/SearchAjax" model c'
                       (Selection.selectedPubIds (Page.results p)))
        /\ Model.SearchCriteria model = searchCriteria (Page.builder p)).
Proof.
  intros Habsent Hsimple. unfold btnSearch_click.
  rewrite Habsent, Hsimple. cbn [andb negb]. rewrite andb_false_r.
  unfold Page.createModel. rewrite Hsimple. cbn.
  split; intros ->; [done|]. by eexists _, _.
Qed.

Lemma search_without_queryBox_witness :
  queryBox_present (mainChrome false) = false
  /\ Page.advancedSearchDisplay_visible (Page.settings nothingTyped) = false
  /\ foundPastStart "Details" (href (mainChrome false)) = false
  /\ exists model c',
       btnSearch_click (mainChrome false) nothingTyped
       = Some (Posted "/NSLSL/Search/SearchAjax" model c'
                      (Selection.selectedPubIds (Page.results nothingTyped)))
       /\ Model.SearchCriteria model
          = searchCriteria (Page.builder nothingTyped).
Proof.
  exact (conj eq_refl (conj eq_refl (conj eq_refl
           (proj2 (search_without_queryBox (mainChrome false) nothingTyped
                     eq_refl eq_refl) eq_refl)))).
Defined.

End SearchingFacts.

Section TypingAndSwitching.
Import QueryBuilder Searching Samples MoreSamples.

(** One stroke of the Enter key in the query box runs the keydown and
    then the keyup handler: with a query typed, #btnAdvancedSearch is
    clicked twice, once by each; with an empty box it is not clicked.
    Whatever the key and the box, the keyup leaves the search buttons
    disabled exactly when the box typed in is empty, whatever the other
    box holds, and changes neither box. *)
Theorem enter_in_queryBox this keyCode d :
  (queryBox_keydown 13 d ++ (searchBox_keyup queryBoxBox 13 d).1)%list
  = (if queryBox d =? "" then []
     else ["btnAdvancedSearch"; "btnAdvancedSearch"])
  /\ btnSearch_disabled (searchBox_keyup this keyCode d).2
     = (match this with
        | queryBoxBox => queryBox d
        | searchCriteriaBox => searchCriteria d
        end =? "")
  /\ queryBox (searchBox_keyup this keyCode d).2 = queryBox d
  /\ searchCriteria (searchBox_keyup this keyCode d).2 = searchCriteria d
  /\ ((keyCode =? 13)%Z = false -> (searchBox_keyup this keyCode d).1 = []).
Proof.
  split_and!; try done.
  - unfold queryBox_keydown, searchBox_keyup. cbn.
    by destruct (queryBox d =? "").
  - intros Hk. unfold searchBox_keyup. by rewrite Hk.
Qed.

(** With the advanced form loaded, a click on the switch link sends
    nothing, hides the result sections, swaps the two forms and copies
    the text of the form that was on show into the other box, so both
    boxes then hold that text and the search buttons are disabled exactly
    when it is empty; a second click brings the first form back with
    both boxes still holding that text. *)
Theorem switch_twice w :
  advancedSearchContainer w = true ->
  let w1 := (searchAdvance_click w).1 in
  let w2 := (searchAdvance_click w1).1 in
  let onShow := if advancedSearchDisplay w then queryBox (builder w)
                else searchCriteria (builder w) in
  (searchAdvance_click w).2 = false
  /\ (searchAdvance_click w1).2 = false
  /\ queryBox (builder w1) = onShow
  /\ searchCriteria (builder w1) = onShow
  /\ btnSearch_disabled (builder w1) = (onShow =? "")
  /\ advancedSearchDisplay w1 = negb (advancedSearchDisplay w)
  /\ simpleSearchDisplay w1 = advancedSearchDisplay w
  /\ shown w1 = Sections false false false false false false false
  /\ queryBox (builder w2) = onShow
  /\ searchCriteria (builder w2) = onShow
  /\ advancedSearchDisplay w2 = advancedSearchDisplay w
  /\ simpleSearchDisplay w2 = negb (advancedSearchDisplay w).
Proof.
  intros Hloaded. unfold searchAdvance_click.
  destruct (advancedSearchDisplay w) eqn:Hadv; cbn; rewrite Hloaded; cbn;
    by split_and!.
Qed.

Lemma switch_twice_witness :
  advancedSearchContainer advancedShown = true
  /\ searchCriteria
       (builder (searchAdvance_click
                   (searchAdvance_click advancedShown).1).1)
     = "x[fieldA]".
Proof.
  exact (conj eq_refl
           (proj1 (proj2 (proj2 (proj2 (proj2 (proj2 (proj2 (proj2 (proj2
              (proj2 (switch_twice advancedShown eq_refl)))))))))))).
Defined.

(** If exactly one of the text box and the range boxes is on show, the
    change of field keeps it so: an int field brings the range boxes, a
    string field the text box, and a field of any other type leaves what
    was on show. *)
Theorem options_one_on_show fieldType fromToValues_hidden searchValue_hidden :
  xorb fromToValues_hidden searchValue_hidden = true ->
  let after :=
    searchOptions_change fieldType fromToValues_hidden searchValue_hidden in
  xorb after.1 after.2 = true
  /\ (fieldType = "int" -> after = (false, true))
  /\ (fieldType = "string" -> after = (true, false))
  /\ (fieldType <> "int" -> fieldType <> "string" ->
      after = (fromToValues_hidden, searchValue_hidden)).
Proof.
  intros Hone. unfold searchOptions_change.
  destruct (String.eqb_spec fieldType "int") as [->|Hint]; cbn.
  { destruct fromToValues_hidden, searchValue_hidden; by split_and!. }
  destruct (String.eqb_spec fieldType "string") as [->|Hstr]; cbn.
  { destruct fromToValues_hidden, searchValue_hidden; by split_and!. }
  by split_and!.
Qed.

Lemma options_one_on_show_witness :
  xorb true false = true
  /\ searchOptions_change "int" true false = (false, true).
Proof.
  exact (conj eq_refl
           (proj1 (proj2 (options_one_on_show "int" true false eq_refl))
              eq_refl)).
Defined.

End TypingAndSwitching.

(** ** The sort icons *)

Section SortingFacts.
Import Sorting Samples MoreSamples.

(** After a click on a sort button each of the two icons carries exactly
    one of the two classes, and the title tells the state of the inline
    icon.  Icons that agreed before agree after, and the title then
    tells the state of both; icons that differed still differ.  A second
    click gives an icon back the classes it had, provided it carried
    exactly one of them.  #changeOptions is clicked only by the inline
    button. *)
Theorem sort_icons_in_step inline d :
  let d1 := (btn_sortdirection_click inline d).1 in
  let d2 := (btn_sortdirection_click inline d1).1 in
  xorb (fa_sort_amount_down_alt (OptionSortAscending d1))
       (fa_sort_amount_down (OptionSortAscending d1)) = true
  /\ xorb (fa_sort_amount_down_alt (OptionSortAscendingInline d1))
          (fa_sort_amount_down (OptionSortAscendingInline d1)) = true
  /\ title d1
     = (if fa_sort_amount_down_alt (OptionSortAscendingInline d1)
        then "Sorted Ascending" else "Sorted Descending")
  /\ (fa_sort_amount_down_alt (OptionSortAscending d)
      = fa_sort_amount_down_alt (OptionSortAscendingInline d) ->
      OptionSortAscending d1 = OptionSortAscendingInline d1)
  /\ (fa_sort_amount_down_alt (OptionSortAscending d)
      <> fa_sort_amount_down_alt (OptionSortAscendingInline d) ->
      OptionSortAscending d1 <> OptionSortAscendingInline d1)
  /\ (xorb (fa_sort_amount_down_alt (OptionSortAscending d))
           (fa_sort_amount_down (OptionSortAscending d)) = true ->
      OptionSortAscending d2 = OptionSortAscending d)
  /\ (xorb (fa_sort_amount_down_alt (OptionSortAscendingInline d))
           (fa_sort_amount_down (OptionSortAscendingInline d)) = true ->
      OptionSortAscendingInline d2 = OptionSortAscendingInline d)
  /\ (btn_sortdirection_click inline d).2 = inline.
Proof.
  destruct d as [[a1 b1] [a2 b2] t].
  unfold btn_sortdirection_click, changeSortIcon. cbn.
  destruct a1, a2, b1, b2; cbn; by split_and!.
Qed.

End SortingFacts.

(** ** Asking for a page *)

Section PagingFacts.
Import Paging Samples MoreSamples.

Example parseInt_runs :
  parseInt "12" = Some (Num 12) /\ parseInt "12abc" = Some (Num 12)
  /\ parseInt "007" = Some (Num 7) /\ parseInt "" = Some NaN
  /\ parseInt "abc" = Some NaN /\ parseInt " 12" = None
  /\ parseInt "-3" = None /\ parseInt "0x1F" = None.
Proof. by split_and!. Qed.

(** Enter in a page-number box holding a number, on a result list whose
    page count is a number: the page is asked for when it lies between 1
    and the page count, and otherwise the box is put back to the current
    page and nothing is sent.  Any other key, and a click on the box,
    does nothing. *)
Theorem page_in_range d k text n pages keyCode :
  pageNumber d !! k = Some text ->
  parseInt text = Some (Num n) ->
  parseInt (NumPages d) = Some (Num pages) ->
  page_event (pageNumberBox k) (Some 13%Z) d
  = Some (if (1 <=? n)%Z && (n <=? pages)%Z
          then Fetch (Parsed (Num n)) d
          else PutBack (Dom (<[k := CurrentPage d]> (pageNumber d))
                            (NumPages d) (CurrentPage d)))
  /\ (keyCode <> Some 13%Z ->
      page_event (pageNumberBox k) keyCode d = Some Ignored).
Proof.
  intros Hk Hn Hp. split.
  - unfold page_event. cbn. rewrite Hk. cbn. rewrite Hn. cbn.
    rewrite Hp. cbn. unfold lt, gt.
    destruct (Z.ltb_spec pages n), (Z.ltb_spec n 1),
             (Z.leb_spec 1 n), (Z.leb_spec n pages); cbn; try done; lia.
  - intros Hkey. unfold page_event.
    by rewrite bool_decide_eq_false_2.
Qed.

Lemma page_in_range_witness :
  pageNumber (pagesOfTwelve "13") !! 0 = Some "13"
  /\ parseInt "13" = Some (Num 13)
  /\ parseInt (NumPages (pagesOfTwelve "13")) = Some (Num 12)
  /\ page_event (pageNumberBox 0) (Some 13%Z) (pagesOfTwelve "13")
     = Some (PutBack (pagesOfTwelve "3")).
Proof.
  exact (conj eq_refl (conj eq_refl (conj eq_refl
           (proj1 (page_in_range (pagesOfTwelve "13") 0 "13" 13 12 None
                     eq_refl eq_refl eq_refl))))).
Defined.

(** The range check does not stop what is not a number: Enter in a
    page-number box that is empty, or holds a text [parseInt] reads as
    NaN, asks for page NaN whatever the page count; and when the page
    count is not a number, any page from 1 up is asked for. *)
Theorem page_not_a_number d k text pages n :
  pageNumber d !! k = Some text ->
  (parseInt text = Some NaN ->
   parseInt (NumPages d) = Some pages ->
   page_event (pageNumberBox k) (Some 13%Z) d
   = Some (Fetch (Parsed NaN) d))
  /\ (parseInt text = Some (Num n) -> (1 <= n)%Z ->
      parseInt (NumPages d) = Some NaN ->
      page_event (pageNumberBox k) (Some 13%Z) d
      = Some (Fetch (Parsed (Num n)) d)).
Proof.
  intros Hk. split.
  - intros Hn Hp. unfold page_event. cbn. rewrite Hk. cbn. rewrite Hn. cbn.
    rewrite Hp. cbn. by destruct pages.
  - intros Hn Hpos Hp. unfold page_event. cbn. rewrite Hk. cbn.
    rewrite Hn. cbn. rewrite Hp. cbn.
    by destruct (Z.ltb_spec n 1); [lia|].
Qed.

Lemma page_not_a_number_witness :
  pageNumber (pagesOfTwelve "") !! 0 = Some ""
  /\ parseInt "" = Some NaN
  /\ parseInt (NumPages (pagesOfTwelve "")) = Some (Num 12)
  /\ page_event (pageNumberBox 0) (Some 13%Z) (pagesOfTwelve "")
     = Some (Fetch (Parsed NaN) (pagesOfTwelve "")).
Proof.
  exact (conj eq_refl (conj eq_refl (conj eq_refl
           (proj1 (page_not_a_number (pagesOfTwelve "") 0 "" (Num 12) 0
                     eq_refl) eq_refl eq_refl)))).
Defined.

End PagingFacts.

(** ** After the server has answered *)

Section CallbackFacts.
Import Selection Callbacks Samples MoreSamples.

Local Arguments indexOf : simpl never.

Lemma pushes_all (data acc : list jqdata) :
  foldl (fun a id => a ++ [id])%list acc data = (acc ++ data)%list.
Proof.
  revert acc. induction data as [|x data IH]; intros acc; cbn.
  - by rewrite app_nil_r.
  - rewrite IH. by rewrite <- app_assoc.
Qed.



(** When the change-options request fails, the complete callback still
    empties the array while the result list stays as it is: the caption
    reads 0 and the ticked boxes stay ticked, so a ticked box no longer
    shows that its id is selected, and unticking and ticking it again
    leaves exactly its id in the array. *)
Theorem options_failure_forgets d :
  pubSelected (changeOptions_done None d) = pubSelected d
  /\ selectedPubIds (changeOptions_done None d) = []
  /\ selectedOption (changeOptions_done None d) = "Selected Results (0)"
  /\ forall k id,
       pubSelected d !! k = Some (id, true) ->
       selectedPubIds (toggle k (changeOptions_done None d)) = []
       /\ selectedPubIds (toggle k (toggle k (changeOptions_done None d)))
          = [id].
Proof.
  split_and!; try done. intros k id Hk.
  assert (pubSelected (changeOptions_done None d) !! k = Some (id, true))
    as Hk' by exact Hk.
  pose proof (toggle_box _ _ _ _ Hk') as Hk1.
  rewrite (toggle_at _ _ _ _ Hk1), (toggle_at _ _ _ _ Hk'). cbn.
  assert (indexOf [] id = None) as -> by done. done.
Qed.

End CallbackFacts.

(** ** The shared array *)

Section StoreFacts.
Import Samples MoreSamples.

Lemma pushes_in_place (a : nat) (data : list jqdata) :
  forall (m : gmap nat (list jqdata)) l,
    m !! a = Some l ->
    foldl (fun m id => <[a := (default [] (m !! a) ++ [id])%list]> m) m data
      !! a = Some (l ++ data)%list
    /\ forall b, b <> a ->
         foldl (fun m id => <[a := (default [] (m !! a) ++ [id])%list]> m)
               m data !! b = m !! b.
Proof.
  induction data as [|x data IH]; intros m l Hl; cbn.
  - by rewrite app_nil_r.
  - rewrite Hl. cbn.
    destruct (IH (<[a := (l ++ [x])%list]> m) (l ++ [x])%list) as [Ha Hb].
    { apply lookup_insert_eq. }
    split.
    + rewrite Ha. by rewrite <- app_assoc.
    + intros b Hne. rewrite (Hb b Hne). by apply lookup_insert_ne.
Qed.

Lemma view_change pubid c s :
  Store.view (Store.pubSelected_change pubid c s)
  = Selection.pubSelected_change pubid c (Store.view s).
Proof.
  unfold Store.view, Store.pubSelected_change, Selection.pubSelected_change,
    Store.contents. cbn. by rewrite lookup_insert_eq.
Qed.

Lemma view_selectAll selectAll data s :
  Store.view (Store.selectAll_success selectAll data s)
  = Callbacks.selectAll_success selectAll data (Store.view s).
Proof.
  unfold Store.view, Store.selectAll_success, Callbacks.selectAll_success,
    Store.contents, Store.assignEmpty. cbn.
  set (a := fresh (dom (Store.arrays s))).
  destruct selectAll.
  - destruct (pushes_in_place a data (<[a := []]> (Store.arrays s)) [])
      as [-> _]; [apply lookup_insert_eq|].
    cbn. by rewrite pushes_all.
  - by rewrite lookup_insert_eq.
Qed.

(** The handlers on values compute what the handlers on the shared array
    leave behind: after a box change, after [setSelectedPubCheckboxes],
    after an answer to select-all and after the end of a change-options
    request, the boxes, the caption and the elements of the array the
    variable refers to are those the handlers on values give. *)
Theorem store_agrees pubid c selectAll data response s :
  Store.view (Store.pubSelected_change pubid c s)
  = Selection.pubSelected_change pubid c (Store.view s)
  /\ Store.view (Store.setSelectedPubCheckboxes s)
     = Selection.setSelectedPubCheckboxes (Store.view s)
  /\ Store.view (Store.selectAll_success selectAll data s)
     = Callbacks.selectAll_success selectAll data (Store.view s)
  /\ Store.view (Store.changeOptions_done response s)
     = Callbacks.changeOptions_done response (Store.view s).
Proof.
  split_and!.
  - apply view_change.
  - done.
  - apply view_selectAll.
  - unfold Store.view, Store.changeOptions_done, Store.assignEmpty,
      Callbacks.changeOptions_done, Store.contents. cbn.
    by rewrite lookup_insert_eq.
Qed.

Lemma changes_keep_place evs : forall s,
  Store.selectedPubIds
    (foldl (fun s ev => Store.pubSelected_change ev.1 ev.2 s) s evs)
  = Store.selectedPubIds s
  /\ Store.view
       (foldl (fun s ev => Store.pubSelected_change ev.1 ev.2 s) s evs)
     = foldl (fun d ev => Selection.pubSelected_change ev.1 ev.2 d)
             (Store.view s) evs.
Proof.
  induction evs as [|ev evs IH]; intros s; [done|]. cbn [foldl].
  destruct (IH (Store.pubSelected_change ev.1 ev.2 s)) as [-> ->].
  split; [done|]. by rewrite view_change.
Qed.

Lemma fresh_place_differs (s : Store.state) a :
  is_Some (Store.arrays s !! a) -> fresh (dom (Store.arrays s)) <> a.
Proof.
  intros Hin Heq. apply elem_of_dom in Hin. rewrite <- Heq in Hin.
  by apply is_fresh in Hin.
Qed.

Lemma search_success_reset_ids tmp loaded s :
  Selection.selectedPubIds
    (Store.view (Store.search_success true tmp loaded s))
  = default [] (Store.arrays s !! tmp).
Proof. done. Qed.

(** The search click keeps the array of the time of the click, and the
    success callback of a search that resets the filters makes the
    variable refer to it again.  So box changes made while the request
    was under way are kept, since they were made in that very array;
    whereas a select-all or a change of options that ended meanwhile is
    undone: the ids of the time of the click come back, under the
    caption left by the select-all.  The new result list is ticked from
    the array that came back.  A search that does not reset the filters
    ends with an empty array and the caption at 0. *)
Theorem kept_array_comes_back s loaded :
  is_Some (Store.arrays s !! Store.selectedPubIds s) ->
  let tmp := Store.selectedPubIds s in
  (forall evs,
      Selection.selectedPubIds
        (Store.view
           (Store.search_success true tmp loaded
              (foldl (fun s ev => Store.pubSelected_change ev.1 ev.2 s)
                     s evs)))
      = Selection.selectedPubIds
          (foldl (fun d ev => Selection.pubSelected_change ev.1 ev.2 d)
                 (Store.view s) evs))
  /\ (forall selectAll data,
         Selection.selectedPubIds
           (Store.view
              (Store.search_success true tmp loaded
                 (Store.selectAll_success selectAll data s)))
         = Selection.selectedPubIds (Store.view s)
         /\ Selection.selectedOption
              (Store.view
                 (Store.search_success true tmp loaded
                    (Store.selectAll_success selectAll data s)))
            = Selection.selectedCaption (if selectAll then data else []))
  /\ (forall response,
         Selection.selectedPubIds
           (Store.view
              (Store.search_success true tmp loaded
                 (Store.changeOptions_done response s)))
         = Selection.selectedPubIds (Store.view s))
  /\ (forall s',
         Store.view (Store.search_success true tmp loaded s')
         = Selection.setSelectedPubCheckboxes
             (Selection.Dom loaded (Store.contents tmp s')
                            (Store.selectedOption s')))
  /\ (forall s',
         Store.view (Store.search_success false tmp loaded s')
         = Selection.Dom loaded [] "Selected Results (0)").
Proof.
  intros Hin tmp. pose proof (fresh_place_differs s tmp Hin) as Hne.
  split_and!.
  - intros evs.
    destruct (changes_keep_place evs s) as [Hplace Hview].
    rewrite <- Hview. unfold Store.search_success, Store.view. cbn.
    unfold Store.contents. cbn. by rewrite Hplace.
  - intros selectAll data.
    assert (Store.arrays (Store.selectAll_success selectAll data s) !! tmp
            = Store.arrays s !! tmp) as Hkept.
    { unfold Store.selectAll_success, Store.assignEmpty. cbn.
      destruct selectAll.
      - destruct (pushes_in_place (fresh (dom (Store.arrays s))) data
                    (<[fresh (dom (Store.arrays s)) := []]> (Store.arrays s))
                    []) as [_ Hb]; [apply lookup_insert_eq|].
        rewrite (Hb tmp) by (intros Heq; by apply Hne).
        by apply lookup_insert_ne.
      - by apply lookup_insert_ne. }
    split.
    + by rewrite search_success_reset_ids, Hkept.
    + pose proof (view_selectAll selectAll data s) as Hv.
      apply (f_equal Selection.selectedOption) in Hv. cbn in Hv.
      unfold Store.search_success, Store.view. cbn. rewrite Hv.
      destruct selectAll; [|done]. by rewrite pushes_all.
  - intros response.
    unfold Store.search_success, Store.changeOptions_done,
      Store.assignEmpty, Store.view, Store.contents. cbn.
    by rewrite lookup_insert_ne.
  - done.
  - intros s'. unfold Store.search_success, Store.assignEmpty, Store.view,
      Store.contents. cbn. by rewrite lookup_insert_eq.
Qed.

Lemma kept_array_comes_back_witness :
  is_Some (Store.arrays sampleStore !! Store.selectedPubIds sampleStore)
  /\ Selection.selectedPubIds
       (Store.view
          (Store.search_success true 0 [(DNum 9, false)]
             (Store.selectAll_success true [DNum 1; DNum 2] sampleStore)))
     = Selection.selectedPubIds (Store.view sampleStore).
Proof.
  assert (is_Some (Store.arrays sampleStore
                     !! Store.selectedPubIds sampleStore)) as H
      by (by eexists).
  exact (conj H
           (proj1 (proj1 (proj2
              (kept_array_comes_back sampleStore [(DNum 9, false)] H))
              true [DNum 1; DNum 2]))).
Defined.

End StoreFacts.

(** ** The additional filters *)

Section AdditionalFiltersFacts.
Import AdditionalFilters Samples MoreSamples.

Lemma byId_Some id key : byId id = Some key -> key = id.
Proof. unfold byId. by destruct (_ && _); intros [= <-]. Qed.

Lemma setHidden_ne h key k (pg : gmap string element) :
  k <> key -> setHidden h key pg !! k = pg !! k.
Proof. intros Hne. unfold setHidden. by apply lookup_alter_ne. Qed.

Lemma setHidden_eq h key (pg : gmap string element) :
  hidden <$> setHidden h key pg !! key = (fun _ => h) <$> pg !! key.
Proof.
  unfold setHidden. rewrite lookup_alter_eq. by destruct (pg !! key).
Qed.

Lemma showGroup_spec st pg :
  showGroup st = Some pg ->
  pg = setHidden (negb (showaddFilterGroup st))
         (data_text (lastaddFilterGroup st) +:+ "div") (page st).
Proof.
  unfold showGroup.
  destruct (byId _) as [key|] eqn:Hkey; [|done]. cbn.
  apply byId_Some in Hkey as ->. by intros [= <-].
Qed.

(** What one run of the loop body does. *)
Lemma body_spec st f st' :
  body st f = Some st' ->
  exists (isNew : bool) pg1,
    (if looseEmpty (lastaddFilterGroup st) then isNew = true
     else negb <$> looseEq (lastaddFilterGroup st) (addfiltertype f)
          = Some isNew)
    /\ (if isNew && negb (looseEmpty (lastaddFilterGroup st))
        then showGroup st = Some pg1 else pg1 = page st)
    /\ lastaddFilterGroup st'
       = (if isNew then addfiltertype f else lastaddFilterGroup st)
    /\ showaddFilterGroup st'
       = (checked f || (if isNew then false else showaddFilterGroup st))
    /\ (forall k, k <> data_text (addfilterid f) ->
                  page st' !! k = pg1 !! k)
    /\ hidden <$> page st' !! data_text (addfilterid f)
       = (fun _ => negb (checked f)) <$> pg1 !! data_text (addfilterid f).
Proof.
  unfold body.
  destruct (if looseEmpty (lastaddFilterGroup st) then Some true
            else negb <$> looseEq (lastaddFilterGroup st) (addfiltertype f))
    as [isNew|] eqn:HisNew; [|done]. cbn.
  destruct (if isNew
            then pg ← (if negb (looseEmpty (lastaddFilterGroup st))
                       then showGroup st else Some (page st));
                 Some (Loop (addfiltertype f) false pg (clicked st))
            else Some st) as [st1|] eqn:Hst1; [|done]. cbn.
  destruct (byId (data_text (addfilterid f))) as [key|] eqn:Hkey; [|done].
  cbn. apply byId_Some in Hkey as ->.
  set (key := data_text (addfilterid f)).
  intros Hst'.
  assert (exists pg1,
             (if isNew && negb (looseEmpty (lastaddFilterGroup st))
              then showGroup st = Some pg1 else pg1 = page st)
             /\ page st1 = pg1
             /\ lastaddFilterGroup st1
                = (if isNew then addfiltertype f else lastaddFilterGroup st)
             /\ showaddFilterGroup st1
                = (if isNew then false else showaddFilterGroup st))
    as (pg1 & Hpg1 & Hpage & Hlast & Hshow).
  { destruct isNew; cbn in *.
    - destruct (looseEmpty (lastaddFilterGroup st)); cbn in *.
      + injection Hst1 as <-. by exists (page st).
      + destruct (showGroup st) as [pg|]; [|done]. cbn in Hst1.
        injection Hst1 as <-. by exists pg.
    - injection Hst1 as <-. by exists (page st). }
  exists isNew, pg1. split.
  { destruct (looseEmpty (lastaddFilterGroup st)); [|done].
    by injection HisNew as <-. }
  split; [done|].
  destruct (checked f) eqn:Hchecked; cbn.
  - injection Hst' as <-. cbn. rewrite Hlast, Hpage. split_and!; try done.
    + intros k Hk. by apply setHidden_ne.
    + apply setHidden_eq.
  - assert (lastaddFilterGroup st' = lastaddFilterGroup st1
            /\ showaddFilterGroup st' = showaddFilterGroup st1
            /\ (forall k, k <> key ->
                          page st' !! k = setHidden true key (page st1) !! k)
            /\ hidden <$> page st' !! key
               = hidden <$> setHidden true key (page st1) !! key)
      as (Hl & Hs & Hother & Hkey).
    { destruct (setHidden true key (page st1) !! key)
        as [[h [|[|] rest]]|] eqn:Hel;
        injection Hst' as <-; cbn; split_and!;
        first [ done
              | intros k Hk; by apply lookup_insert_ne
              | by rewrite Hel
              | by rewrite lookup_insert_eq ]. }
    rewrite Hl, Hs, Hlast, Hshow. split_and!; try done.
    + intros k Hk. rewrite (Hother k Hk), <- Hpage. by apply setHidden_ne.
    + rewrite Hkey, <- Hpage. apply setHidden_eq.
Qed.

Lemma each_app fs1 : forall fs2 st,
  each (fs1 ++ fs2) st = each fs1 st ≫= each fs2.
Proof.
  induction fs1 as [|f fs1 IH]; intros fs2 st; cbn; [done|].
  destruct (body st f) as [st'|]; cbn; [apply IH|done].
Qed.

Lemma showGroup_other st pg k :
  showGroup st = Some pg ->
  data_text (lastaddFilterGroup st) +:+ "div" <> k ->
  pg !! k = page st !! k.
Proof.
  intros ->%showGroup_spec Hne. apply setHidden_ne. congruence.
Qed.

Lemma showGroup_is_Some st pg k :
  showGroup st = Some pg -> is_Some (page st !! k) -> is_Some (pg !! k).
Proof.
  intros ->%showGroup_spec [el Hel].
  destruct (decide (k = data_text (lastaddFilterGroup st) +:+ "div"))
    as [->|Hne].
  - apply (fmap_is_Some hidden). rewrite setHidden_eq, Hel. by eexists.
  - rewrite setHidden_ne by done. by eexists.
Qed.

Lemma body_is_Some st f st' k :
  body st f = Some st' -> is_Some (page st !! k) -> is_Some (page st' !! k).
Proof.
  intros (isNew & pg1 & _ & Hpg1 & _ & _ & Hother & Hkey)%body_spec Hin.
  assert (is_Some (pg1 !! k)) as Hin1.
  { destruct (isNew && _); [by eapply showGroup_is_Some|by subst]. }
  destruct (decide (k = data_text (addfilterid f))) as [->|Hne].
  - apply (fmap_is_Some hidden). rewrite Hkey.
    destruct Hin1 as [el ->]. by eexists.
  - by rewrite Hother.
Qed.

Lemma each_is_Some fs : forall st st' k,
  each fs st = Some st' -> is_Some (page st !! k) -> is_Some (page st' !! k).
Proof.
  induction fs as [|f fs IH]; intros st st' k; cbn.
  - by intros [= <-].
  - destruct (body st f) as [st1|] eqn:Hb; [|done]. cbn.
    intros Heach Hin. eapply IH; [done|]. by eapply body_is_Some.
Qed.

Lemma body_frame st f st' k :
  body st f = Some st' ->
  data_text (lastaddFilterGroup st) +:+ "div" <> k ->
  data_text (addfiltertype f) +:+ "div" <> k ->
  data_text (addfilterid f) <> k ->
  page st' !! k = page st !! k
  /\ data_text (lastaddFilterGroup st') +:+ "div" <> k.
Proof.
  intros (isNew & pg1 & _ & Hpg1 & Hlast & _ & Hother & _)%body_spec
         Hl Ht Hid.
  split.
  - rewrite Hother by congruence.
    destruct (isNew && _); [by eapply showGroup_other|by subst].
  - rewrite Hlast. by destruct isNew.
Qed.

Lemma each_frame fs k : forall st st',
  each fs st = Some st' ->
  data_text (lastaddFilterGroup st) +:+ "div" <> k ->
  Forall (fun g => data_text (addfiltertype g) +:+ "div" <> k) fs ->
  Forall (fun g => data_text (addfilterid g) <> k) fs ->
  page st' !! k = page st !! k
  /\ data_text (lastaddFilterGroup st') +:+ "div" <> k.
Proof.
  induction fs as [|f fs IH]; intros st st'; cbn.
  - by intros [= <-].
  - destruct (body st f) as [st1|] eqn:Hb; [|done]. cbn.
    intros Heach Hl [Ht Hts]%Forall_cons [Hid Hids]%Forall_cons.
    destruct (body_frame _ _ _ k Hb Hl Ht Hid) as [Hpage Hl1].
    destruct (IH _ _ Heach Hl1 Hts Hids) as [Hpage' Hl']. by rewrite Hpage'.
Qed.

Lemma each_last fs : forall st st',
  each fs st = Some st' ->
  lastaddFilterGroup st' = lastaddFilterGroup st
  \/ exists g, g ∈ fs /\ lastaddFilterGroup st' = addfiltertype g.
Proof.
  induction fs as [|f fs IH]; intros st st'; cbn.
  - intros [= <-]. by left.
  - destruct (body st f) as [st1|] eqn:Hb; [|done]. cbn. intros Heach.
    apply body_spec in Hb as (isNew & _ & _ & _ & Hlast & _).
    destruct (IH _ _ Heach) as [Hsame|(g & Hg & Hlast')].
    + rewrite Hsame, Hlast. destruct isNew; [|by left].
      right. exists f. split; [apply elem_of_cons; by left|done].
    + right. exists g. split; [apply elem_of_cons; by right|done].
Qed.

(** After the click, the side element of an additional filter is shown
    exactly when its checkbox is ticked.  This holds for every checkbox
    whose element is on the page, when no later checkbox names the same
    element and the element is not the div of one of the groups. *)
Theorem side_element_follows pre f post pg pg' clicks :
  setAdditionalFilters (pre ++ f :: post) pg = Some (pg', clicks) ->
  Forall (fun g => data_text (addfilterid g) <> data_text (addfilterid f))
         post ->
  Forall (fun g => data_text (addfiltertype g) +:+ "div"
                   <> data_text (addfilterid f))
         (pre ++ f :: post) ->
  is_Some (pg !! data_text (addfilterid f)) ->
  hidden <$> pg' !! data_text (addfilterid f) = Some (negb (checked f)).
Proof.
  set (key := data_text (addfilterid f)).
  unfold setAdditionalFilters. rewrite each_app. cbn.
  destruct (each pre _) as [st1|] eqn:Hpre; [|done]. cbn.
  destruct (body st1 f) as [st2|] eqn:Hf; [|done]. cbn.
  destruct (each post st2) as [st3|] eqn:Hpost; [|done]. cbn.
  destruct (showGroup st3) as [pg3|] eqn:Hend; [|done]. cbn.
  intros [= <- _] Hids Htypes Hin.
  apply Forall_app in Htypes as [Hpre_t [Hf_t Hpost_t]%Forall_cons].
  pose proof (each_is_Some _ _ _ key Hpre Hin) as Hin1.
  pose proof Hf as (isNew & pg1 & HisNew & Hpg1 & Hlast & _ & _ & Hkey)
                     %body_spec.
  assert (is_Some (pg1 !! key)) as [el Hel].
  { destruct (isNew && _); [by eapply showGroup_is_Some|by subst]. }
  assert (data_text (lastaddFilterGroup st2) +:+ "div" <> key) as Hl2.
  { rewrite Hlast. destruct isNew; [done|].
    destruct (each_last _ _ _ Hpre) as [Hsame|(g & Hg & ->)].
    - rewrite Hsame in HisNew. cbn in HisNew. done.
    - rewrite Forall_forall in Hpre_t. by apply Hpre_t. }
  destruct (each_frame _ key _ _ Hpost Hl2 Hpost_t Hids) as [Hpage3 Hl3].
  rewrite (showGroup_other _ _ key Hend Hl3), Hpage3.
  fold key in Hkey. by rewrite Hkey, Hel.
Qed.

Lemma string_length_app (s1 s2 : string) :
  String.length (s1 +:+ s2) = String.length s1 + String.length s2.
Proof. induction s1 as [|c s1 IH]; push_app; cbn; [done|]. by rewrite IH. Qed.

Lemma string_app_inv_tail (s1 s2 x : string) :
  s1 +:+ x = s2 +:+ x -> s1 = s2.
Proof.
  revert s2. induction s1 as [|c s1 IH]; intros [|c' s2]; push_app;
    intros H; try done.
  - apply (f_equal String.length) in H. cbn in H.
    rewrite string_length_app in H. lia.
  - apply (f_equal String.length) in H. cbn in H.
    rewrite string_length_app in H. lia.
  - injection H as -> H. f_equal. by apply IH.
Qed.

Lemma div_differs (a t : string) : a <> t -> a +:+ "div" <> t +:+ "div".
Proof. intros Hne Heq. by apply Hne, (string_app_inv_tail _ _ "div"). Qed.

(** The loop body on a group given by a text, coming after a group given
    by a text. *)
Lemma body_texts st f st' a b :
  body st f = Some st' ->
  lastaddFilterGroup st = DStr a ->
  addfiltertype f = DStr b ->
  let isNew := (a =? "") || negb (a =? b) in
  exists pg1,
    (if isNew && negb (a =? "") then showGroup st = Some pg1
     else pg1 = page st)
    /\ lastaddFilterGroup st' = DStr b
    /\ showaddFilterGroup st'
       = (checked f || (if isNew then false else showaddFilterGroup st))
    /\ (forall k, k <> data_text (addfilterid f) ->
                  page st' !! k = pg1 !! k).
Proof.
  intros (isNew & pg1 & HisNew & Hpg1 & Hlast & Hshow & Hother & _)%body_spec
         Ha Hb.
  rewrite Ha, Hb in *. cbn in HisNew, Hpg1.
  assert (isNew = (a =? "") || negb (a =? b)) as ->.
  { destruct (a =? ""); [done|]. cbn in *. by injection HisNew as <-. }
  exists pg1. split_and!; try done.
  destruct (String.eqb_spec a "") as [->|Hne]; cbn in *; [done|].
  destruct (String.eqb_spec a b) as [->|Hne']; by cbn in *.
Qed.

Lemma each_texts pre : forall st st' a,
  each pre st = Some st' ->
  lastaddFilterGroup st = DStr a ->
  Forall (fun g => exists b, addfiltertype g = DStr b) pre ->
  match last pre with
  | Some g => lastaddFilterGroup st' = addfiltertype g
  | None => lastaddFilterGroup st' = DStr a
  end.
Proof.
  induction pre as [|f pre IH]; intros st st' a; cbn.
  - by intros [= <-].
  - destruct (body st f) as [st1|] eqn:Hb; [|done]. cbn.
    intros Heach Ha [[b Hfb] Hpre]%Forall_cons.
    destruct (body_texts _ _ _ _ _ Hb Ha Hfb) as (_ & _ & Hlast & _).
    specialize (IH _ _ b Heach Hlast Hpre).
    destruct pre as [|g pre].
    { cbn in IH. cbn. by rewrite IH, Hfb. }
    rewrite last_cons_cons.
    destruct (last (g :: pre)) eqn:Hg; [exact IH|].
    by apply last_None in Hg.
Qed.

Lemma each_same_group rs t k : forall st st',
  each rs st = Some st' ->
  lastaddFilterGroup st = DStr t -> t <> "" ->
  Forall (fun g => addfiltertype g = DStr t) rs ->
  Forall (fun g => data_text (addfilterid g) <> k) rs ->
  lastaddFilterGroup st' = DStr t
  /\ showaddFilterGroup st' = (existsb checked rs || showaddFilterGroup st)
  /\ page st' !! k = page st !! k.
Proof.
  induction rs as [|g rs IH]; intros st st'; cbn.
  - by intros [= <-].
  - destruct (body st g) as [st1|] eqn:Hb; [|done]. cbn.
    intros Heach Hl Ht [Hg Hrs]%Forall_cons [Hid Hids]%Forall_cons.
    destruct (body_texts _ _ _ _ _ Hb Hl Hg)
      as (pg1 & Hpg1 & Hlast & Hshow & Hother).
    apply String.eqb_neq in Ht as Ht'.
    rewrite Ht', String.eqb_refl in Hpg1, Hshow. cbn in Hpg1, Hshow.
    subst pg1.
    destruct (IH _ _ Heach Hlast Ht Hrs Hids) as (Hl' & Hs' & Hp').
    split_and!; [done| |].
    + rewrite Hs', Hshow. by destruct (checked g), (existsb checked rs).
    + rewrite Hp'. apply Hother. congruence.
Qed.

(** After the click, the div of a group of additional filters is shown
    exactly when one of the checkboxes of the group is ticked.  The
    group is a run of checkboxes that follow one another under one
    non-empty name [t], the names being texts; the checkboxes before it
    do not end on that name and those after it do not bear it, and no
    checkbox of the group or after it names the div as its element. *)
Theorem group_div_follows pre run post t pg pg' clicks :
  setAdditionalFilters (pre ++ run ++ post) pg = Some (pg', clicks) ->
  t <> "" -> run <> [] ->
  Forall (fun g => exists b, addfiltertype g = DStr b) pre ->
  (forall g, last pre = Some g -> addfiltertype g <> DStr t) ->
  Forall (fun g => addfiltertype g = DStr t) run ->
  Forall (fun g => exists b, addfiltertype g = DStr b /\ b <> t) post ->
  Forall (fun g => data_text (addfilterid g) <> t +:+ "div") (run ++ post) ->
  is_Some (pg !! (t +:+ "div")) ->
  hidden <$> pg' !! (t +:+ "div") = Some (negb (existsb checked run)).
Proof.
  set (K := t +:+ "div").
  unfold setAdditionalFilters. rewrite each_app. cbn.
  destruct (each pre _) as [st1|] eqn:Hpre; [|done]. cbn.
  rewrite each_app.
  destruct run as [|r rs]; [done|]. cbn [each].
  destruct (body st1 r) as [st2|] eqn:Hr; [|done]. cbn.
  destruct (each rs st2) as [st3|] eqn:Hrs; [|done]. cbn.
  destruct (each post st3) as [st4|] eqn:Hpost; [|done]. cbn.
  destruct (showGroup st4) as [pg4|] eqn:Hend; [|done]. cbn.
  intros [= <- _] Ht _ Hpre_t Hpre_last [Hr_t Hrs_t]%Forall_cons Hpost_t
         [Hr_id [Hrs_id Hpost_id]%Forall_app]%Forall_cons Hin.
  (* before the group *)
  assert (exists a, lastaddFilterGroup st1 = DStr a /\ a <> t)
    as (a & Hl1 & Hat).
  { pose proof (each_texts pre _ _ "" Hpre eq_refl Hpre_t) as Hlast.
    destruct (last pre) as [g|] eqn:Hg.
    - rewrite Forall_forall in Hpre_t.
      destruct (Hpre_t g) as [b Hb]; [by eapply last_Some_elem_of|].
      exists b. split; [congruence|]. intros ->. by eapply Hpre_last.
    - exists "". by split. }
  pose proof (each_is_Some _ _ _ K Hpre Hin) as Hin1.
  (* the first checkbox of the group *)
  destruct (body_texts _ _ _ _ _ Hr Hl1 Hr_t)
    as (pg1 & Hpg1 & Hl2 & Hs2 & Hother2).
  assert ((a =? "") || negb (a =? t) = true) as HisNew.
  { apply String.eqb_neq in Hat. rewrite Hat. by destruct (a =? ""). }
  rewrite HisNew in Hpg1, Hs2. cbn in Hpg1, Hs2.
  assert (pg1 !! K = page st1 !! K) as Hpg1K.
  { destruct (negb (a =? "")); [|by subst].
    apply (showGroup_other _ _ K Hpg1). rewrite Hl1. cbn.
    by apply div_differs. }
  assert (page st2 !! K = page st1 !! K) as Hp2.
  { rewrite Hother2 by congruence. done. }
  (* the rest of the group *)
  destruct (each_same_group rs t K _ _ Hrs Hl2 Ht Hrs_t Hrs_id)
    as (Hl3 & Hs3 & Hp3).
  assert (showaddFilterGroup st3 = existsb checked (r :: rs)) as Hshow.
  { rewrite Hs3, Hs2. cbn.
    by destruct (checked r), (existsb checked rs). }
  assert (is_Some (page st3 !! K)) as [el Hel].
  { by rewrite Hp3, Hp2. }
  (* after the group *)
  destruct post as [|g post].
  - injection Hpost as <-.
    apply showGroup_spec in Hend as ->. rewrite Hl3. cbn. fold K.
    by rewrite setHidden_eq, Hel, Hshow.
  - cbn in Hpost.
    destruct (body st3 g) as [st5|] eqn:Hg; [|done]. cbn in Hpost.
    apply Forall_cons in Hpost_t as [(b & Hgb & Hbt) Hpost_t].
    apply Forall_cons in Hpost_id as [Hg_id Hpost_id].
    destruct (body_texts _ _ _ _ _ Hg Hl3 Hgb)
      as (pg5 & Hpg5 & Hl5 & _ & Hother5).
    assert ((t =? "") || negb (t =? b) = true) as HisNew'.
    { assert (t <> b) as Htb by congruence.
      apply String.eqb_neq in Htb. rewrite Htb. by destruct (t =? ""). }
    apply String.eqb_neq in Ht as Ht'.
    rewrite HisNew', Ht' in Hpg5. cbn in Hpg5.
    apply showGroup_spec in Hpg5. rewrite Hl3 in Hpg5. cbn in Hpg5.
    fold K in Hpg5.
    assert (hidden <$> page st5 !! K
            = Some (negb (existsb checked (r :: rs)))) as Hp5.
    { rewrite Hother5 by congruence.
      by rewrite Hpg5, setHidden_eq, Hel, Hshow. }
    assert (data_text (lastaddFilterGroup st5) +:+ "div" <> K) as Hl5'.
    { rewrite Hl5. cbn. by apply div_differs. }
    assert (Forall (fun g => data_text (addfiltertype g) +:+ "div" <> K)
                   post) as Hpost_t'.
    { eapply Forall_impl; [exact Hpost_t|].
      intros g' (b' & -> & Hb'). cbn. by apply div_differs. }
    destruct (each_frame _ K _ _ Hpost Hl5' Hpost_t' Hpost_id)
      as [Hp4 Hl4].
    by rewrite (showGroup_other _ _ K Hend Hl4), Hp4.
Qed.

Lemma side_element_follows_witness :
  exists pg' clicks,
    setAdditionalFilters
      ([AdditionalFilters.FilterBox false (DStr "Topic") (DStr "topicA")]
       ++ AdditionalFilters.FilterBox true (DStr "Topic") (DStr "topicB")
          :: [AdditionalFilters.FilterBox false (DStr "Year") (DStr "year5");
              AdditionalFilters.FilterBox false (DStr "Year")
                                          (DStr "year10")])
      sampleElements
    = Some (pg', clicks)
    /\ hidden <$> pg' !! "topicB" = Some false.
Proof.
  eexists _, _. split; [vm_compute; reflexivity|].
  eapply (side_element_follows
            [AdditionalFilters.FilterBox false (DStr "Topic")
                                         (DStr "topicA")]
            (AdditionalFilters.FilterBox true (DStr "Topic") (DStr "topicB"))
            [AdditionalFilters.FilterBox false (DStr "Year") (DStr "year5");
             AdditionalFilters.FilterBox false (DStr "Year") (DStr "year10")]
            sampleElements).
  - vm_compute. reflexivity.
  - repeat constructor; by cbn.
  - repeat constructor; by cbn.
  - by eexists.
Defined.

Lemma group_div_follows_witness :
  exists pg' clicks,
    setAdditionalFilters
      ([] ++ [AdditionalFilters.FilterBox false (DStr "Topic")
                                          (DStr "topicA");
              AdditionalFilters.FilterBox true (DStr "Topic")
                                          (DStr "topicB")]
          ++ [AdditionalFilters.FilterBox false (DStr "Year") (DStr "year5");
              AdditionalFilters.FilterBox false (DStr "Year")
                                          (DStr "year10")])
      sampleElements
    = Some (pg', clicks)
    /\ hidden <$> pg' !! "Topicdiv" = Some false.
Proof.
  eexists _, _. split; [vm_compute; reflexivity|].
  eapply (group_div_follows
            []
            [AdditionalFilters.FilterBox false (DStr "Topic")
                                         (DStr "topicA");
             AdditionalFilters.FilterBox true (DStr "Topic") (DStr "topicB")]
            [AdditionalFilters.FilterBox false (DStr "Year") (DStr "year5");
             AdditionalFilters.FilterBox false (DStr "Year") (DStr "year10")]
            "Topic" sampleElements).
  - vm_compute. reflexivity.
  - done.
  - done.
  - constructor.
  - done.
  - by repeat constructor.
  - repeat constructor; by eexists.
  - repeat constructor; by cbn.
  - by eexists.
Defined.

Lemma setHidden_inputs h key k (pg : gmap string element) :
  inputs <$> setHidden h key pg !! k = inputs <$> pg !! k.
Proof.
  unfold setHidden. destruct (decide (k = key)) as [->|Hne].
  - rewrite lookup_alter_eq. by destruct (pg !! key).
  - by rewrite lookup_alter_ne.
Qed.

Lemma sideTicked_inputs pg1 pg2 k :
  inputs <$> pg1 !! k = inputs <$> pg2 !! k ->
  sideTicked pg1 k = sideTicked pg2 k.
Proof.
  unfold sideTicked.
  destruct (pg1 !! k) as [[h1 i1]|], (pg2 !! k) as [[h2 i2]|]; cbn;
    intros [=]; by subst.
Qed.

(** The clicks of one run of the loop body, and the checkboxes inside
    the elements. *)
Lemma body_clicks st f st' :
  body st f = Some st' ->
  clicked st'
  = (clicked st
     ++ (if negb (checked f)
            && sideTicked (page st) (data_text (addfilterid f))
         then [data_text (addfilterid f)] else []))%list
  /\ (forall k, k <> data_text (addfilterid f) ->
                inputs <$> page st' !! k = inputs <$> page st !! k)
  /\ sideTicked (page st') (data_text (addfilterid f))
     = checked f && sideTicked (page st) (data_text (addfilterid f)).
Proof.
  unfold body.
  destruct (if looseEmpty (lastaddFilterGroup st) then Some true
            else negb <$> looseEq (lastaddFilterGroup st) (addfiltertype f))
    as [isNew|] eqn:HisNew; [|done]. cbn.
  destruct (if isNew
            then pg ← (if negb (looseEmpty (lastaddFilterGroup st))
                       then showGroup st else Some (page st));
                 Some (Loop (addfiltertype f) false pg (clicked st))
            else Some st) as [st1|] eqn:Hst1; [|done]. cbn.
  destruct (byId (data_text (addfilterid f))) as [key|] eqn:Hkey; [|done].
  cbn. apply byId_Some in Hkey as ->.
  set (key := data_text (addfilterid f)).
  intros Hst'.
  assert (clicked st1 = clicked st
          /\ forall k, inputs <$> page st1 !! k = inputs <$> page st !! k)
    as [Hclicked Hinputs].
  { destruct isNew; cbn in *; [|by injection Hst1 as <-].
    destruct (negb (looseEmpty (lastaddFilterGroup st))); cbn in *;
      [|by injection Hst1 as <-].
    destruct (showGroup st) as [pg|] eqn:Hpg; [|done]. cbn in Hst1.
    injection Hst1 as <-. cbn. split; [done|]. intros k.
    apply showGroup_spec in Hpg as ->. apply setHidden_inputs. }
  assert (sideTicked (page st1) key = sideTicked (page st) key) as Hticked
      by (by apply sideTicked_inputs).
  rewrite <- Hticked, <- Hclicked.
  destruct (checked f); cbn.
  - injection Hst' as <-. cbn. rewrite app_nil_r. split_and!; [done| |].
    + intros k Hk. by rewrite setHidden_inputs.
    + apply sideTicked_inputs, setHidden_inputs.
  - assert (sideTicked (setHidden true key (page st1)) key
            = sideTicked (page st1) key) as Hsame
        by apply sideTicked_inputs, setHidden_inputs.
    rewrite <- Hsame. unfold sideTicked in *.
    destruct (setHidden true key (page st1) !! key)
      as [[h [|[|] rest]]|] eqn:Hel;
      injection Hst' as <-; cbn; rewrite ?app_nil_r;
      (split_and!; [done| |]);
      first [ by rewrite Hel
            | by rewrite lookup_insert_eq
            | intros k Hk; rewrite ?lookup_insert_ne by done;
              by rewrite setHidden_inputs, Hinputs ].
Qed.

Lemma each_clicks fs : forall st st',
  each fs st = Some st' ->
  NoDup ((fun f => data_text (addfilterid f)) <$> fs) ->
  clicked st'
  = (clicked st
     ++ ((fun f => data_text (addfilterid f))
           <$> filter (fun f => checked f = false
                                /\ sideTicked (page st)
                                     (data_text (addfilterid f)) = true)
                      fs))%list
  /\ (forall f, f ∈ fs -> checked f = false ->
                sideTicked (page st') (data_text (addfilterid f)) = false)
  /\ (forall k, k ∉ (fun f => data_text (addfilterid f)) <$> fs ->
                inputs <$> page st' !! k = inputs <$> page st !! k).
Proof.
  induction fs as [|f fs IH]; intros st st'.
  - cbn. intros [= <-] _. rewrite app_nil_r. split_and!; [done| |done].
    by intros f Hf%elem_of_nil.
  - cbn [each]. destruct (body st f) as [st1|] eqn:Hb; [|done].
    rewrite fmap_cons. cbn [mbind option_bind].
    intros Heach [Hfresh Hnd]%NoDup_cons.
    destruct (body_clicks _ _ _ Hb) as (Hc1 & Hin1 & Ht1).
    destruct (IH _ _ Heach Hnd) as (Hc & Hun & Hrest).
    assert (forall g, g ∈ fs ->
              sideTicked (page st1) (data_text (addfilterid g))
              = sideTicked (page st) (data_text (addfilterid g))) as Hsame.
    { intros g Hg. apply sideTicked_inputs, Hin1. intros Heq.
      apply Hfresh. rewrite <- Heq.
      apply list_elem_of_fmap. by exists g. }
    split_and!.
    + rewrite Hc, Hc1, <- app_assoc. f_equal.
      assert (filter (fun g => checked g = false
                               /\ sideTicked (page st1)
                                    (data_text (addfilterid g)) = true) fs
              = filter (fun g => checked g = false
                                 /\ sideTicked (page st)
                                      (data_text (addfilterid g)) = true) fs)
        as ->.
      { clear -Hsame. induction fs as [|g fs IH]; [done|].
        rewrite !filter_cons.
        rewrite (Hsame g) by (apply elem_of_cons; by left).
        rewrite IH; [done|]. intros g' Hg'. apply Hsame.
        apply elem_of_cons. by right. }
      rewrite filter_cons.
      destruct (checked f) eqn:Hf, (sideTicked (page st) _) eqn:Ht; cbn;
        first [ by rewrite decide_True by done
              | by rewrite decide_False by (by intros [? ?]) ].
    + intros g [->|Hg]%elem_of_cons Hun_g; [|by apply Hun].
      rewrite (sideTicked_inputs (page st') (page st1)).
      * by rewrite Ht1, Hun_g.
      * by apply Hrest.
    + intros k Hk. apply not_elem_of_cons in Hk as [Hk1 Hk2].
      by rewrite (Hrest k Hk2), (Hin1 k Hk1).
Qed.

(** The loop clicks the checkbox inside the side element of exactly
    those additional filters that are not ticked while that checkbox is
    ticked, in the order of the filters, and leaves the checkbox inside
    the side element of every unticked filter clear.  This holds when no
    two additional filters name the same side element. *)
Theorem unticked_filters_are_clicked fs pg pg' clicks :
  setAdditionalFilters fs pg = Some (pg', clicks) ->
  NoDup ((fun f => data_text (addfilterid f)) <$> fs) ->
  clicks
  = (fun f => data_text (addfilterid f))
      <$> filter (fun f => checked f = false
                           /\ sideTicked pg (data_text (addfilterid f))
                              = true) fs
  /\ forall f, f ∈ fs -> checked f = false ->
               sideTicked pg' (data_text (addfilterid f)) = false.
Proof.
  unfold setAdditionalFilters.
  destruct (each fs _) as [st|] eqn:Heach; [|done]. cbn.
  destruct (showGroup st) as [pg1|] eqn:Hend; [|done]. cbn.
  intros [= <- <-] Hnd.
  destruct (each_clicks _ _ _ Heach Hnd) as (Hc & Hun & _).
  split; [exact Hc|].
  intros f Hf Hunticked.
  rewrite (sideTicked_inputs pg1 (page st)); [by apply Hun|].
  apply showGroup_spec in Hend as ->. apply setHidden_inputs.
Qed.

Lemma unticked_filters_are_clicked_witness :
  exists pg' clicks,
    setAdditionalFilters sampleAdditional sampleElements
    = Some (pg', clicks)
    /\ clicks = ["topicA"].
Proof.
  eexists _, _. split; [vm_compute; reflexivity|].
  refine (proj1 (unticked_filters_are_clicked sampleAdditional
                   sampleElements _ _ _ _)).
  - vm_compute. reflexivity.
  - cbn. by apply (bool_decide_unpack _).
Defined.

End AdditionalFiltersFacts.
